(** * jsonToIff: fixed-width ("IFF") rendering of JSON records

    A shallow embedding of [src/jsonToIff.py]: the formatter
    ([format_number], [format_field]), the record builder ([process_json]),
    the file emitter (the part of [main] after the three inputs were
    read) and the two readers ([read_config], [read_metadata]), together
    with the Python builtins these functions call ([str], [float], [int],
    [len], slicing, [ljust], [strip], [split], [sorted], the [','] and
    ['06'] format specifications, [os.path.join] and [os.path.basename]).
    The rows of [csv.reader] and the value of [json.load] are taken as
    given.

    Conventions.
    - A Python [str] is a [string]; every [ascii] stands for one character
      (code points 0..255), so [len] counts characters.
    - A Python [int] is a [Z]; a Python [float] is a binary64 value
      ([pyfloat]) with round-to-nearest-even conversions written out over
      exact integer arithmetic.
    - A raised exception is a value of [exn]; a call that can raise returns
      [result]; code that also logs runs in the monad [M]. *)

From Stdlib Require Import ZArith List String Ascii Bool Lia Permutation Sorted.
Import ListNotations.

#[local] Set Warnings "-register-all".

Local Open Scope string_scope.
Local Open Scope Z_scope.

(** ** Python [str] operations *)

Module PyStr.

(** [len(s)] *)
Definition len (s : string) : Z := Z.of_nat (String.length s).

Fixpoint repeat_char (c : ascii) (n : nat) : string :=
  match n with
  | O => EmptyString
  | S k => String c (repeat_char c k)
  end.

(** [' ' * n]: the empty string when [n <= 0]. *)
Definition spaces (n : Z) : string := repeat_char " "%char (Z.to_nat n).

(** [s.ljust(width)] and [s.ljust(width, ' ')]: [s] itself when it is
    already [width] characters or more. *)
Definition ljust (s : string) (width : Z) : string :=
  if width <=? len s then s else s ++ spaces (width - len s).

Fixpoint take (n : nat) (s : string) : string :=
  match n, s with
  | S k, String c r => String c (take k r)
  | _, _ => EmptyString
  end.

Fixpoint drop (n : nat) (s : string) : string :=
  match n, s with
  | S k, String _ r => drop k r
  | _, _ => s
  end.

(** [s[:n]]: a negative bound counts from the end. *)
Definition slice_to (s : string) (n : Z) : string :=
  if 0 <=? n then take (Z.to_nat n) s else take (Z.to_nat (len s + n)) s.

(** [s.split(sep)] for a one-character separator: never an empty list. *)
Fixpoint split (sep : ascii) (s : string) : list string :=
  match s with
  | EmptyString => [EmptyString]
  | String c r =>
      if Ascii.eqb c sep then EmptyString :: split sep r
      else match split sep r with
           | [] => [String c EmptyString]
           | p :: ps => String c p :: ps
           end
  end.

(** [''.join(parts)] *)
Definition join (parts : list string) : string :=
  fold_right String.append EmptyString parts.

Fixpoint rev_append (s acc : string) : string :=
  match s with
  | EmptyString => acc
  | String c r => rev_append r (String c acc)
  end.

Definition rev (s : string) : string := rev_append s EmptyString.

Fixpoint forallb (p : ascii -> bool) (s : string) : bool :=
  match s with
  | EmptyString => true
  | String c r => p c && forallb p r
  end.

Fixpoint map (f : ascii -> ascii) (s : string) : string :=
  match s with
  | EmptyString => EmptyString
  | String c r => String (f c) (map f r)
  end.

Definition code (c : ascii) : Z := Z.of_N (N_of_ascii c).

Definition is_digit (c : ascii) : bool := (48 <=? code c) && (code c <=? 57).

Definition digit_val (c : ascii) : Z := code c - 48.

Definition digit_char (d : Z) : ascii := ascii_of_N (Z.to_N (48 + d)).

(** The characters [float] and [int] strip from both ends of a [str]:
    the ASCII ones tab, line feed, vertical tab, form feed, carriage
    return and space, and (after their translation to a space) the
    Unicode white space above 127, which below 256 is U+0085 and
    U+00A0. *)
Definition is_space (c : ascii) : bool :=
  ((9 <=? code c) && (code c <=? 13)) || (code c =? 32)
  || (code c =? 133) || (code c =? 160).

Fixpoint lstrip (s : string) : string :=
  match s with
  | String c r => if is_space c then lstrip r else s
  | EmptyString => EmptyString
  end.

Definition strip (s : string) : string := rev (lstrip (rev (lstrip s))).

(** ASCII lower case, as the C parser compares [inf] and [nan]. *)
Definition lower (c : ascii) : ascii :=
  if (65 <=? code c) && (code c <=? 90)
  then ascii_of_N (Z.to_N (code c + 32)) else c.

(** An underscore in a numeric literal stands between two digits; the
    literal is then read with the underscores removed.  [prev] tells
    whether the character before was a digit. *)
Fixpoint underscores_ok (prev : bool) (s : string) : bool :=
  match s with
  | EmptyString => true
  | String c r =>
      if Ascii.eqb c "_"%char
      then prev && match r with
                   | String d _ => is_digit d
                   | EmptyString => false
                   end && underscores_ok false r
      else underscores_ok (is_digit c) r
  end.

Fixpoint remove_underscores (s : string) : string :=
  match s with
  | EmptyString => EmptyString
  | String c r =>
      if Ascii.eqb c "_"%char then remove_underscores r
      else String c (remove_underscores r)
  end.

(** An optional sign in front of a numeric literal: whether it is a
    minus sign, and the rest. *)
Definition split_sign (s : string) : bool * string :=
  match s with
  | String c r =>
      if Ascii.eqb c "-"%char then (true, r)
      else if Ascii.eqb c "+"%char then (false, r)
      else (false, s)
  | EmptyString => (false, s)
  end.

End PyStr.

Import PyStr.

(** ** Python [int]: text and formatting *)

Module PyInt.

Fixpoint digits_fuel (fuel : nat) (n : Z) (acc : string) : string :=
  match fuel with
  | O => acc
  | S f =>
      let acc' := String (digit_char (n mod 10)) acc in
      if n <? 10 then acc' else digits_fuel f (n / 10) acc'
  end.

(** Decimal digits of [n >= 0], most significant first; ["0"] for 0. *)
Definition digits (n : Z) : string :=
  digits_fuel (S (Z.to_nat (Z.log2 n))) n EmptyString.

(** [str(n)] for an [int]. *)
Definition str (n : Z) : string :=
  if n <? 0 then String "-" (digits (- n)) else digits n.

(** Value of a string of decimal digits, most significant first. *)
Fixpoint digits_val (acc : Z) (s : string) : Z :=
  match s with
  | EmptyString => acc
  | String c r => digits_val (10 * acc + digit_val c) r
  end.

(** [int(s)] for a [str] in base 10: [None] stands for [ValueError]. *)
Definition of_str (s : string) : option Z :=
  let '(neg, body) := split_sign (strip s) in
  if underscores_ok false body then
    let d := remove_underscores body in
    match d with
    | EmptyString => None
    | _ => if forallb is_digit d
           then Some (if neg then - digits_val 0 d else digits_val 0 d)
           else None
    end
  else None.

(** Thousands separators over a digit string [s] whose length is
    [n = length s]: a comma before every digit that has a positive
    multiple of three digits to its right. *)
Fixpoint group3 (n : nat) (s : string) : string :=
  match s with
  | EmptyString => EmptyString
  | String c r =>
      match n with
      | O => s
      | S k =>
          let tail := group3 k r in
          match r with
          | EmptyString => String c tail
          | _ => if (k mod 3 =? 0)%nat then String c (String "," tail)
                 else String c tail
          end
      end
  end.

(** [format(n, ',')], the [{n:,}] of an f-string. *)
Definition format_comma (n : Z) : string :=
  let d := digits (Z.abs n) in
  let g := group3 (String.length d) d in
  if n <? 0 then String "-" g else g.

(** [format(n, '06')], the [{n:06}] of an f-string: zeros between the
    sign and the digits up to a width of 6. *)
Definition format_06 (n : Z) : string :=
  let d := digits (Z.abs n) in
  if n <? 0 then String "-" (repeat_char "0" (5 - String.length d) ++ d)
  else repeat_char "0" (6 - String.length d) ++ d.

End PyInt.

(** ** Python [float]: binary64 values, [float(...)] and [repr] *)

Module PyFloat.

(** A binary64 value.  [Finite neg m e] is [(-1)^neg * m * 2^e] with
    [2^52 <= m < 2^53] and [-1074 <= e <= 971], or [m < 2^52] and
    [e = -1074] (subnormal). *)
Inductive pyfloat : Type :=
| Nan
| Inf (neg : bool)
| Zero (neg : bool)
| Finite (neg : bool) (m : positive) (e : Z).

Definition eqb (x y : pyfloat) : bool :=
  match x, y with
  | Nan, Nan => true
  | Inf a, Inf b => Bool.eqb a b
  | Zero a, Zero b => Bool.eqb a b
  | Finite a m e, Finite b n f => Bool.eqb a b && Pos.eqb m n && (e =? f)
  | _, _ => false
  end.

(** The binary exponent at which the quotient [num / den] has 53
    significant bits, not below the subnormal exponent. *)
Definition binade (num den : Z) : Z :=
  let e0 := Z.log2 num - Z.log2 den - 52 in
  let q0 := if 0 <=? e0 then num / (den * 2 ^ e0) else (num * 2 ^ (- e0)) / den in
  Z.max (if q0 <? 2 ^ 52 then e0 - 1 else e0) (-1074).

(** The binary64 value nearest to the rational [num / den]
    ([num > 0], [den > 0]), ties to the even significand; overflow
    gives an infinity, underflow a zero. *)
Definition round_pos (neg : bool) (num den : Z) : pyfloat :=
  let e := binade num den in
  let n := if 0 <=? e then num else num * 2 ^ (- e) in
  let d := if 0 <=? e then den * 2 ^ e else den in
  let q := n / d in
  let r := n mod d in
  let q' := if (d <? 2 * r) || ((d =? 2 * r) && Z.odd q) then q + 1 else q in
  let '(m, e') := if q' =? 2 ^ 53 then (2 ^ 52, e + 1) else (q', e) in
  if m =? 0 then Zero neg
  else if 971 <? e' then Inf neg
  else Finite neg (Z.to_pos m) e'.

(** The value of the decimal [m * 10^e], [m >= 0]. *)
Definition of_decimal (neg : bool) (m e : Z) : pyfloat :=
  if m =? 0 then Zero neg
  else if 0 <=? e then round_pos neg (m * 10 ^ e) 1
  else round_pos neg m (10 ^ (- e)).

(** [float(n)] for an [int]: [None] stands for [OverflowError]. *)
Definition of_int (n : Z) : option pyfloat :=
  if n =? 0 then Some (Zero false)
  else match round_pos (n <? 0) (Z.abs n) 1 with
       | Inf _ => None
       | f => Some f
       end.

(** Longest prefix of digits, and the rest. *)
Fixpoint span_digits (s : string) : string * string :=
  match s with
  | String c r =>
      if is_digit c
      then let '(d, t) := span_digits r in (String c d, t)
      else (EmptyString, s)
  | EmptyString => (EmptyString, EmptyString)
  end.

(** The exponent part of a literal: [Some 0] when there is none. *)
Definition parse_exponent (s : string) : option Z :=
  match s with
  | EmptyString => Some 0
  | String c r =>
      if Ascii.eqb (lower c) "e"%char then
        let '(eneg, r') := split_sign r in
        let '(ed, rest) := span_digits r' in
        match ed, rest with
        | String _ _, EmptyString =>
            Some (if eneg then - PyInt.digits_val 0 ed else PyInt.digits_val 0 ed)
        | _, _ => None
        end
      else None
  end.

(** A literal without white space and underscores. *)
Definition parse_plain (s : string) : option pyfloat :=
  let '(neg, body) := split_sign s in
  let word := PyStr.map lower body in
  if String.eqb word "inf" || String.eqb word "infinity" then Some (Inf neg)
  else if String.eqb word "nan" then Some Nan
  else
    let '(ip, r1) := span_digits body in
    let '(fp, r2) :=
      match r1 with
      | String "." r => span_digits r
      | _ => (EmptyString, r1)
      end in
    match (ip ++ fp)%string with
    | EmptyString => None
    | mant =>
        match parse_exponent r2 with
        | Some ex =>
            Some (of_decimal neg (PyInt.digits_val 0 mant) (ex - len fp))
        | None => None
        end
    end.

(** [float(s)] for a [str]: [None] stands for [ValueError]. *)
Definition of_str (s : string) : option pyfloat :=
  let t := strip s in
  if underscores_ok false t then parse_plain (remove_underscores t) else None.

(** The decimal exponent [k] of [num / den > 0]:
    [10^(k-1) <= num / den < 10^k]. *)
Fixpoint leading_zeros (fuel : nat) (num den : Z) (j : Z) : Z :=
  match fuel with
  | O => j
  | S f => if den <=? num * 10 ^ j then j else leading_zeros f num den (j + 1)
  end.

Definition dec_exponent (num den : Z) : Z :=
  if den <=? num then len (PyInt.digits (num / den))
  else 1 - leading_zeros 400 num den 1.

(** The two [n]-digit decimals around [num / den], the nearer first
    (the even one on a tie), and their exponent: [(c1, c2, q)] stands
    for [c1 * 10^q] and [c2 * 10^q], where [q = k - n]. *)
Definition neighbours (num den k n : Z) : Z * Z * Z :=
  let q := k - n in
  let sn := if 0 <=? q then num else num * 10 ^ (- q) in
  let sd := if 0 <=? q then den * 10 ^ q else den in
  let lo := sn / sd in
  let r := sn mod sd in
  let hi := lo + 1 in
  if (2 * r <? sd) || ((2 * r =? sd) && Z.even lo) then (lo, hi, q) else (hi, lo, q).

(** Whether the decimal [c * 10^q] reads back as [x]. *)
Definition reads_back (x : pyfloat) (c q : Z) : bool := eqb (of_decimal false c q) x.

(** The shortest decimal that reads back as [x], the nearest to [x]
    among those of its length: [n] digits are tried for
    [n = 1, 2, ..., 16]; 17 digits always identify a binary64 value,
    so the nearest decimal of 17 digits is taken as it is.  [fuel] is
    [17 - n]. *)
Fixpoint shortest (fuel : nat) (x : pyfloat) (num den k n : Z) : Z * Z :=
  let '(c1, c2, q) := neighbours num den k n in
  match fuel with
  | O => (c1, q)
  | S f =>
      if reads_back x c1 q then (c1, q)
      else if reads_back x c2 q then (c2, q)
      else shortest f x num den k (n + 1)
  end.

Fixpoint strip_zeros_rev (s : string) : string :=
  match s with
  | String "0" r => strip_zeros_rev r
  | _ => s
  end.

(** The shortest digit string [ds] and decimal point position [decpt]
    with [0.ds * 10^decpt] reading back as [Finite false m e]. *)
Definition shortest_digits (m : positive) (e : Z) : string * Z :=
  let num := if 0 <=? e then Z.pos m * 2 ^ e else Z.pos m in
  let den := if 0 <=? e then 1 else 2 ^ (- e) in
  let k := dec_exponent num den in
  let '(c, q) := shortest 16 (Finite false m e) num den k 1 in
  let ds := PyInt.digits c in
  (rev (strip_zeros_rev (rev ds)), q + len ds).

(** The exponent of the scientific form: a sign and two digits or more. *)
Definition exp_text (x : Z) : string :=
  let d := PyInt.digits (Z.abs x) in
  String (if x <? 0 then "-"%char else "+"%char)
         (if len d <? 2 then String "0" d else d).

(** [float_repr_style = 'short'], format code ['r']: positional form
    when [-4 < decpt <= 16], scientific otherwise. *)
Definition layout (ds : string) (decpt : Z) : string :=
  let n := len ds in
  if (-4 <? decpt) && (decpt <=? 16) then
    if decpt <=? 0 then
      "0." ++ repeat_char "0" (Z.to_nat (- decpt)) ++ ds
    else if n <=? decpt then
      ds ++ repeat_char "0" (Z.to_nat (decpt - n)) ++ ".0"
    else
      take (Z.to_nat decpt) ds ++ "." ++ drop (Z.to_nat decpt) ds
  else
    match ds with
    | String c EmptyString => String c ("e" ++ exp_text (decpt - 1))
    | String c r => String c ("." ++ r ++ "e" ++ exp_text (decpt - 1))
    | EmptyString => EmptyString
    end.

(** [repr(x)], which is also [str(x)]. *)
Definition repr (x : pyfloat) : string :=
  match x with
  | Nan => "nan"
  | Inf neg => if neg then "-inf" else "inf"
  | Zero neg => if neg then "-0.0" else "0.0"
  | Finite neg m e =>
      let '(ds, decpt) := shortest_digits m e in
      let body := layout ds decpt in
      if neg then String "-" body else body
  end.

End PyFloat.

Import PyFloat.

(** ** Values of [json.load] and their text *)

(** What [json.load] returns: [None], a [bool], an [int], a [float], a
    [str], a [list], or a [dict] with [str] keys (each key once, in the
    order of the document). *)
Inductive pyval : Type :=
| PNone
| PBool (b : bool)
| PInt (n : Z)
| PFloat (x : pyfloat)
| PStr (s : string)
| PList (items : list pyval)
| PDict (entries : list (string * pyval)).

Module PyRepr.

Definition hex_digit (d : Z) : ascii :=
  if d <? 10 then digit_char d else ascii_of_N (Z.to_N (87 + d)).

(** Characters [repr] writes as they are: the printable ones. Below
    256 the others are the controls 0..31 and 127..159, the no-break
    space 160 and the soft hyphen 173. *)
Definition printable (c : ascii) : bool :=
  let n := code c in
  (32 <=? n) && negb ((127 <=? n) && (n <=? 160)) && negb (n =? 173).

Definition escape (quote : ascii) (c : ascii) : string :=
  if Ascii.eqb c quote || Ascii.eqb c "\"%char then String "\" (String c "")
  else if code c =? 9 then "\t"
  else if code c =? 10 then "\n"
  else if code c =? 13 then "\r"
  else if printable c then String c ""
  else String "\" (String "x" (String (hex_digit (code c / 16))
                                      (String (hex_digit (code c mod 16)) ""))).

Fixpoint escape_all (quote : ascii) (s : string) : string :=
  match s with
  | EmptyString => EmptyString
  | String c r => escape quote c ++ escape_all quote r
  end.

Fixpoint contains (c : ascii) (s : string) : bool :=
  match s with
  | EmptyString => false
  | String d r => Ascii.eqb c d || contains c r
  end.

(** The double quote character. *)
Definition dquote : ascii := ascii_of_N 34.

(** [repr(s)] for a [str]: double quotes only when [s] has a single
    quote and no double quote. *)
Definition repr_str (s : string) : string :=
  let quote :=
    if contains "'" s && negb (contains dquote s) then dquote else "'"%char in
  String quote (escape_all quote s ++ String quote "").

(** [sep.join(parts)] *)
Fixpoint join_with (sep : string) (parts : list string) : string :=
  match parts with
  | [] => EmptyString
  | [p] => p
  | p :: ps => p ++ sep ++ join_with sep ps
  end.

(** [repr(v)] *)
Fixpoint repr (v : pyval) : string :=
  match v with
  | PNone => "None"
  | PBool b => if b then "True" else "False"
  | PInt n => PyInt.str n
  | PFloat x => PyFloat.repr x
  | PStr s => repr_str s
  | PList items => "[" ++ join_with ", " (List.map repr items) ++ "]"
  | PDict entries =>
      "{" ++ join_with ", "
               (List.map (fun kv => repr_str (fst kv) ++ ": " ++ repr (snd kv)) entries)
          ++ "}"
  end.

(** [str(v)], also what [f"{v}"] inserts. *)
Definition str (v : pyval) : string :=
  match v with
  | PStr s => s
  | _ => repr v
  end.

End PyRepr.

(** [d.get(key, default)] *)
Fixpoint dict_get (d : list (string * pyval)) (key : string) (default : pyval) : pyval :=
  match d with
  | [] => default
  | (k, v) :: r => if String.eqb k key then v else dict_get r key default
  end.

(** ** Exceptions and logging *)

Inductive exn : Type :=
| ValueError (msg : string)
| TypeError (msg : string)
| OverflowError (msg : string)
| KeyError (key : string).

Inductive result (A : Type) : Type :=
| Ok (a : A)
| Raise (e : exn).

Arguments Ok {A} a.
Arguments Raise {A} e.

Definition rbind {A B : Type} (r : result A) (k : A -> result B) : result B :=
  match r with
  | Ok a => k a
  | Raise e => Raise e
  end.

Inductive level : Type := INFO | WARNING | ERROR.

Definition log_record : Type := level * string.

(** A computation that appends to the log and returns or raises; the
    records written before a raise stay written. *)
Definition M (A : Type) : Type := list log_record -> result A * list log_record.

Definition ret {A : Type} (a : A) : M A := fun log => (Ok a, log).

Definition bind {A B : Type} (m : M A) (k : A -> M B) : M B :=
  fun log =>
    match m log with
    | (Ok a, log') => k a log'
    | (Raise e, log') => (Raise e, log')
    end.

Definition lift {A : Type} (r : result A) : M A := fun log => (r, log).

(** [logging.warning(msg)], [logging.error(msg)], [logging.info(msg)] *)
Definition logging (lv : level) (msg : string) : M unit :=
  fun log => (Ok tt, (log ++ [(lv, msg)])%list).

(** [try: m  except ValueError as e: handler(str(e))] *)
Definition except_ValueError {A : Type} (m : M A) (handler : string -> M A) : M A :=
  fun log =>
    match m log with
    | (Raise (ValueError msg), log') => handler msg log'
    | other => other
    end.

Declare Scope py_scope.
Delimit Scope py_scope with py.
Notation "x <- m ;; k" := (bind m (fun x => k))
  (at level 61, m at next level, right associativity) : py_scope.
Notation "m ;;; k" := (bind m (fun _ => k))
  (at level 61, right associativity) : py_scope.
Notation "x <~ r ;; k" := (rbind r (fun x => k))
  (at level 61, r at next level, right associativity) : py_scope.

Local Open Scope py_scope.

(** ** The builtins as the program calls them *)

Definition type_name (v : pyval) : string :=
  match v with
  | PNone => "NoneType"
  | PBool _ => "bool"
  | PInt _ => "int"
  | PFloat _ => "float"
  | PStr _ => "str"
  | PList _ => "list"
  | PDict _ => "dict"
  end.

(** [float(value)] *)
Definition py_float (value : pyval) : result pyfloat :=
  match value with
  | PFloat x => Ok x
  | PBool b => Ok (if b then Finite false (2 ^ 52) (-52) else Zero false)
  | PInt n =>
      match PyFloat.of_int n with
      | Some x => Ok x
      | None => Raise (OverflowError "int too large to convert to float")
      end
  | PStr s =>
      match PyFloat.of_str s with
      | Some x => Ok x
      | None =>
          Raise (ValueError ("could not convert string to float: " ++ PyRepr.repr_str s))
      end
  | _ =>
      Raise (TypeError ("float() argument must be a string or a real number, not '"
                        ++ type_name value ++ "'"))
  end.

(** [int(s)] for a [str] *)
Definition py_int (s : string) : result Z :=
  match PyInt.of_str s with
  | Some n => Ok n
  | None =>
      Raise (ValueError ("invalid literal for int() with base 10: " ++ PyRepr.repr_str s))
  end.

(** [a, b = parts] *)
Definition unpack2 (parts : list string) : result (string * string) :=
  match parts with
  | [a; b] => Ok (a, b)
  | _ :: _ :: _ :: _ => Raise (ValueError "too many values to unpack (expected 2)")
  | _ =>
      Raise (ValueError ("not enough values to unpack (expected 2, got "
                         ++ PyInt.str (Z.of_nat (List.length parts)) ++ ")"))
  end.

(** [value == ""] *)
Definition is_empty_str (value : pyval) : bool :=
  match value with
  | PStr EmptyString => true
  | _ => false
  end.

(** [value is None] *)
Definition is_None (value : pyval) : bool :=
  match value with
  | PNone => true
  | _ => false
  end.

(** [isinstance(v, list)], [isinstance(v, dict)] *)
Definition is_list (v : pyval) : bool :=
  match v with PList _ => true | _ => false end.

Definition is_dict (v : pyval) : bool :=
  match v with PDict _ => true | _ => false end.

(** ** The formatter *)

(** The [try] block of [format_number]. *)
Definition format_number_body (value : pyval) (length : Z) : result string :=
  float_value <~ py_float value ;;
  parts <~ unpack2 (split "." (PyFloat.repr float_value)) ;;
  let '(integer_part, decimal_part) := parts in
  n <~ py_int integer_part ;;
  let formatted_number := PyInt.format_comma n ++ "." ++ decimal_part in
  if length <? len formatted_number then
    Raise (ValueError ("Formatted number '" ++ formatted_number
                       ++ "' exceeds the specified length of "
                       ++ PyInt.str length ++ "."))
  else Ok (ljust formatted_number length).

(** [format_number(value, length)]: blanks for [""] and [None]; the
    [except ValueError] clause replaces every ValueError of the [try]
    block (from [float], from the unpacking, from [int], and the one
    raised for a number that is too long) by "Value is not a number";
    other exceptions pass through. *)
Definition format_number (value : pyval) (length : Z) : result string :=
  if is_empty_str value || is_None value then Ok (spaces length)
  else
    match format_number_body value length with
    | Raise (ValueError _) =>
        Raise (ValueError ("Value is not a number: " ++ PyRepr.str value))
    | r => r
    end.

(** [format_field(value, field_type, length)]: every type other than
    ['Number'] is formatted as a string. *)
Definition format_field (value : pyval) (field_type : string) (length : Z)
  : result string :=
  if String.eqb field_type "Number" then format_number value length
  else
    let value_str := PyRepr.str value in
    Ok (ljust (slice_to value_str length) length).

(** ** The record builder *)

(** A row of the schema: [(position, field_name, field_type, length)]. *)
Definition field_spec : Type := Z * string * string * Z.

Definition position (f : field_spec) : Z := let '(p, _, _, _) := f in p.
Definition field_name (f : field_spec) : string := let '(_, n, _, _) := f in n.
Definition field_type (f : field_spec) : string := let '(_, _, t, _) := f in t.
Definition field_length (f : field_spec) : Z := let '(_, _, _, l) := f in l.

(** [sorted(metadata, key=lambda x: x[0])]: the stable sort by position,
    written as the insertion of each row after the rows of the sorted
    rest that come strictly before it. *)
Fixpoint insert_by_position (x : field_spec) (l : list field_spec) : list field_spec :=
  match l with
  | [] => [x]
  | y :: r =>
      if position x <=? position y then x :: l
      else y :: insert_by_position x r
  end.

Fixpoint sorted (metadata : list field_spec) : list field_spec :=
  match metadata with
  | [] => []
  | x :: r => insert_by_position x (sorted r)
  end.

(** The body of the inner [for] loop: one field of one item ([item] is
    a [dict] there, so [value] is [item.get(field_name, "")]); only a
    ValueError of [format_field] is caught. *)
Definition format_item_field (item : list (string * pyval)) (f : field_spec) : M string :=
  let '(_, field_name, field_type, length) := f in
  let value := dict_get item field_name (PStr "") in
  except_ValueError
    (lift (format_field value field_type length))
    (fun e =>
       logging ERROR ("Error formatting field: " ++ e) ;;;
       ret (spaces length)).

(** The inner [for] loop: [formatted_fields] after the rows [fs]. *)
Fixpoint format_fields (item : list (string * pyval)) (fs : list field_spec)
  : M (list string) :=
  match fs with
  | [] => ret []
  | f :: r =>
      formatted_field <- format_item_field item f ;;
      rest <- format_fields item r ;;
      ret (formatted_field :: rest)
  end.

(** The outer [for] loop: the lines of [items]. *)
Fixpoint process_items (items : list pyval) (metadata : list field_spec)
  : M (list string) :=
  match items with
  | [] => ret []
  | item :: r =>
      match item with
      | PDict d =>
          formatted_fields <- format_fields d (sorted metadata) ;;
          let line := join formatted_fields in
          lines <- process_items r metadata ;;
          ret (line :: lines)
      | _ =>
          logging WARNING ("Skipping item because it's not a dictionary: "
                           ++ PyRepr.str item) ;;;
          process_items r metadata
      end
  end.

(** [process_json(json_data, metadata)]: a value that is not a list is
    wrapped in one. *)
Definition process_json (json_data : pyval) (metadata : list field_spec)
  : M (list string) :=
  let json_data :=
    match json_data with
    | PList items => items
    | _ => [json_data]
    end in
  process_items json_data metadata.

(** ** The file emitter *)

(** [os.path.join(a, b)] and [os.path.basename(p)] of [posixpath]. *)
Fixpoint ends_with_slash (s : string) : bool :=
  match s with
  | EmptyString => false
  | String c EmptyString => Ascii.eqb c "/"
  | String _ r => ends_with_slash r
  end.

Definition path_join (a b : string) : string :=
  match b with
  | String "/" _ => b
  | _ => if String.eqb a "" || ends_with_slash a then a ++ b else a ++ "/" ++ b
  end.

Fixpoint basename (p : string) : string :=
  match p with
  | EmptyString => EmptyString
  | String c r =>
      if PyRepr.contains "/" p then basename r else p
  end.

(** [config[key]] and [config.get(key, default)] *)
Fixpoint config_get (config : list (string * string)) (key default : string) : string :=
  match config with
  | [] => default
  | (k, v) :: r => if String.eqb k key then v else config_get r key default
  end.

Fixpoint config_item (config : list (string * string)) (key : string) : result string :=
  match config with
  | [] => Raise (KeyError key)
  | (k, v) :: r => if String.eqb k key then Ok v else config_item r key
  end.

(** [max(lengths) if lengths else 0] *)
Definition max_or_0 (lengths : list Z) : Z :=
  match lengths with
  | [] => 0
  | x :: r => fold_left Z.max r x
  end.

(** A file written by the run: its path and its content. *)
Definition file : Type := string * string.

(** [main] with the three reads as arguments: [config] is what
    [read_config] returned, [metadata] what [read_metadata] returned,
    [json_data] what [json.load] returned.  The keys of [config] are
    looked up in the order of the source ([setup_logging] first).  The
    result lists the files written, in the order of writing. *)
Definition main (config : list (string * string)) (metadata : list field_spec)
    (json_data : pyval) : M (list file) :=
  log_path <- lift (config_item config "logPath") ;;
  log_file_name <- lift (config_item config "logFileName") ;;
  source_path <- lift (config_item config "sourcePath") ;;
  source_sheet <- lift (config_item config "sourceSheet") ;;
  source_name <- lift (config_item config "sourceName") ;;
  let json_path := path_join source_path source_name in
  all_iff_lines <- process_json json_data metadata ;;
  let source_file_name := basename json_path in
  let data_row_lengths := List.map len all_iff_lines in
  let max_data_row_length := max_or_0 data_row_lengths in
  let max_row_length := Z.max max_data_row_length (len source_file_name + 6) in
  let header_line :=
    ljust (PyInt.format_06 max_row_length ++ source_file_name) max_row_length in
  result_path <- lift (config_item config "resultPath4IFF") ;;
  let result_filename := config_get config "extractFile4IFF" "output" ++ ".iff" in
  let result_backup_path := config_get config "resultBackupPath4CSV" "" in
  let iff_filename := path_join result_path result_filename in
  let iff_file :=
    header_line ++ join (List.map (fun line => ljust line max_row_length) all_iff_lines) in
  logging INFO ("Generated IFF file: " ++ iff_filename) ;;;
  if negb (String.eqb result_backup_path "") then
    let backup_filename := path_join result_backup_path result_filename in
    let backup_file := header_line ++ join all_iff_lines in
    logging INFO ("Backed up IFF file to: " ++ backup_filename) ;;;
    ret [(iff_filename, iff_file); (backup_filename, backup_file)]
  else
    ret [(iff_filename, iff_file)].

(** ** The configuration and schema readers *)

(** How a call ends at the level of the script: it returns, raises, or
    leaves the interpreter through [sys.exit(status)]. *)
Inductive ending (A : Type) : Type :=
| Returned (a : A)
| Raised (e : exn)
| Exited (status : Z).

Arguments Returned {A} a.
Arguments Raised {A} e.
Arguments Exited {A} status.

(** What [open(path)] gives the readers: the content, or an [IOError]
    with its text.  [A] is [string] for a text file read line by line,
    and the rows [csv.reader] yields for the schema file. *)
Inductive opened (A : Type) : Type :=
| Opened (content : A)
| IOError (msg : string).

Arguments Opened {A} content.
Arguments IOError {A} msg.

Module PyText.

Definition newline : ascii := ascii_of_N 10.

(** The characters [str.strip()] removes, those for which
    [str.isspace] holds: below 256 they are 9..13, 28..32, 133, 160. *)
Definition isspace (c : ascii) : bool :=
  ((9 <=? code c) && (code c <=? 13)) || ((28 <=? code c) && (code c <=? 32))
  || (code c =? 133) || (code c =? 160).

Fixpoint lstrip (s : string) : string :=
  match s with
  | String c r => if isspace c then lstrip r else s
  | EmptyString => EmptyString
  end.

(** [s.strip()] *)
Definition strip (s : string) : string := rev (lstrip (rev (lstrip s))).

(** [s.split(sep, 1)]: at the first separator, if there is one. *)
Fixpoint split_once (sep : ascii) (s : string) : list string :=
  match s with
  | EmptyString => [EmptyString]
  | String c r =>
      if Ascii.eqb c sep then [EmptyString; r]
      else match split_once sep r with
           | p :: ps => String c p :: ps
           | [] => [String c EmptyString]
           end
  end.

(** [s.startswith('#')] *)
Definition startswith_hash (s : string) : bool :=
  match s with
  | String c _ => Ascii.eqb c "#"
  | EmptyString => false
  end.

Definition carriage_return : ascii := ascii_of_N 13.

(** The lines a file opened in text mode yields when iterated over its
    decoded content: a line ends at a line feed, at a carriage return
    followed by a line feed, or at a lone carriage return, each of
    them given as one line feed; a last line may be without one. *)
Fixpoint lines_of (text : string) : list string :=
  match text with
  | EmptyString => []
  | String c r =>
      if Ascii.eqb c newline then String newline EmptyString :: lines_of r
      else if Ascii.eqb c carriage_return then
        match r with
        | String d r' =>
            if Ascii.eqb d newline then String newline EmptyString :: lines_of r'
            else String newline EmptyString :: lines_of r
        | EmptyString => [String newline EmptyString]
        end
      else match lines_of r with
           | [] => [String c EmptyString]
           | l :: ls => String c l :: ls
           end
  end.

End PyText.

(** [config[key] = value] on a [dict]: the value of a key that is
    there is replaced in place, a new key goes to the end. *)
Fixpoint config_set (config : list (string * string)) (key value : string)
  : list (string * string) :=
  match config with
  | [] => [(key, value)]
  | (k, v) :: r =>
      if String.eqb k key then (k, value) :: r else (k, v) :: config_set r key value
  end.

(** The body of the loop of [read_config] up to the assignment:
    [None] for a line that is skipped ([continue]), the stripped key
    and value otherwise; a line without ['='] raises at the unpacking. *)
Definition config_line (line : string) : result (option (string * string)) :=
  if PyText.startswith_hash line || String.eqb (PyText.strip line) "" then Ok None
  else
    parts <~ unpack2 (PyText.split_once "=" (PyText.strip line)) ;;
    let '(key, value) := parts in
    Ok (Some (PyText.strip key, PyText.strip value)).

(** The loop of [read_config] over the lines of the file. *)
Fixpoint read_config_lines (lines : list string) (config : list (string * string))
  : result (list (string * string)) :=
  match lines with
  | [] => Ok config
  | line :: r =>
      entry <~ config_line line ;;
      match entry with
      | None => read_config_lines r config
      | Some (key, value) => read_config_lines r (config_set config key value)
      end
  end.

(** [read_config(config_path)], given what opening the file gives: an
    [IOError] is logged and ends the script with status 1; a
    [ValueError] of the loop is not caught. *)
Definition read_config (file : opened string) (log : list log_record)
  : ending (list (string * string)) * list log_record :=
  match file with
  | IOError msg =>
      (Exited 1, (log ++ [(ERROR, "Error reading config file: " ++ msg)%string])%list)
  | Opened text =>
      match read_config_lines (PyText.lines_of text) [] with
      | Ok config => (Returned config, log)
      | Raise e => (Raised e, log)
      end
  end.

(** The run of digits and underscores at the head of a literal. *)
Fixpoint digit_run (s : string) : string :=
  match s with
  | String c r => if is_digit c || Ascii.eqb c "_" then String c (digit_run r) else EmptyString
  | EmptyString => EmptyString
  end.

(** No underscore at the head of the run, after another underscore or
    at the end of the run; [prev] tells whether the character before was
    an underscore (or the run starts here). *)
Fixpoint run_ok (prev : bool) (s : string) : bool :=
  match s with
  | EmptyString => negb prev
  | String c r => if Ascii.eqb c "_" then negb prev && run_ok true r else run_ok false r
  end.

(** [sys.get_int_max_str_digits()], as the interpreter starts. *)
Definition int_max_str_digits : Z := 4300.

(** [int(s)] for a [str] of any length.  The interpreter counts the
    digits of the run at the head of the literal and refuses more than
    [int_max_str_digits] of them before it looks at what follows the
    run; a shorter literal is read as [py_int] reads it. *)
Definition py_int_limited (s : string) : result Z :=
  let '(_, body) := split_sign (PyStr.strip s) in
  let run := digit_run body in
  let digits := len (remove_underscores run) in
  if run_ok true run && (int_max_str_digits <? digits) then
    Raise (ValueError ("Exceeds the limit (" ++ PyInt.str int_max_str_digits
                       ++ " digits) for integer string conversion: value has "
                       ++ PyInt.str digits
                       ++ " digits; use sys.set_int_max_str_digits() to increase the limit"))
  else py_int s.

(** [position, field_name, field_type, length = row[:4]] *)
Definition unpack4 (row : list string) : result (string * string * string * string) :=
  match row with
  | a :: b :: c :: d :: _ => Ok (a, b, c, d)
  | _ =>
      Raise (ValueError ("not enough values to unpack (expected 4, got "
                         ++ PyInt.str (Z.of_nat (List.length row)) ++ ")"))
  end.

(** The loop of [read_metadata] over the rows [csv.reader] yields. *)
Fixpoint read_metadata_rows (rows : list (list string)) : result (list field_spec) :=
  match rows with
  | [] => Ok []
  | row :: r =>
      cols <~ unpack4 row ;;
      let '(position, field_name, field_type, length) := cols in
      p <~ py_int_limited position ;;
      l <~ py_int_limited length ;;
      metadata <~ read_metadata_rows r ;;
      Ok ((p, field_name, field_type, l) :: metadata)
  end.

(** [read_metadata(metadata_path)], given what opening the file gives
    (the rows of [csv.reader]): an [IOError] is logged and ends the
    script with status 1; a [ValueError] of the loop is not caught. *)
Definition read_metadata (file : opened (list (list string))) (log : list log_record)
  : ending (list field_spec) * list log_record :=
  match file with
  | IOError msg =>
      (Exited 1, (log ++ [(ERROR, "Error reading metadata file: " ++ msg)%string])%list)
  | Opened rows =>
      match read_metadata_rows rows with
      | Ok metadata => (Returned metadata, log)
      | Raise e => (Raised e, log)
      end
  end.

(** ** Vocabulary of the statements *)

(** The value the record builder formats for the field [f] of [item]. *)
Definition field_value (item : list (string * pyval)) (f : field_spec) : pyval :=
  dict_get item (field_name f) (PStr "").

(** [part] is what the field [f] of [item] contributes to the line: the
    formatted value, or blanks of the declared length after a
    [ValueError]. *)
Definition contribution (item : list (string * pyval)) (part : string) (f : field_spec)
  : Prop :=
  format_field (field_value item f) (field_type f) (field_length f) = Ok part
  \/ (exists msg,
        format_field (field_value item f) (field_type f) (field_length f)
        = Raise (ValueError msg)
        /\ part = spaces (field_length f)).

(** [line] is the line of [item] under the schema [metadata]. *)
Definition is_line_of (metadata : list field_spec) (item : list (string * pyval))
    (line : string) : Prop :=
  exists parts, Forall2 (contribution item) parts (sorted metadata) /\ line = join parts.

(** The objects among the elements, and the other elements, in order. *)
Fixpoint dicts_of (items : list pyval) : list (list (string * pyval)) :=
  match items with
  | [] => []
  | PDict d :: r => d :: dicts_of r
  | _ :: r => dicts_of r
  end.

Definition non_dicts (items : list pyval) : list pyval :=
  filter (fun v => negb (is_dict v)) items.

Definition is_warning (r : log_record) : bool :=
  match fst r with WARNING => true | _ => false end.

Definition skip_warning (v : pyval) : log_record :=
  (WARNING, "Skipping item because it's not a dictionary: " ++ PyRepr.str v).

Definition has_position (p : Z) (f : field_spec) : bool := position f =? p.

Definition by_position (a b : field_spec) : Prop := position a <= position b.

Definition sum_lengths (metadata : list field_spec) : Z :=
  fold_right Z.add 0 (List.map field_length metadata).

(** [x] is written as the documentation of [pyfloat] says. *)
Definition is_binary64 (x : pyfloat) : bool :=
  match x with
  | Finite _ m e =>
      ((2 ^ 52 <=? Z.pos m) && (Z.pos m <? 2 ^ 53) && (-1074 <=? e) && (e <=? 971))
      || ((Z.pos m <? 2 ^ 52) && (e =? -1074))
  | _ => true
  end.

(** [-1 < x < 0] *)
Definition strictly_between_minus_one_and_zero (x : pyfloat) : bool :=
  match x with
  | Finite true m e => Z.pos m <? 2 ^ (- e)
  | _ => false
  end.

(** [x <= -0.0001] *)
Definition at_most_minus_1e4 (x : pyfloat) : bool :=
  match x with
  | Finite true m e => 2 ^ (- e) <=? Z.pos m * 10 ^ 4
  | Inf true => true
  | _ => false
  end.

(** The number of ['.'] in a text. *)
Fixpoint dots (s : string) : nat :=
  match s with
  | EmptyString => O
  | String c r => if Ascii.eqb c "." then S (dots r) else dots r
  end.

(** [ip] is a non-empty string of digits, with or without a minus sign
    in front. *)
Definition sign_digits (ip : string) : Prop :=
  exists d, d <> "" /\ forallb is_digit d = true /\ (ip = d \/ ip = String "-" d).


(** The [n]-th row of [width] characters of a text, counted from 0. *)
Definition row_of (width : Z) (n : nat) (text : string) : string :=
  take (Z.to_nat width) (drop (n * Z.to_nat width) text).

(** A row of the schema file reads as the field [f]: its first four
    columns are the position, the name, the type and the length of
    [f], the two numbers as [int] reads them; further columns are
    free. *)
Definition reads_as (row : list string) (f : field_spec) : Prop :=
  exists p l more,
    row = p :: field_name f :: field_type f :: l :: more
    /\ py_int_limited p = Ok (position f)
    /\ py_int_limited l = Ok (field_length f).

(** A row the schema reader refuses: fewer than four columns, or a
    first or fourth column that [int] does not read. *)
Definition refused (row : list string) : Prop :=
  (List.length row < 4)%nat
  \/ (exists e, py_int_limited (nth 0 row "") = Raise e)
  \/ (exists e, py_int_limited (nth 3 row "") = Raise e).

(** The row of the schema file that states the field [f]. *)
Definition schema_row (f : field_spec) : list string :=
  [PyInt.str (position f); field_name f; field_type f; PyInt.str (field_length f)].

(** A line of white space only. *)
Definition blank (line : string) : bool := forallb PyText.isspace line.

(** A line the configuration reader does not skip and that has no
    ['=']. *)
Definition unreadable (line : string) : bool :=
  negb (PyText.startswith_hash line) && negb (blank line)
  && negb (PyRepr.contains "=" line).

(** The assignments the lines of a configuration file make, in the
    order of the lines. *)
Definition assignments (lines : list string) : list (string * string) :=
  flat_map (fun line => match config_line line with
                        | Ok (Some entry) => [entry]
                        | _ => []
                        end) lines.

(** No line break inside. *)
Definition one_line (s : string) : bool :=
  forallb (fun c => negb (Ascii.eqb c PyText.newline
                          || Ascii.eqb c PyText.carriage_return)) s.

(** A configuration written out, one [key=value] line per entry. *)
Definition config_file_line (entry : string * string) : string :=
  fst entry ++ "=" ++ snd entry ++ String PyText.newline "".

Definition config_file (config : list (string * string)) : string :=
  join (List.map config_file_line config).

(** A text that does not start with white space. *)
Definition head_ok (s : string) : bool :=
  match s with
  | EmptyString => true
  | String c _ => negb (PyText.isspace c)
  end.

(** The [ValueError] of [key, value = parts] for a line without ['=']. *)
Definition not_enough : exn := ValueError "not enough values to unpack (expected 2, got 1)".

(** An entry that the reader gives back as it is written: key and
    value without white space at their ends and without a line break,
    a key without ['='] that does not start with ['#']. *)
Definition writable (entry : string * string) : Prop :=
  PyText.strip (fst entry) = fst entry
  /\ PyText.strip (snd entry) = snd entry
  /\ one_line (fst entry) = true
  /\ one_line (snd entry) = true
  /\ PyRepr.contains "=" (fst entry) = false
  /\ PyText.startswith_hash (fst entry) = false.

(** A value [float] does not convert and does not refuse with a
    [ValueError] either: a list or an object ([TypeError]), an [int]
    beyond the binary64 range ([OverflowError]). *)
Definition unconvertible (v : pyval) : bool :=
  match v with
  | PList _ | PDict _ => true
  | PInt n => 2 ^ 1024 - 2 ^ 970 <=? Z.abs n
  | _ => false
  end.

(** * Properties *)

(** ** Strings *)

Section StringFacts.

Lemma len_nonneg (s : string) : 0 <= len s.
Proof. unfold len. lia. Qed.

Lemma length_append (a b : string) :
  String.length (a ++ b) = (String.length a + String.length b)%nat.
Proof. induction a as [|c a IH]; simpl; [reflexivity | now rewrite IH]. Qed.

Lemma len_append (a b : string) : len (a ++ b) = len a + len b.
Proof. unfold len. rewrite length_append. lia. Qed.

Lemma length_repeat_char (c : ascii) (n : nat) : String.length (repeat_char c n) = n.
Proof. induction n; simpl; congruence. Qed.

Lemma len_spaces (n : Z) : len (spaces n) = Z.max 0 n.
Proof. unfold len, spaces. rewrite length_repeat_char. lia. Qed.

Lemma len_ljust (s : string) (width : Z) : len (ljust s width) = Z.max (len s) width.
Proof.
  unfold ljust. destruct (width <=? len s) eqn:E.
  - apply Z.leb_le in E. lia.
  - apply Z.leb_gt in E. rewrite len_append, len_spaces. lia.
Qed.

Lemma append_nil_r (a : string) : a ++ "" = a.
Proof. induction a; simpl; congruence. Qed.

Lemma ljust_prefix (s : string) (width : Z) :
  ljust s width = s ++ spaces (width - len s).
Proof.
  unfold ljust. destruct (width <=? len s) eqn:E; [|reflexivity].
  apply Z.leb_le in E. unfold spaces.
  replace (Z.to_nat (width - len s)) with O by lia. simpl.
  now rewrite append_nil_r.
Qed.

Lemma length_take (n : nat) (s : string) :
  String.length (take n s) = Nat.min n (String.length s).
Proof.
  revert s. induction n as [|n IH]; intros [|c s]; simpl; try reflexivity.
  now rewrite IH.
Qed.

Lemma take_drop (n : nat) (s : string) : take n s ++ drop n s = s.
Proof.
  revert s. induction n as [|n IH]; intros [|c s]; simpl; try reflexivity.
  now rewrite IH.
Qed.

Lemma take_all (n : nat) (s : string) : (String.length s <= n)%nat -> take n s = s.
Proof.
  revert s. induction n as [|n IH]; intros [|c s]; simpl; intros H;
    try reflexivity; try lia.
  rewrite IH; [reflexivity | lia].
Qed.

Lemma len_slice_to (s : string) (n : Z) : 0 <= n -> len (slice_to s n) = Z.min n (len s).
Proof.
  intros H. unfold slice_to. destruct (0 <=? n) eqn:E; [|apply Z.leb_gt in E; lia].
  unfold len. rewrite length_take. lia.
Qed.

Lemma append_assoc (a b c : string) : (a ++ b) ++ c = a ++ (b ++ c).
Proof. induction a; simpl; congruence. Qed.

Lemma len_join (parts : list string) :
  len (join parts) = fold_right Z.add 0 (List.map len parts).
Proof.
  unfold join. induction parts as [|p ps IH]; simpl; [reflexivity|].
  now rewrite len_append, IH.
Qed.

End StringFacts.

(** ** The formatter: String fields, blank values, null *)

Section Formatter.

Lemma dict_get_absent (d : list (string * pyval)) (key : string) (default : pyval) :
  ~ In key (List.map fst d) -> dict_get d key default = default.
Proof.
  induction d as [|[k v] d IH]; simpl; intros H; [reflexivity|].
  destruct (String.eqb_spec k key) as [->|Hne].
  - exfalso. apply H. now left.
  - apply IH. intros Hin. apply H. now right.
Qed.

(** A key that is present has the same value under every default. *)
Lemma dict_get_present (d : list (string * pyval)) (key : string) (d1 d2 v : pyval) :
  dict_get d key d1 = v -> v <> d1 -> dict_get d key d2 = v.
Proof.
  induction d as [|[k w] d IH]; simpl; intros H Hne.
  - congruence.
  - destruct (String.eqb k key); [assumption | now apply IH].
Qed.

Lemma format_field_not_Number (value : pyval) (field_type : string) (length : Z) :
  field_type <> "Number" ->
  format_field value field_type length
  = Ok (ljust (slice_to (PyRepr.str value) length) length).
Proof.
  intros H. unfold format_field.
  destruct (String.eqb_spec field_type "Number"); [contradiction | reflexivity].
Qed.

Lemma format_field_empty (field_type : string) (length : Z) :
  0 < length -> format_field (PStr "") field_type length = Ok (spaces length).
Proof.
  intros H. unfold format_field.
  destruct (String.eqb field_type "Number"); [reflexivity|].
  simpl PyRepr.str. unfold slice_to.
  replace (0 <=? length) with true by (symmetry; apply Z.leb_le; lia).
  destruct (Z.to_nat length); simpl take; rewrite ljust_prefix; simpl;
    now rewrite Z.sub_0_r.
Qed.

Lemma format_item_field_ok (item : list (string * pyval)) (p : Z)
    (name type : string) (length : Z) (s : string) (log : list log_record) :
  format_field (dict_get item name (PStr "")) type length = Ok s ->
  format_item_field item (p, name, type, length) log = (Ok s, log).
Proof.
  intros H. unfold format_item_field, except_ValueError, lift. now rewrite H.
Qed.

End Formatter.

(** C3: for every value and every positive length L, a String field
    (every field type other than ['Number']) is formatted without an
    error as the text of the value cut to its first L characters
    (the rest dropped on the right) and then right-padded with spaces;
    the result has exactly L characters. *)
Theorem format_field_string_truncates_and_pads :
  forall (value : pyval) (field_type : string) (length : Z),
    field_type <> "Number" ->
    0 < length ->
    let text := PyRepr.str value in
    let kept := take (Z.to_nat length) text in
    format_field value field_type length = Ok (kept ++ spaces (length - len kept))
    /\ kept ++ drop (Z.to_nat length) text = text
    /\ len kept = Z.min length (len text)
    /\ len (kept ++ spaces (length - len kept)) = length.
Proof.
  intros value field_type length Hty Hpos text kept.
  assert (Hkept : len kept = Z.min length (len text)).
  { unfold kept, len. rewrite length_take. lia. }
  repeat split.
  - rewrite format_field_not_Number by assumption.
    rewrite ljust_prefix. unfold slice_to.
    replace (0 <=? length) with true by (symmetry; apply Z.leb_le; lia).
    reflexivity.
  - apply take_drop.
  - exact Hkept.
  - rewrite len_append, len_spaces. lia.
Qed.

Lemma format_field_string_truncates_and_pads_witness :
  format_field (PStr "ABCDEFGH") "String" 3 = Ok "ABC"
  /\ format_field (PInt 42) "String" 5 = Ok "42   ".
Proof.
  split.
  - exact (proj1 (format_field_string_truncates_and_pads
                    (PStr "ABCDEFGH") "String" 3 ltac:(discriminate) ltac:(lia))).
  - exact (proj1 (format_field_string_truncates_and_pads
                    (PInt 42) "String" 5 ltac:(discriminate) ltac:(lia))).
Defined.

(** C5: for every field type and every positive length L, a key that is
    absent from the object, or present with the empty string, is
    formatted as exactly L spaces; the formatter raises nothing and the
    record builder logs nothing for it. *)
Theorem absent_or_empty_formats_blank :
  forall (item : list (string * pyval)) (position : Z)
         (field_name field_type : string) (length : Z) (log : list log_record),
    0 < length ->
    ~ In field_name (List.map fst item) \/ dict_get item field_name PNone = PStr "" ->
    dict_get item field_name (PStr "") = PStr ""
    /\ format_field (PStr "") field_type length = Ok (spaces length)
    /\ format_item_field item (position, field_name, field_type, length) log
       = (Ok (spaces length), log)
    /\ len (spaces length) = length.
Proof.
  intros item position name type length log Hpos Hval.
  assert (Hget : dict_get item name (PStr "") = PStr "").
  { destruct Hval as [Habs | Hemp].
    - now apply dict_get_absent.
    - apply (dict_get_present item name PNone); [assumption | discriminate]. }
  repeat split.
  - exact Hget.
  - now apply format_field_empty.
  - apply format_item_field_ok. rewrite Hget. now apply format_field_empty.
  - rewrite len_spaces. lia.
Qed.

Lemma absent_or_empty_formats_blank_witness :
  format_item_field [("name", PStr "bob")] (1, "id", "Number", 5) [] = (Ok "     ", [])
  /\ format_item_field [("id", PStr "")] (1, "id", "String", 4) [] = (Ok "    ", []).
Proof.
  split.
  - exact (proj1 (proj2 (proj2 (absent_or_empty_formats_blank
      [("name", PStr "bob")] 1 "id" "Number" 5 [] ltac:(lia)
      (or_introl (fun H : In "id" (List.map fst [("name", PStr "bob")]) =>
         match H with
         | or_introl E => ltac:(discriminate E)
         | or_intror F => F
         end)))))).
  - exact (proj1 (proj2 (proj2 (absent_or_empty_formats_blank
      [("id", PStr "")] 1 "id" "String" 4 [] ltac:(lia) (or_intror eq_refl))))).
Defined.

(** C10: for a key that is present with the value null and a positive
    length L, a Number field is L spaces (as for an absent key), and a
    String field is the text ['None'] cut to L characters and
    right-padded to L, which is not L spaces: null and absent differ
    for String fields.  Nothing is logged in either case. *)
Theorem null_is_blank_for_Number_and_None_for_String :
  forall (item : list (string * pyval)) (position : Z)
         (field_name field_type : string) (length : Z) (log : list log_record),
    0 < length ->
    dict_get item field_name (PStr "") = PNone ->
    field_type <> "Number" ->
    format_item_field item (position, field_name, "Number", length) log
    = (Ok (spaces length), log)
    /\ format_item_field item (position, field_name, field_type, length) log
       = (Ok (ljust (take (Z.to_nat length) "None") length), log)
    /\ ljust (take (Z.to_nat length) "None") length <> spaces length
    /\ len (ljust (take (Z.to_nat length) "None") length) = length.
Proof.
  intros item position name type length log Hpos Hget Hty.
  repeat split.
  - apply format_item_field_ok. now rewrite Hget.
  - apply format_item_field_ok. rewrite Hget.
    rewrite format_field_not_Number by assumption.
    simpl PyRepr.str. unfold slice_to.
    replace (0 <=? length) with true by (symmetry; apply Z.leb_le; lia).
    reflexivity.
  - rewrite ljust_prefix. unfold spaces.
    destruct (Z.to_nat length) as [|k] eqn:E; [lia|]. simpl. discriminate.
  - rewrite len_ljust. unfold len. rewrite length_take. simpl String.length. lia.
Qed.

Lemma null_is_blank_for_Number_and_None_for_String_witness :
  format_item_field [("id", PNone)] (1, "id", "Number", 6) [] = (Ok "      ", [])
  /\ format_item_field [("id", PNone)] (1, "id", "String", 6) [] = (Ok "None  ", [])
  /\ format_item_field [("id", PNone)] (1, "id", "String", 3) [] = (Ok "Non", []).
Proof.
  pose proof (null_is_blank_for_Number_and_None_for_String
                [("id", PNone)] 1 "id" "String" 6 [] ltac:(lia) eq_refl
                ltac:(discriminate)) as H6.
  pose proof (null_is_blank_for_Number_and_None_for_String
                [("id", PNone)] 1 "id" "String" 3 [] ltac:(lia) eq_refl
                ltac:(discriminate)) as H3.
  exact (conj (proj1 H6) (conj (proj1 (proj2 H6)) (proj1 (proj2 H3)))).
Defined.

(** ** [sorted]: a stable sort by position *)

Section Sorting.

Lemma insert_by_position_perm (x : field_spec) (l : list field_spec) :
  Permutation (insert_by_position x l) (x :: l).
Proof.
  induction l as [|y r IH]; simpl; [reflexivity|].
  destruct (position x <=? position y); [reflexivity|].
  rewrite IH. apply perm_swap.
Qed.

Lemma sorted_perm (l : list field_spec) : Permutation (sorted l) l.
Proof.
  induction l as [|x r IH]; simpl; [reflexivity|].
  rewrite insert_by_position_perm. now constructor.
Qed.

Lemma insert_by_position_sorted (x : field_spec) (l : list field_spec) :
  StronglySorted by_position l -> StronglySorted by_position (insert_by_position x l).
Proof.
  induction 1 as [|y r Hr IH Hy]; simpl.
  - repeat constructor.
  - destruct (position x <=? position y) eqn:E.
    + apply Z.leb_le in E. constructor; [now constructor|].
      constructor; [exact E|].
      eapply Forall_impl; [|exact Hy]. unfold by_position. intros; lia.
    + apply Z.leb_gt in E. constructor; [exact IH|].
      rewrite (Forall_forall (by_position y)). intros z Hz.
      apply (Permutation_in _ (insert_by_position_perm x r)) in Hz.
      destruct Hz as [<-|Hz].
      * unfold by_position. lia.
      * rewrite Forall_forall in Hy. now apply Hy.
Qed.

Lemma sorted_sorted (l : list field_spec) : StronglySorted by_position (sorted l).
Proof.
  induction l as [|x r IH]; simpl; [constructor|].
  now apply insert_by_position_sorted.
Qed.

Lemma insert_by_position_stable (p : Z) (x : field_spec) (l : list field_spec) :
  filter (has_position p) (insert_by_position x l) = filter (has_position p) (x :: l).
Proof.
  induction l as [|y r IH]; [reflexivity|].
  simpl insert_by_position. destruct (position x <=? position y) eqn:E; [reflexivity|].
  apply Z.leb_gt in E. simpl in *. rewrite IH. unfold has_position.
  destruct (position x =? p) eqn:Ex, (position y =? p) eqn:Ey;
    try reflexivity.
  apply Z.eqb_eq in Ex, Ey. lia.
Qed.

(** Rows of equal position keep the order they have in the schema. *)
Lemma sorted_stable (p : Z) (l : list field_spec) :
  filter (has_position p) (sorted l) = filter (has_position p) l.
Proof.
  induction l as [|x r IH]; [reflexivity|].
  simpl sorted. rewrite insert_by_position_stable. simpl. now rewrite IH.
Qed.

Lemma sum_lengths_perm (l l' : list field_spec) :
  Permutation l l' -> sum_lengths l = sum_lengths l'.
Proof.
  unfold sum_lengths. induction 1; simpl; lia.
Qed.

End Sorting.

(** ** The formatter: Number fields *)

Section NumberFormatter.

(** The [try] block returns exactly when every step succeeds and the
    formatted number fits. *)
Lemma format_number_body_ok (value : pyval) (length : Z) (s : string) :
  format_number_body value length = Ok s <->
  exists x integer_part decimal_part n,
    py_float value = Ok x
    /\ split "." (PyFloat.repr x) = [integer_part; decimal_part]
    /\ PyInt.of_str integer_part = Some n
    /\ len (PyInt.format_comma n ++ "." ++ decimal_part) <= length
    /\ s = ljust (PyInt.format_comma n ++ "." ++ decimal_part) length.
Proof.
  unfold format_number_body, rbind, unpack2, py_int. split.
  - destruct (py_float value) as [x|e]; [|discriminate].
    destruct (split "." (PyFloat.repr x)) as [|a [|b [|c l]]] eqn:Es;
      try discriminate.
    destruct (PyInt.of_str a) as [n|] eqn:En; [|discriminate].
    destruct (length <? len _) eqn:El; [discriminate|].
    intros [= <-]. apply Z.ltb_ge in El.
    exists x, a, b, n. repeat split; first [reflexivity | assumption].
  - intros (x & a & b & n & -> & -> & -> & Hl & ->).
    apply Z.ltb_ge in Hl. now rewrite Hl.
Qed.

(** An exception other than [ValueError] leaves the [try] block only
    from [float(value)]. *)
Lemma format_number_body_raise (value : pyval) (length : Z) (e : exn) :
  format_number_body value length = Raise e ->
  (forall msg, e <> ValueError msg) ->
  py_float value = Raise e.
Proof.
  unfold format_number_body, rbind, unpack2, py_int. intros H Hne.
  destruct (py_float value) as [x|e']; [|congruence].
  exfalso.
  destruct (split "." (PyFloat.repr x)) as [|a [|b [|c l]]];
    try (injection H as <-; eapply Hne; reflexivity).
  destruct (PyInt.of_str a) as [n|];
    [|injection H as <-; eapply Hne; reflexivity].
  destruct (length <? len _); [|discriminate].
  injection H as <-; eapply Hne; reflexivity.
Qed.

Lemma format_number_blank (value : pyval) (length : Z) :
  is_empty_str value || is_None value = true ->
  format_number value length = Ok (spaces length).
Proof. unfold format_number. now intros ->. Qed.

Lemma format_number_ok (value : pyval) (length : Z) (s : string) :
  is_empty_str value || is_None value = false ->
  (format_number value length = Ok s <-> format_number_body value length = Ok s).
Proof.
  unfold format_number. intros ->.
  destruct (format_number_body value length) as [t|[m|m|m|k]];
    split; intros H; try exact H; discriminate.
Qed.

(** Every [ValueError] of the [try] block leaves [format_number] as
    ["Value is not a number: <value>"]. *)
Lemma format_number_ValueError (value : pyval) (length : Z) (msg : string) :
  is_empty_str value || is_None value = false ->
  format_number_body value length = Raise (ValueError msg) ->
  format_number value length
  = Raise (ValueError ("Value is not a number: " ++ PyRepr.str value)).
Proof. unfold format_number. now intros -> ->. Qed.

Lemma format_number_len (value : pyval) (length : Z) (s : string) :
  0 <= length -> format_number value length = Ok s -> len s = length.
Proof.
  intros Hl H. destruct (is_empty_str value || is_None value) eqn:E.
  - rewrite format_number_blank in H by assumption. injection H as <-.
    rewrite len_spaces. lia.
  - apply format_number_ok in H; [|assumption].
    apply format_number_body_ok in H.
    destruct H as (x & a & b & n & _ & _ & _ & Hfit & ->).
    rewrite len_ljust. lia.
Qed.

Lemma format_field_len (value : pyval) (type : string) (length : Z) (s : string) :
  0 <= length -> format_field value type length = Ok s -> len s = length.
Proof.
  intros Hl. unfold format_field. destruct (String.eqb type "Number").
  - now apply format_number_len.
  - intros [= <-]. rewrite len_ljust, len_slice_to by assumption. lia.
Qed.

(** [format_field] raises only from [format_number]: a String field
    never raises. *)
Lemma format_field_raise (value : pyval) (type : string) (length : Z) (e : exn) :
  format_field value type length = Raise e ->
  type = "Number" /\ format_number value length = Raise e.
Proof.
  unfold format_field. destruct (String.eqb_spec type "Number"); [|discriminate].
  now intros H.
Qed.

End NumberFormatter.

(** ** The record builder *)

Section RecordBuilder.

Variable item : list (string * pyval).

Lemma format_item_field_cases (f : field_spec) (log : list log_record) :
  match format_field (field_value item f) (field_type f) (field_length f) with
  | Ok s => format_item_field item f log = (Ok s, log)
  | Raise (ValueError msg) =>
      format_item_field item f log
      = (Ok (spaces (field_length f)),
         (log ++ [(ERROR, ("Error formatting field: " ++ msg)%string)])%list)
  | Raise e => format_item_field item f log = (Raise e, log)
  end.
Proof.
  destruct f as [[[p name] type] length].
  unfold field_value, field_name, field_type, field_length.
  unfold format_item_field, except_ValueError, lift.
  destruct (format_field _ type length) as [s|[m|m|m|k]]; reflexivity.
Qed.

Lemma format_item_field_result (f : field_spec) (log : list log_record) :
  (exists part added,
      format_item_field item f log = (Ok part, (log ++ added)%list)
      /\ contribution item part f
      /\ Forall (fun r => is_warning r = false) added)
  \/ (exists e,
         format_item_field item f log = (Raise e, log)
         /\ (forall msg, e <> ValueError msg)
         /\ format_field (field_value item f) (field_type f) (field_length f)
            = Raise e).
Proof.
  pose proof (format_item_field_cases f log) as H.
  destruct (format_field _ _ _) as [s|e] eqn:E.
  - left. exists s, []. rewrite app_nil_r. repeat split;
      [assumption | now left | constructor].
  - destruct e as [m|m|m|k].
    + left. eexists _, _. repeat split; [exact H | right; eauto | ].
      repeat constructor.
    + right. eexists. repeat split; [exact H | discriminate].
    + right. eexists. repeat split; [exact H | discriminate].
    + right. eexists. repeat split; [exact H | discriminate].
Qed.

Lemma format_fields_result (fs : list field_spec) (log : list log_record) :
  (exists parts added,
      format_fields item fs log = (Ok parts, (log ++ added)%list)
      /\ Forall2 (contribution item) parts fs
      /\ Forall (fun r => is_warning r = false) added)
  \/ (exists e log' f,
         format_fields item fs log = (Raise e, log')
         /\ (forall msg, e <> ValueError msg)
         /\ In f fs
         /\ format_field (field_value item f) (field_type f) (field_length f)
            = Raise e).
Proof.
  revert log. induction fs as [|f r IH]; intros log.
  - left. exists [], []. rewrite app_nil_r. repeat split; constructor.
  - simpl format_fields. unfold bind.
    destruct (format_item_field_result f log)
      as [(part & a1 & -> & Hc & Ha1) | (e & -> & Hne & He)].
    + destruct (IH (log ++ a1)%list)
        as [(parts & a2 & -> & Hcs & Ha2) | (e & log' & g & -> & Hne & Hin & He)].
      * left. exists (part :: parts), (a1 ++ a2)%list. unfold ret.
        rewrite app_assoc. repeat split;
          [now constructor | now apply Forall_app].
      * right. exists e, log', g. repeat split; [assumption | now right | assumption].
    + right. exists e, log, f. repeat split; [assumption | now left | assumption].
Qed.

End RecordBuilder.

Lemma filter_warning_none (added : list log_record) :
  Forall (fun r => is_warning r = false) added -> filter is_warning added = [].
Proof.
  induction 1 as [|r l Hr _ IH]; simpl; [reflexivity|]. now rewrite Hr.
Qed.

Lemma process_items_result (items : list pyval) (metadata : list field_spec)
    (log : list log_record) :
  (exists lines added,
      process_items items metadata log = (Ok lines, (log ++ added)%list)
      /\ Forall2 (is_line_of metadata) (dicts_of items) lines
      /\ filter is_warning added = List.map skip_warning (non_dicts items))
  \/ (exists e log' d f,
         process_items items metadata log = (Raise e, log')
         /\ (forall msg, e <> ValueError msg)
         /\ In (PDict d) items
         /\ In f metadata
         /\ format_field (field_value d f) (field_type f) (field_length f) = Raise e).
Proof.
  revert log. induction items as [|item r IH]; intros log.
  - left. exists [], []. rewrite app_nil_r. repeat split; constructor.
  - assert (Hskip : is_dict item = false ->
                    process_items (item :: r) metadata log
                    = process_items r metadata (log ++ [skip_warning item])%list).
    { destruct item; simpl; intros H; try reflexivity; discriminate. }
    destruct (is_dict item) eqn:Ed.
    2:{ rewrite Hskip by reflexivity.
        destruct (IH (log ++ [skip_warning item])%list)
          as [(lines & added & -> & Hl & Hw)
             | (e & log' & d' & f & -> & Hne & Hin & Hf & He)].
        - left. exists lines, (skip_warning item :: added).
          replace (log ++ skip_warning item :: added)%list
            with ((log ++ [skip_warning item]) ++ added)%list
            by (now rewrite <- app_assoc).
          repeat split.
          + destruct item; try discriminate; exact Hl.
          + unfold non_dicts. simpl. rewrite Ed. simpl. now rewrite Hw.
        - right. exists e, log', d', f. repeat split;
            [assumption | now right | assumption | assumption]. }
    destruct item as [| b | n | x | s | l | d]; try discriminate.
    simpl process_items. unfold bind.
    destruct (format_fields_result d (sorted metadata) log)
      as [(parts & a1 & -> & Hc & Ha1) | (e & log' & f & -> & Hne & Hin & He)].
    + destruct (IH (log ++ a1)%list)
        as [(lines & a2 & -> & Hl & Hw)
           | (e & log' & d' & f & -> & Hne & Hin & Hf & He)].
      * left. exists (join parts :: lines), (a1 ++ a2)%list. unfold ret.
        rewrite app_assoc. repeat split.
        -- simpl. constructor; [|exact Hl]. exists parts. now split.
        -- rewrite filter_app, (filter_warning_none a1 Ha1). exact Hw.
      * right. exists e, log', d', f. repeat split;
          [assumption | now right | assumption | assumption].
    + right. exists e, log', d, f. repeat split; try assumption.
      * now left.
      * eapply Permutation_in; [apply sorted_perm | exact Hin].
Qed.

Lemma contribution_len (item : list (string * pyval)) (part : string) (f : field_spec) :
  0 <= field_length f -> contribution item part f -> len part = field_length f.
Proof.
  intros Hl [H | (msg & _ & ->)].
  - now apply format_field_len in H.
  - rewrite len_spaces. lia.
Qed.

Lemma contributions_len (item : list (string * pyval)) (parts : list string)
    (fs : list field_spec) :
  Forall (fun f => 0 <= field_length f) fs ->
  Forall2 (contribution item) parts fs ->
  Forall2 (fun part f => len part = field_length f) parts fs
  /\ len (join parts) = sum_lengths fs.
Proof.
  intros Hfs H. induction H as [|part f parts fs Hc _ IH].
  - split; [constructor | reflexivity].
  - inversion Hfs as [|? ? Hf Hfs']; subst.
    destruct (IH Hfs') as [IH1 IH2].
    pose proof (contribution_len item part f Hf Hc) as Hp.
    split; [now constructor|].
    unfold join, sum_lengths in *. simpl. rewrite len_append. lia.
Qed.

Lemma Forall2_Forall_r {A B : Type} (R : A -> B -> Prop) (P : B -> Prop)
    (l : list A) (l' : list B) :
  Forall2 R l l' -> (forall a b, In a l -> R a b -> P b) -> Forall P l'.
Proof.
  induction 1 as [|a b l l' Hab _ IH]; intros H; constructor.
  - apply (H a b); [now left | assumption].
  - apply IH. intros a' b' Hin. apply H. now right.
Qed.

Lemma In_dicts_of (items : list pyval) (d : list (string * pyval)) :
  In d (dicts_of items) -> In (PDict d) items.
Proof.
  induction items as [|v r IH]; simpl; [tauto|].
  destruct v; simpl; intros H; try (right; now apply IH).
  destruct H as [<-|H]; [now left | right; now apply IH].
Qed.

(** C4: every line the record builder produces is the concatenation of
    one string per row of the schema, the rows taken in ascending
    position order with rows of equal position in their original
    order; each string is the field's formatted value, or blanks after
    a formatting error, and has exactly the declared length; so the
    line's length is the sum of the declared lengths.  (Declared
    lengths are not negative.) *)
Theorem line_is_fields_in_position_order :
  forall (json_data : pyval) (metadata : list field_spec)
         (log log' : list log_record) (lines : list string),
    Forall (fun f => 0 <= field_length f) metadata ->
    process_json json_data metadata log = (Ok lines, log') ->
    Permutation (sorted metadata) metadata
    /\ StronglySorted by_position (sorted metadata)
    /\ (forall p, filter (has_position p) (sorted metadata)
                  = filter (has_position p) metadata)
    /\ Forall (fun line =>
                 exists item parts,
                   line = join parts
                   /\ Forall2 (contribution item) parts (sorted metadata)
                   /\ Forall2 (fun part f => len part = field_length f)
                              parts (sorted metadata)
                   /\ len line = sum_lengths metadata) lines.
Proof.
  intros json_data metadata log log' lines Hlen Hrun.
  split; [apply sorted_perm|]. split; [apply sorted_sorted|].
  split; [intros p; apply sorted_stable|].
  unfold process_json in Hrun.
  destruct (process_items_result
              (match json_data with PList items => items | _ => [json_data] end)
              metadata log)
    as [(lines0 & added & Hok & Hl & _) | (e & l' & d & f & Hr & _)];
    [|rewrite Hrun in Hr; discriminate].
  rewrite Hrun in Hok. injection Hok as <- _.
  apply (Forall2_Forall_r _ _ _ _ Hl). intros item line _ (parts & Hc & ->).
  assert (Hs : Forall (fun f => 0 <= field_length f) (sorted metadata)).
  { rewrite Forall_forall in *. intros f Hf. apply Hlen.
    eapply Permutation_in; [apply sorted_perm | exact Hf]. }
  destruct (contributions_len item parts (sorted metadata) Hs Hc) as [H1 H2].
  exists item, parts. repeat split; try assumption.
  rewrite H2. apply sum_lengths_perm, sorted_perm.
Qed.

Lemma line_is_fields_in_position_order_witness :
  let metadata := [(2, "name", "String", 4); (1, "id", "Number", 5);
                   (2, "city", "String", 3)] in
  sorted metadata = [(1, "id", "Number", 5); (2, "name", "String", 4);
                     (2, "city", "String", 3)]
  /\ Forall (fun line => len line = 12)
       ["42.0 bob Par"; "     al     "].
Proof.
  assert (Hrun :
    process_json
      (PList [PDict [("id", PInt 42); ("name", PStr "bob"); ("city", PStr "Paris")];
              PDict [("id", PStr "x"); ("name", PStr "al")]])
      [(2, "name", "String", 4); (1, "id", "Number", 5); (2, "city", "String", 3)] []
    = (Ok ["42.0 bob Par"; "     al     "],
       [(ERROR, "Error formatting field: Value is not a number: x")]))
    by (vm_compute; reflexivity).
  assert (Hlen : Forall (fun f => 0 <= field_length f)
            [(2, "name", "String", 4); (1, "id", "Number", 5); (2, "city", "String", 3)])
    by (repeat constructor; simpl; lia).
  pose proof (line_is_fields_in_position_order _ _ _ _ _ Hlen Hrun)
    as (_ & _ & _ & H).
  split; [reflexivity|].
  eapply Forall_impl; [|exact H].
  intros line (item & parts & _ & _ & _ & Hl). exact Hl.
Defined.

(** What the record builder does with every top-level value.  A value
    that is not a list is processed as the list holding just that
    value.  When the builder returns, it returns one line per element
    that is an object, in input order, and has logged one warning per
    other element, in input order.  When it does not return, it ends
    with an exception other than ValueError that the formatting of a
    field of some object raised: an element that is not an object
    never ends it. *)
Theorem process_json_one_line_per_object :
  forall (json_data : pyval) (metadata : list field_spec) (log : list log_record),
    let items := match json_data with PList l => l | _ => [json_data] end in
    (is_list json_data = false ->
     process_json json_data metadata log = process_json (PList [json_data]) metadata log)
    /\ match process_json json_data metadata log with
       | (Ok lines, log') =>
           Forall2 (is_line_of metadata) (dicts_of items) lines
           /\ List.length lines = List.length (dicts_of items)
           /\ exists added,
               log' = (log ++ added)%list
               /\ filter is_warning added = List.map skip_warning (non_dicts items)
       | (Raise e, _) =>
           (forall msg, e <> ValueError msg)
           /\ exists d f,
               In (PDict d) items /\ In f metadata
               /\ format_field (field_value d f) (field_type f) (field_length f)
                  = Raise e
       end.
Proof.
  intros json_data metadata log items. split.
  - destruct json_data; simpl; intros H; try reflexivity; discriminate.
  - unfold process_json. fold items.
    destruct (process_items_result items metadata log)
      as [(lines & added & -> & Hl & Hw) | (e & l' & d & f & -> & Hne & Hin & Hf & He)].
    + split; [exact Hl|]. split.
      * symmetry. eapply Forall2_length, Hl.
      * now exists added.
    + split; [exact Hne|]. now exists d, f.
Qed.

Example process_json_skips_non_objects :
  process_json (PList [PDict [("id", PInt 42)]; PInt 3; PStr "x"; PDict [("id", PStr "7")]])
               [(1, "id", "Number", 5)] []
  = (Ok ["42.0 "; "7.0  "],
     [(WARNING, "Skipping item because it's not a dictionary: 3");
      (WARNING, "Skipping item because it's not a dictionary: x")])
  /\ process_json (PDict [("id", PInt 42)]) [(1, "id", "Number", 5)] []
     = (Ok ["42.0 "], []).
Proof. split; vm_compute; reflexivity. Qed.

(** C6, at the failing input: a document of two objects and a number,
    the first object with a list under a Number field.  [float] raises
    a TypeError for the list, which neither [format_number] nor the
    record builder catches (both catch ValueError only): the record
    builder ends there, with no line for either object and no warning
    for the number.  With a string that is no number in the place of
    the list the builder does what it is built to do: the field is
    blanked, both objects get their line and the number its warning. *)
Theorem list_in_number_field_leaves_no_line :
  let schema : list field_spec := [(1, "id", "Number", 5); (2, "name", "String", 4)] in
  let document (v : pyval) : pyval :=
    PList [PDict [("id", v); ("name", PStr "bob")]; PInt 3; PDict [("id", PInt 7)]] in
  dicts_of [PDict [("id", PList [PInt 1]); ("name", PStr "bob")]; PInt 3;
            PDict [("id", PInt 7)]]
  = [[("id", PList [PInt 1]); ("name", PStr "bob")]; [("id", PInt 7)]]
  /\ process_json (document (PList [PInt 1])) schema []
     = (Raise (TypeError "float() argument must be a string or a real number, not 'list'"),
        [])
  /\ process_json (document (PStr "abc")) schema []
     = (Ok ["     bob "; "7.0      "],
        [(ERROR, "Error formatting field: Value is not a number: abc");
         (WARNING, "Skipping item because it's not a dictionary: 3")]).
Proof. repeat split; vm_compute; reflexivity. Qed.

(** ** Number fields that cannot be formatted *)

Lemma py_float_str_None (s : string) :
  PyFloat.of_str s = None ->
  exists msg, py_float (PStr s) = Raise (ValueError msg).
Proof. intros H. unfold py_float. rewrite H. eauto. Qed.

(** The two error conditions of a Number field: a string that [float]
    does not read, and a formatted number longer than the field. *)
Lemma format_number_body_ValueError (value : pyval) (length : Z) :
  (exists s, value = PStr s /\ PyFloat.of_str s = None)
  \/ (exists x integer_part decimal_part n,
         py_float value = Ok x
         /\ split "." (PyFloat.repr x) = [integer_part; decimal_part]
         /\ PyInt.of_str integer_part = Some n
         /\ length < len (PyInt.format_comma n ++ "." ++ decimal_part)) ->
  exists msg, format_number_body value length = Raise (ValueError msg).
Proof.
  unfold format_number_body, rbind, unpack2, py_int.
  intros [(s & -> & H) | (x & a & b & n & -> & -> & -> & H)].
  - destruct (py_float_str_None s H) as (msg & ->). eauto.
  - apply Z.ltb_lt in H. rewrite H. eauto.
Qed.

Lemma format_fields_cons (item : list (string * pyval)) (f : field_spec)
    (rest : list field_spec) (log : list log_record) :
  format_fields item (f :: rest) log
  = match format_item_field item f log with
    | (Ok s, log1) =>
        match format_fields item rest log1 with
        | (Ok parts, log2) => (Ok (s :: parts), log2)
        | (Raise e, log2) => (Raise e, log2)
        end
    | (Raise e, log1) => (Raise e, log1)
    end.
Proof.
  simpl format_fields. unfold bind, ret.
  destruct (format_item_field item f log) as [[s|e] log1]; [|reflexivity].
  destruct (format_fields item rest log1) as [[parts|e] log2]; reflexivity.
Qed.

(** The ValueError path of a Number field, as the code has it: for a
    positive length L and a value that is neither empty nor null, if
    the value is a string that [float] does not read, or its formatted
    form is longer than L, then [format_number] raises the ValueError
    ["Value is not a number: <value>"] (also for the number that is too
    long: the ValueError of the length test is raised inside the [try]
    block and replaced by its [except] clause), the record builder puts
    exactly L spaces in the field and logs that error, and goes on with
    the rest of the fields; the record is produced whenever no field of
    it raises an exception other than ValueError. *)
Theorem number_field_ValueError_is_blanked :
  forall (item : list (string * pyval)) (position : Z) (field_name : string)
         (length : Z) (log : list log_record),
    let value := dict_get item field_name (PStr "") in
    let f : field_spec := (position, field_name, "Number", length) in
    let err : log_record :=
      (ERROR, "Error formatting field: Value is not a number: " ++ PyRepr.str value) in
    0 < length ->
    is_empty_str value || is_None value = false ->
    (exists s, value = PStr s /\ PyFloat.of_str s = None)
    \/ (exists x integer_part decimal_part n,
           py_float value = Ok x
           /\ split "." (PyFloat.repr x) = [integer_part; decimal_part]
           /\ PyInt.of_str integer_part = Some n
           /\ length < len (PyInt.format_comma n ++ "." ++ decimal_part)) ->
    format_number value length
    = Raise (ValueError ("Value is not a number: " ++ PyRepr.str value))
    /\ format_item_field item f log = (Ok (spaces length), (log ++ [err])%list)
    /\ len (spaces length) = length
    /\ (forall rest,
          format_fields item (f :: rest) log
          = match format_fields item rest (log ++ [err])%list with
            | (Ok parts, log') => (Ok (spaces length :: parts), log')
            | (Raise e, log') => (Raise e, log')
            end)
    /\ (forall metadata,
          (forall g e,
              In g metadata ->
              format_field (field_value item g) (field_type g) (field_length g) = Raise e ->
              exists msg, e = ValueError msg) ->
          exists line log',
            process_json (PDict item) metadata log = (Ok [line], log')
            /\ is_line_of metadata item line).
Proof.
  intros item position name length log value f err Hpos Hne Hbad.
  destruct (format_number_body_ValueError value length Hbad) as (msg & Hbody).
  pose proof (format_number_ValueError value length msg Hne Hbody) as Hnum.
  assert (Hfield : format_item_field item f log = (Ok (spaces length), (log ++ [err])%list)).
  { pose proof (format_item_field_cases item f log) as H.
    unfold f, field_value, field_name, field_type, field_length in H.
    unfold format_field in H. simpl String.eqb in H. fold value in H.
    rewrite Hnum in H. exact H. }
  split; [exact Hnum|]. split; [exact Hfield|].
  split; [rewrite len_spaces; lia|]. split.
  - intros rest. now rewrite format_fields_cons, Hfield.
  - intros metadata Hother. unfold process_json.
    destruct (process_items_result [PDict item] metadata log)
      as [(lines & added & -> & Hl & _) | (e & l' & d & g & _ & Hnv & [Hd|[]] & Hg & He)].
    + simpl in Hl.
      inversion Hl as [|? line ? ? Hline Hnil]; subst. inversion Hnil; subst.
      now exists line, (log ++ added)%list.
    + exfalso. injection Hd as <-. destruct (Hother g e Hg He) as (m & ->).
      now apply (Hnv m).
Qed.

Lemma number_field_ValueError_is_blanked_witness :
  format_item_field [("id", PStr "abc")] (1, "id", "Number", 5) []
  = (Ok "     ", [(ERROR, "Error formatting field: Value is not a number: abc")])
  /\ format_item_field [("id", PStr "123456789.99")] (1, "id", "Number", 10) []
     = (Ok "          ",
        [(ERROR, "Error formatting field: Value is not a number: 123456789.99")]).
Proof.
  split.
  - refine (proj1 (proj2 (number_field_ValueError_is_blanked
                            [("id", PStr "abc")] 1 "id" 5 [] _ _ _))).
    + lia.
    + reflexivity.
    + left. exists "abc". split; reflexivity.
  - refine (proj1 (proj2 (number_field_ValueError_is_blanked
                            [("id", PStr "123456789.99")] 1 "id" 10 [] _ _ _))).
    + lia.
    + reflexivity.
    + right. eexists _, _, _, _.
      split; [vm_compute; reflexivity|].
      split; [vm_compute; reflexivity|].
      split; vm_compute; reflexivity.
Defined.

(** C2, at the failing input: a list under a Number field.  The list
    does not read as a number, but [float] raises a TypeError for it
    and not a ValueError: [format_number] does not make it "not a
    number", the record builder does not blank the field and logs
    nothing, and it ends without the record.  So not every value that
    [float] does not read is blanked.  A string that is no number in
    the same field is blanked, the error logged and the record
    produced. *)
Theorem list_value_in_number_field_is_not_blanked :
  ~ (forall (value : pyval) (length : Z),
        0 < length ->
        is_empty_str value || is_None value = false ->
        (forall x, py_float value <> Ok x) ->
        forall item position field_name log,
          dict_get item field_name (PStr "") = value ->
          exists log',
            format_item_field item (position, field_name, "Number", length) log
            = (Ok (spaces length), log'))
  /\ process_json (PList [PDict [("id", PList [PInt 1]); ("name", PStr "bob")]])
                  [(1, "id", "Number", 5); (2, "name", "String", 4)] []
     = (Raise (TypeError "float() argument must be a string or a real number, not 'list'"),
        [])
  /\ format_number (PList [PInt 1]) 5
     = Raise (TypeError "float() argument must be a string or a real number, not 'list'")
  /\ format_item_field [("id", PList [PInt 1]); ("name", PStr "bob")]
                       (1, "id", "Number", 5) []
     = (Raise (TypeError "float() argument must be a string or a real number, not 'list'"),
        [])
  /\ process_json (PList [PDict [("id", PStr "abc"); ("name", PStr "bob")]])
                  [(1, "id", "Number", 5); (2, "name", "String", 4)] []
     = (Ok ["     bob "],
        [(ERROR, "Error formatting field: Value is not a number: abc")]).
Proof.
  split; [|repeat split; vm_compute; reflexivity].
  intros H.
  destruct (H (PList [PInt 1]) 5 ltac:(lia) eq_refl ltac:(discriminate)
              [("id", PList [PInt 1])] 1 "id" [] eq_refl) as (log' & Hrun).
  discriminate Hrun.
Qed.

(** ** The text of a float *)

Section FloatText.

Lemma dots_append (a b : string) : dots (a ++ b) = (dots a + dots b)%nat.
Proof.
  induction a as [|c a IH]; simpl; [reflexivity|].
  destruct (Ascii.eqb c "."); simpl; now rewrite IH.
Qed.

Lemma digits_no_dots (s : string) : forallb is_digit s = true -> dots s = O.
Proof.
  induction s as [|c s IH]; simpl; [reflexivity|].
  intros H. apply andb_prop in H as [Hc Hs].
  destruct (Ascii.eqb_spec c "."); [subst; discriminate | now apply IH].
Qed.

Lemma is_digit_digit_char (d : Z) : 0 <= d < 10 -> is_digit (digit_char d) = true.
Proof.
  intros H.
  assert (E : d = 0 \/ d = 1 \/ d = 2 \/ d = 3 \/ d = 4 \/ d = 5 \/ d = 6
              \/ d = 7 \/ d = 8 \/ d = 9) by lia.
  repeat (destruct E as [-> | E]; [reflexivity|]). now subst.
Qed.

Lemma forallb_append (p : ascii -> bool) (a b : string) :
  forallb p (a ++ b) = forallb p a && forallb p b.
Proof.
  induction a as [|c a IH]; simpl; [reflexivity|]. now rewrite IH, andb_assoc.
Qed.

Lemma digits_fuel_all_digits (fuel : nat) (n : Z) (acc : string) :
  forallb is_digit acc = true ->
  forallb is_digit (PyInt.digits_fuel fuel n acc) = true.
Proof.
  revert n acc. induction fuel as [|fuel IH]; intros n acc Hacc; simpl; [exact Hacc|].
  assert (Hd : is_digit (digit_char (n mod 10)) = true)
    by (apply is_digit_digit_char, Z.mod_pos_bound; lia).
  destruct (n <? 10).
  - simpl. now rewrite Hd.
  - apply IH. simpl. now rewrite Hd.
Qed.

Lemma digits_all_digits (n : Z) : forallb is_digit (PyInt.digits n) = true.
Proof. now apply digits_fuel_all_digits. Qed.

Lemma rev_append_all (p : ascii -> bool) (s acc : string) :
  forallb p (rev_append s acc) = forallb p s && forallb p acc.
Proof.
  revert acc. induction s as [|c s IH]; intros acc; simpl; [reflexivity|].
  rewrite IH. simpl. destruct (p c), (forallb p s); reflexivity.
Qed.

Lemma rev_all (p : ascii -> bool) (s : string) : forallb p (rev s) = forallb p s.
Proof. unfold rev. rewrite rev_append_all. simpl. apply andb_true_r. Qed.

Lemma strip_zeros_rev_all (p : ascii -> bool) (s : string) :
  forallb p s = true -> forallb p (strip_zeros_rev s) = true.
Proof.
  induction s as [|c s IH]; simpl; [reflexivity|].
  intros H. apply andb_prop in H as [Hc Hs].
  destruct (Ascii.eqb_spec c "0") as [->|Hne].
  - now apply IH.
  - assert (E : strip_zeros_rev (String c s) = String c s).
    { destruct c as [[] [] [] [] [] [] [] []]; try reflexivity. now elim Hne. }
    change (forallb p (strip_zeros_rev (String c s)) = true).
    rewrite E. simpl. now rewrite Hc.
Qed.

Lemma take_all_p (p : ascii -> bool) (n : nat) (s : string) :
  forallb p s = true -> forallb p (take n s) = true.
Proof.
  revert s. induction n as [|n IH]; intros [|c s]; simpl; try reflexivity.
  intros H. apply andb_prop in H as [-> Hs]. now apply IH.
Qed.

Lemma drop_all_p (p : ascii -> bool) (n : nat) (s : string) :
  forallb p s = true -> forallb p (drop n s) = true.
Proof.
  revert s. induction n as [|n IH]; intros [|c s]; simpl; try reflexivity;
    try (intros H; exact H).
  intros H. apply andb_prop in H as [_ Hs]. now apply IH.
Qed.

Lemma repeat_zero_digits (n : nat) : forallb is_digit (repeat_char "0" n) = true.
Proof. induction n; simpl; [reflexivity | assumption]. Qed.

Lemma shortest_digits_all_digits (m : positive) (e : Z) :
  forallb is_digit (fst (shortest_digits m e)) = true.
Proof.
  unfold shortest_digits. destruct (shortest _ _ _ _ _ _) as [c q]. simpl.
  rewrite rev_all. apply strip_zeros_rev_all. rewrite rev_all.
  apply digits_all_digits.
Qed.

Lemma exp_text_no_dots (x : Z) : dots (exp_text x) = O.
Proof.
  unfold exp_text.
  assert (H : dots (if len (PyInt.digits (Z.abs x)) <? 2
                    then String "0" (PyInt.digits (Z.abs x))
                    else PyInt.digits (Z.abs x)) = O).
  { apply digits_no_dots. destruct (_ <? 2); simpl; apply digits_all_digits. }
  destruct (x <? 0); simpl; exact H.
Qed.

Lemma layout_dots (ds : string) (decpt : Z) :
  forallb is_digit ds = true -> (dots (layout ds decpt) <= 1)%nat.
Proof.
  intros Hds. unfold layout.
  destruct ((-4 <? decpt) && (decpt <=? 16)).
  - destruct (decpt <=? 0); [|destruct (len ds <=? decpt)].
    + simpl. rewrite dots_append, (digits_no_dots ds Hds),
        (digits_no_dots _ (repeat_zero_digits _)). simpl. lia.
    + rewrite !dots_append, (digits_no_dots ds Hds),
        (digits_no_dots _ (repeat_zero_digits _)). simpl. lia.
    + rewrite !dots_append, (digits_no_dots _ (take_all_p _ _ _ Hds)),
        (digits_no_dots _ (drop_all_p _ _ _ Hds)). simpl. lia.
  - destruct ds as [|c r]; [simpl; lia|].
    simpl in Hds. apply andb_prop in Hds as [Hc Hr].
    assert (Hcd : Ascii.eqb c "." = false)
      by (destruct (Ascii.eqb_spec c "."); [subst; discriminate | reflexivity]).
    pose proof (exp_text_no_dots (decpt - 1)) as Ht.
    remember (exp_text (decpt - 1)) as t eqn:Et. clear Et.
    destruct r as [|c' r'].
    + simpl. rewrite Hcd, Ht. lia.
    + remember (String c' r') as r eqn:Er. clear Er.
      simpl. rewrite Hcd, dots_append. simpl.
      rewrite (digits_no_dots _ Hr), Ht. lia.
Qed.

(** The text of a float has at most one ['.']. *)
Lemma repr_dots (x : pyfloat) : (dots (PyFloat.repr x) <= 1)%nat.
Proof.
  destruct x as [|neg|neg|neg m e]; simpl.
  - lia.
  - destruct neg; simpl; lia.
  - destruct neg; simpl; lia.
  - pose proof (shortest_digits_all_digits m e) as H.
    destruct (shortest_digits m e) as [ds decpt]. simpl in H.
    pose proof (layout_dots ds decpt H). destruct neg; simpl; lia.
Qed.

Lemma split_no_dots (s : string) : dots s = O -> split "." s = [s].
Proof.
  induction s as [|c s IH]; simpl; [reflexivity|].
  destruct (Ascii.eqb c "."); [discriminate|]. intros H. now rewrite IH.
Qed.

Lemma split_at_dot (a b : string) :
  dots a = O -> dots b = O -> split "." (a ++ String "." b) = [a; b].
Proof.
  intros Ha Hb. induction a as [|c a IH]; simpl.
  - now rewrite split_no_dots.
  - simpl in Ha. destruct (Ascii.eqb c "."); [discriminate|].
    now rewrite IH.
Qed.

End FloatText.

(** ** Number fields: what is formatted, and what is not *)

(** When the text of the float has a ['.'], the formatted number is the
    comma-grouped integer part, the ['.'], and the text after it. *)
Lemma format_number_of_text (value : pyval) (x : pyfloat)
    (integer_part decimal_part : string) (n length : Z) :
  is_empty_str value || is_None value = false ->
  py_float value = Ok x ->
  PyFloat.repr x = integer_part ++ String "." decimal_part ->
  dots integer_part = O ->
  PyInt.of_str integer_part = Some n ->
  len (PyInt.format_comma n ++ "." ++ decimal_part) <= length ->
  format_number value length
  = Ok (ljust (PyInt.format_comma n ++ "." ++ decimal_part) length).
Proof.
  intros Hne Hx Hrepr Hip Hn Hfit.
  apply format_number_ok; [assumption|]. apply format_number_body_ok.
  exists x, integer_part, decimal_part, n. repeat split; try assumption.
  rewrite Hrepr. apply split_at_dot; [assumption|].
  pose proof (repr_dots x) as H. rewrite Hrepr, dots_append in H. simpl in H. lia.
Qed.

(** When the text of the float has no ['.'] (the scientific form of a
    float without fraction digits, [inf], [nan]), the unpacking of the
    split raises a ValueError, which leaves [format_number] as "not a
    number", whatever the length. *)
Lemma format_number_without_dot (value : pyval) (x : pyfloat) (length : Z) :
  is_empty_str value || is_None value = false ->
  py_float value = Ok x ->
  dots (PyFloat.repr x) = O ->
  format_number value length
  = Raise (ValueError ("Value is not a number: " ++ PyRepr.str value)).
Proof.
  intros Hne Hx Hdots.
  apply (format_number_ValueError value length
           "not enough values to unpack (expected 2, got 1)"); [assumption|].
  unfold format_number_body, rbind. rewrite Hx, (split_no_dots _ Hdots). reflexivity.
Qed.

(** C1, at the failing input: the JSON number 10000000000000000 reads
    as the float 1e16, whose text ['1e+16'] has no ['.']; for every
    length the field is refused as "not a number", although the value
    is a number and the formatted form would fit. *)
Theorem format_number_refuses_1e16 :
  py_float (PInt (10 ^ 16)) = Ok (Finite false 5000000000000000 1)
  /\ PyFloat.repr (Finite false 5000000000000000 1) = "1e+16"
  /\ (forall length,
        format_number (PInt (10 ^ 16)) length
        = Raise (ValueError "Value is not a number: 10000000000000000"))
  /\ format_item_field [("id", PInt (10 ^ 16))] (1, "id", "Number", 30) []
     = (Ok (spaces 30),
        [(ERROR, "Error formatting field: Value is not a number: 10000000000000000")]).
Proof.
  assert (Hx : py_float (PInt (10 ^ 16)) = Ok (Finite false 5000000000000000 1))
    by (vm_compute; reflexivity).
  assert (Hr : PyFloat.repr (Finite false 5000000000000000 1) = "1e+16")
    by (vm_compute; reflexivity).
  assert (Hf : forall length,
             format_number (PInt (10 ^ 16)) length
             = Raise (ValueError "Value is not a number: 10000000000000000")).
  { intros length.
    rewrite (format_number_without_dot (PInt (10 ^ 16)) _ length eq_refl Hx)
      by (now rewrite Hr).
    reflexivity. }
  split; [exact Hx|]. split; [exact Hr|]. split; [exact Hf|].
  pose proof (format_item_field_cases [("id", PInt (10 ^ 16))] (1, "id", "Number", 30) [])
    as H.
  unfold field_value, field_name, field_type, field_length, format_field in H.
  simpl dict_get in H. simpl String.eqb in H. rewrite Hf in H. exact H.
Qed.

(** C9 as stated fails: -1.5e-05 lies strictly between -1 and 0 and is
    formatted with its minus sign. *)
Lemma small_negative_keeps_its_minus_sign :
  ~ (forall (value : pyval) (x : pyfloat) (length : Z) (s : string),
        py_float value = Ok x ->
        strictly_between_minus_one_and_zero x = true ->
        format_number value length = Ok s ->
        PyRepr.contains "-" s = false)
  /\ format_number (PStr "-1.5e-05") 10 = Ok "-1.5e-05  ".
Proof.
  assert (Hx : exists x, py_float (PStr "-1.5e-05") = Ok x
                         /\ strictly_between_minus_one_and_zero x = true).
  { eexists. split; vm_compute; reflexivity. }
  assert (Hf : format_number (PStr "-1.5e-05") 10 = Ok "-1.5e-05  ")
    by (vm_compute; reflexivity).
  split; [|exact Hf].
  intros H. destruct Hx as (x & Hx & Hb).
  specialize (H _ _ _ _ Hx Hb Hf). discriminate H.
Qed.

(** A float text with the integer part ['-0'] is formatted without its
    minus sign: [int('-0')] is 0, and 0 is grouped as ['0']. *)
Lemma format_number_minus_zero_text (value : pyval) (x : pyfloat)
    (decimal_part : string) (length : Z) :
  is_empty_str value || is_None value = false ->
  py_float value = Ok x ->
  PyFloat.repr x = "-0." ++ decimal_part ->
  len ("0." ++ decimal_part) <= length ->
  format_number value length = Ok (ljust ("0." ++ decimal_part) length).
Proof.
  intros Hne Hx Hrepr Hfit.
  apply (format_number_of_text value x "-0" decimal_part 0 length);
    try assumption; reflexivity.
Qed.

(** ** Decimal digits and the six-digit field *)

Section Digits.

Lemma digit_val_digit_char (d : Z) : 0 <= d < 10 -> digit_val (digit_char d) = d.
Proof.
  intros H.
  assert (E : d = 0 \/ d = 1 \/ d = 2 \/ d = 3 \/ d = 4 \/ d = 5 \/ d = 6
              \/ d = 7 \/ d = 8 \/ d = 9) by lia.
  repeat (destruct E as [-> | E]; [reflexivity|]). now subst.
Qed.

Lemma digits_val_append (a : Z) (s t : string) :
  PyInt.digits_val a (s ++ t) = PyInt.digits_val (PyInt.digits_val a s) t.
Proof. revert a. induction s as [|c s IH]; intros a; simpl; [reflexivity | apply IH]. Qed.

Lemma digits_fuel_acc (fuel : nat) (n : Z) (acc : string) :
  PyInt.digits_fuel fuel n acc = PyInt.digits_fuel fuel n "" ++ acc.
Proof.
  revert n acc. induction fuel as [|fuel IH]; intros n acc; simpl; [reflexivity|].
  destruct (n <? 10); [reflexivity|].
  rewrite (IH _ (String _ acc)), (IH _ (String _ "")), append_assoc. reflexivity.
Qed.

Lemma digits_fuel_val (fuel : nat) (n : Z) :
  0 <= n < 2 ^ Z.of_nat fuel ->
  PyInt.digits_val 0 (PyInt.digits_fuel fuel n "") = n.
Proof.
  revert n. induction fuel as [|fuel IH]; intros n Hn.
  - simpl in Hn. assert (n = 0) by lia. now subst.
  - simpl PyInt.digits_fuel.
    pose proof (Z.mod_pos_bound n 10 ltac:(lia)) as Hm.
    destruct (n <? 10) eqn:E.
    + apply Z.ltb_lt in E. cbn [PyInt.digits_val].
      rewrite digit_val_digit_char by assumption.
      rewrite Z.mod_small; lia.
    + apply Z.ltb_ge in E. rewrite digits_fuel_acc, digits_val_append.
      rewrite IH.
      * cbn [PyInt.digits_val]. rewrite digit_val_digit_char by assumption.
        pose proof (Z.div_mod n 10 ltac:(lia)). lia.
      * rewrite Nat2Z.inj_succ, Z.pow_succ_r in Hn by lia.
        split; [apply Z.div_pos; lia|].
        apply Z.div_lt_upper_bound; lia.
Qed.

(** The digits of [n] are its decimal notation. *)
Lemma digits_val_digits (n : Z) : 0 <= n -> PyInt.digits_val 0 (PyInt.digits n) = n.
Proof.
  intros Hn. unfold PyInt.digits. apply digits_fuel_val. split; [assumption|].
  destruct (Z.eq_dec n 0) as [->|Hne]; [reflexivity|].
  rewrite Nat2Z.inj_succ, Z2Nat.id by apply Z.log2_nonneg.
  apply Z.log2_spec. lia.
Qed.

Lemma digits_fuel_len (fuel : nat) (n k : Z) (acc : string) :
  1 <= k -> 0 <= n < 10 ^ k ->
  len (PyInt.digits_fuel fuel n acc) <= k + len acc.
Proof.
  revert n k acc. induction fuel as [|fuel IH]; intros n k acc Hk Hn; simpl.
  - lia.
  - destruct (n <? 10) eqn:E.
    + unfold len. simpl String.length. lia.
    + apply Z.ltb_ge in E.
      assert (Hk2 : 2 <= k).
      { destruct (Z.eq_dec k 1) as [->|]; [simpl in Hn; lia | lia]. }
      etransitivity; [apply (IH (n / 10) (k - 1)); [lia|]|].
      * split; [apply Z.div_pos; lia|].
        apply Z.div_lt_upper_bound; [lia|].
        rewrite <- Z.pow_succ_r by lia. now replace (Z.succ (k - 1)) with k by lia.
      * unfold len. simpl String.length. lia.
Qed.

Lemma digits_len (n k : Z) : 1 <= k -> 0 <= n < 10 ^ k -> len (PyInt.digits n) <= k.
Proof.
  intros Hk Hn. pose proof (digits_fuel_len (S (Z.to_nat (Z.log2 n))) n k "" Hk Hn) as H.
  change (len "") with 0 in H. unfold PyInt.digits. lia.
Qed.

Lemma digits_val_zeros (k : nat) (s : string) :
  PyInt.digits_val 0 (repeat_char "0" k ++ s) = PyInt.digits_val 0 s.
Proof. induction k as [|k IH]; simpl; [reflexivity | exact IH]. Qed.

(** Below a million, [format(n, '06')] is the decimal notation of [n]
    in exactly six digits. *)
Lemma format_06_six_digits (n : Z) :
  0 <= n < 10 ^ 6 ->
  len (PyInt.format_06 n) = 6
  /\ forallb is_digit (PyInt.format_06 n) = true
  /\ PyInt.digits_val 0 (PyInt.format_06 n) = n.
Proof.
  intros Hn. unfold PyInt.format_06.
  replace (n <? 0) with false by (symmetry; apply Z.ltb_ge; lia).
  rewrite Z.abs_eq by lia.
  pose proof (digits_len n 6 ltac:(lia) Hn) as Hl.
  repeat split.
  - rewrite len_append. unfold len in *. rewrite length_repeat_char. lia.
  - rewrite forallb_append, repeat_zero_digits, digits_all_digits. reflexivity.
  - rewrite digits_val_zeros. apply digits_val_digits. lia.
Qed.

End Digits.

(** ** The file emitter *)

Section Emitter.

Lemma fold_left_max (r : list Z) (x : Z) :
  x <= fold_left Z.max r x
  /\ (forall y, In y r -> y <= fold_left Z.max r x)
  /\ In (fold_left Z.max r x) (x :: r).
Proof.
  revert x. induction r as [|y r IH]; intros x; simpl.
  - repeat split; [lia | tauto | now left].
  - destruct (IH (Z.max x y)) as (H1 & H2 & H3). repeat split.
    + lia.
    + intros z [<-|Hz]; [lia | now apply H2].
    + destruct H3 as [H3|H3]; [|now right; right].
      rewrite <- H3. destruct (Z.max_spec x y) as [[_ ->]|[_ ->]]; tauto.
Qed.

(** [max_or_0] is the greatest element, and 0 for the empty list. *)
Lemma max_or_0_spec (l : list Z) :
  (forall y, In y l -> y <= max_or_0 l)
  /\ (l = [] -> max_or_0 l = 0)
  /\ (l <> [] -> In (max_or_0 l) l).
Proof.
  destruct l as [|x r]; simpl.
  - repeat split; tauto.
  - destruct (fold_left_max r x) as (H1 & H2 & H3). repeat split.
    + intros y [<-|Hy]; [assumption | now apply H2].
    + discriminate.
    + intros _. exact H3.
Qed.

Lemma ljust_same_length (l : list string) (width : Z) :
  (forall line, In line l -> len line = width) ->
  List.map (fun line => ljust line width) l = l.
Proof.
  induction l as [|x r IH]; intros H; simpl; [reflexivity|].
  rewrite IH by (intros; apply H; now right).
  unfold ljust. rewrite (H x) by now left. now rewrite Z.leb_refl.
Qed.

Lemma len_join_ljust (l : list string) (width : Z) :
  (forall line, In line l -> len line <= width) ->
  len (join (List.map (fun line => ljust line width) l))
  = width * Z.of_nat (List.length l)
  /\ len (join l) <= width * Z.of_nat (List.length l)
  /\ ((exists line, In line l /\ len line < width) ->
      len (join l) < width * Z.of_nat (List.length l)).
Proof.
  unfold join. induction l as [|x r IH]; intros H.
  - cbn [List.map fold_right List.length]. change (len "") with 0.
    change (Z.of_nat 0) with 0.
    split; [lia|]. split; [lia|]. intros (line & [] & _).
  - destruct IH as (IH1 & IH2 & IH3); [intros; apply H; now right|].
    pose proof (H x (or_introl eq_refl)) as Hx.
    cbn [List.map fold_right List.length]. rewrite !len_append, len_ljust, IH1.
    rewrite Nat2Z.inj_succ. split; [lia|]. split; [lia|].
    intros (line & [<-|Hin] & Hlt); [lia|].
    assert (len (fold_right append "" r) < width * Z.of_nat (List.length r))
      by (apply IH3; eauto).
    lia.
Qed.

End Emitter.

(** What a run of [main] that returns has done. *)
Lemma main_returns (config : list (string * string)) (metadata : list field_spec)
    (json_data : pyval) (log log' : list log_record) (files : list file) :
  main config metadata json_data log = (Ok files, log') ->
  exists source_path source_name result_path lines log1,
    config_item config "sourcePath" = Ok source_path
    /\ config_item config "sourceName" = Ok source_name
    /\ config_item config "resultPath4IFF" = Ok result_path
    /\ process_json json_data metadata log = (Ok lines, log1)
    /\ let source_file_name := basename (path_join source_path source_name) in
       let max_row_length :=
         Z.max (max_or_0 (List.map len lines)) (len source_file_name + 6) in
       let header_line :=
         ljust (PyInt.format_06 max_row_length ++ source_file_name) max_row_length in
       let result_filename := config_get config "extractFile4IFF" "output" ++ ".iff" in
       let result_backup_path := config_get config "resultBackupPath4CSV" "" in
       files
       = (path_join result_path result_filename,
          header_line
            ++ join (List.map (fun line => ljust line max_row_length) lines))
           :: (if String.eqb result_backup_path "" then []
               else [(path_join result_backup_path result_filename,
                      header_line ++ join lines)]).
Proof.
  unfold main, bind, lift, ret, logging.
  destruct (config_item config "logPath") as [log_path|]; [|discriminate].
  destruct (config_item config "logFileName") as [log_file_name|]; [|discriminate].
  destruct (config_item config "sourcePath") as [source_path|]; [|discriminate].
  destruct (config_item config "sourceSheet") as [source_sheet|]; [|discriminate].
  destruct (config_item config "sourceName") as [source_name|]; [|discriminate].
  destruct (process_json json_data metadata log) as [[lines|e] log1]; [|discriminate].
  destruct (config_item config "resultPath4IFF") as [result_path|]; [|discriminate].
  intros H. exists source_path, source_name, result_path, lines, log1.
  repeat (split; [reflexivity|]).
  cbv zeta. destruct (String.eqb (config_get config "resultBackupPath4CSV" "") "");
    simpl negb in H; cbv iota in H; now injection H as <- _.
Qed.

(** C7: in every run that writes its output, maxRowLength is the
    greater of the longest line's length (0 without lines) and the
    length of the JSON file's base name plus 6; the header line is
    maxRowLength in the format ['06'] followed by the base name,
    right-padded with spaces to maxRowLength; and the primary file
    holds the header line followed by every line right-padded to
    maxRowLength.  Below a million the number takes exactly six digits
    and the header line has exactly maxRowLength characters; every
    padded line has exactly maxRowLength characters. *)
Theorem primary_file_is_header_and_padded_lines :
  forall (config : list (string * string)) (metadata : list field_spec)
         (json_data : pyval) (log log' : list log_record) (files : list file),
    main config metadata json_data log = (Ok files, log') ->
    exists source_path source_name result_path lines log1 rest,
      config_item config "sourcePath" = Ok source_path
      /\ config_item config "sourceName" = Ok source_name
      /\ config_item config "resultPath4IFF" = Ok result_path
      /\ process_json json_data metadata log = (Ok lines, log1)
      /\ let source_file_name := basename (path_join source_path source_name) in
         let max_data_row_length := max_or_0 (List.map len lines) in
         let max_row_length := Z.max max_data_row_length (len source_file_name + 6) in
         let header_line :=
           ljust (PyInt.format_06 max_row_length ++ source_file_name) max_row_length in
         (forall line, In line lines -> len line <= max_data_row_length)
         /\ (lines = [] -> max_data_row_length = 0)
         /\ (lines <> [] -> exists line, In line lines /\ len line = max_data_row_length)
         /\ (max_row_length < 10 ^ 6 ->
             len (PyInt.format_06 max_row_length) = 6
             /\ forallb is_digit (PyInt.format_06 max_row_length) = true
             /\ PyInt.digits_val 0 (PyInt.format_06 max_row_length) = max_row_length
             /\ len header_line = max_row_length)
         /\ Forall (fun line => len (ljust line max_row_length) = max_row_length) lines
         /\ files
            = (path_join result_path (config_get config "extractFile4IFF" "output" ++ ".iff"),
               header_line
                 ++ join (List.map (fun line => ljust line max_row_length) lines))
                :: rest.
Proof.
  intros config metadata json_data log log' files Hrun.
  destruct (main_returns _ _ _ _ _ _ Hrun)
    as (source_path & source_name & result_path & lines & log1 & H1 & H2 & H3 & H4 & H5).
  cbv zeta in H5.
  exists source_path, source_name, result_path, lines, log1. eexists.
  repeat (split; [assumption|]). cbv zeta.
  destruct (max_or_0_spec (List.map len lines)) as (Hge & Hnil & Hin).
  assert (Hle : forall line, In line lines -> len line <= max_or_0 (List.map len lines)).
  { intros line Hl. apply Hge. now apply in_map. }
  split; [exact Hle|]. split; [now intros ->|]. split.
  { intros Hne. destruct lines as [|l0 r]; [contradiction|].
    specialize (Hin ltac:(discriminate)). apply in_map_iff in Hin.
    destruct Hin as (line & Hlen & Hl). now exists line. }
  split.
  { intros Hsmall.
    pose proof (len_nonneg (basename (path_join source_path source_name))) as Hn.
    destruct (format_06_six_digits
                (Z.max (max_or_0 (List.map len lines))
                       (len (basename (path_join source_path source_name)) + 6))
                ltac:(lia)) as (Hsix & Hdig & Hval).
    repeat (split; [assumption|]).
    rewrite len_ljust, len_append, Hsix. lia. }
  split; [|exact H5].
  rewrite Forall_forall. intros line Hl. rewrite len_ljust.
  specialize (Hle line Hl). lia.
Qed.

Lemma primary_file_is_header_and_padded_lines_witness :
  exists lines log1,
    process_json (PList [PDict [("id", PInt 42); ("name", PStr "bob")]; PDict []])
                 [(2, "name", "String", 4); (1, "id", "Number", 5)] []
    = (Ok lines, log1).
Proof.
  assert (Hrun :
    main [("logPath", "/log"); ("logFileName", "run.log"); ("sourcePath", "/data");
          ("sourceSheet", "schema.csv"); ("sourceName", "in.json");
          ("resultPath4IFF", "/out")]
         [(2, "name", "String", 4); (1, "id", "Number", 5)]
         (PList [PDict [("id", PInt 42); ("name", PStr "bob")]; PDict []]) []
    = (Ok [("/out/output.iff", "000013in.json42.0 bob                  ")],
       [(INFO, "Generated IFF file: /out/output.iff")]))
    by (vm_compute; reflexivity).
  destruct (primary_file_is_header_and_padded_lines _ _ _ _ _ _ Hrun)
    as (sp & sn & rp & lines & log1 & rest & _ & _ & _ & Hlines & _).
  exact (ex_intro _ lines (ex_intro _ log1 Hlines)).
Defined.

(** C8: in every run with a backup path, the run writes two files: the
    primary one, and under the backup path a file that holds the same
    padded header line followed by the lines as they are, not padded
    to maxRowLength; when some line is shorter than maxRowLength the
    two contents differ. *)
Theorem backup_file_is_header_and_unpadded_lines :
  forall (config : list (string * string)) (metadata : list field_spec)
         (json_data : pyval) (log log' : list log_record) (files : list file),
    main config metadata json_data log = (Ok files, log') ->
    config_get config "resultBackupPath4CSV" "" <> "" ->
    exists source_path source_name lines log1 primary_path,
      config_item config "sourcePath" = Ok source_path
      /\ config_item config "sourceName" = Ok source_name
      /\ process_json json_data metadata log = (Ok lines, log1)
      /\ let source_file_name := basename (path_join source_path source_name) in
         let max_row_length :=
           Z.max (max_or_0 (List.map len lines)) (len source_file_name + 6) in
         let header_line :=
           ljust (PyInt.format_06 max_row_length ++ source_file_name) max_row_length in
         let primary :=
           header_line ++ join (List.map (fun line => ljust line max_row_length) lines) in
         let backup := header_line ++ join lines in
         files
         = [(primary_path, primary);
            (path_join (config_get config "resultBackupPath4CSV" "")
                       (config_get config "extractFile4IFF" "output" ++ ".iff"),
             backup)]
         /\ ((forall line, In line lines -> len line = max_row_length) -> backup = primary)
         /\ ((exists line, In line lines /\ len line < max_row_length) -> backup <> primary).
Proof.
  intros config metadata json_data log log' files Hrun Hbackup.
  destruct (main_returns _ _ _ _ _ _ Hrun)
    as (source_path & source_name & result_path & lines & log1 & H1 & H2 & H3 & H4 & H5).
  cbv zeta in H5.
  exists source_path, source_name, lines, log1. eexists.
  repeat (split; [assumption|]). cbv zeta.
  destruct (String.eqb_spec (config_get config "resultBackupPath4CSV" "") "")
    as [E|_]; [contradiction|].
  split; [exact H5|]. split.
  - intros Hall. now rewrite ljust_same_length.
  - intros Hshort Heq.
    assert (Hle : forall line, In line lines ->
              len line <= Z.max (max_or_0 (List.map len lines))
                                (len (basename (path_join source_path source_name)) + 6)).
    { intros line Hl.
      destruct (max_or_0_spec (List.map len lines)) as (Hge & _).
      specialize (Hge (len line) (in_map len _ _ Hl)). lia. }
    destruct (len_join_ljust lines _ Hle) as (Hpad & _ & Hlt).
    specialize (Hlt Hshort).
    apply (f_equal len) in Heq. rewrite !len_append in Heq. lia.
Qed.

Lemma backup_file_is_header_and_unpadded_lines_witness :
  exists lines log1,
    process_json (PList [PDict [("id", PInt 42); ("name", PStr "bob")]; PDict []])
                 [(2, "name", "String", 4); (1, "id", "Number", 5)]
                 [(INFO, "start")]
    = (Ok lines, log1).
Proof.
  assert (Hrun :
    main [("logPath", "/log"); ("logFileName", "run.log"); ("sourcePath", "/data");
          ("sourceSheet", "schema.csv"); ("sourceName", "in.json");
          ("resultPath4IFF", "/out"); ("resultBackupPath4CSV", "/bak")]
         [(2, "name", "String", 4); (1, "id", "Number", 5)]
         (PList [PDict [("id", PInt 42); ("name", PStr "bob")]; PDict []])
         [(INFO, "start")]
    = (Ok [("/out/output.iff", "000013in.json42.0 bob                  ");
           ("/bak/output.iff", "000013in.json42.0 bob          ")],
       [(INFO, "start"); (INFO, "Generated IFF file: /out/output.iff");
        (INFO, "Backed up IFF file to: /bak/output.iff")]))
    by (vm_compute; reflexivity).
  destruct (backup_file_is_header_and_unpadded_lines _ _ _ _ _ _ Hrun
              ltac:(vm_compute; discriminate))
    as (sp & sn & lines & log1 & pp & _ & _ & Hlines & _).
  exact (ex_intro _ lines (ex_intro _ log1 Hlines)).
Defined.

(** ** The text of a float between -1 and -0.0001 *)

Lemma leading_zeros_spec (fuel : nat) (num den j0 : Z) :
  0 < num ->
  (exists j, j0 <= j < j0 + Z.of_nat fuel /\ den <= num * 10 ^ j) ->
  j0 <= leading_zeros fuel num den j0
  /\ den <= num * 10 ^ leading_zeros fuel num den j0
  /\ (forall i, j0 <= i < leading_zeros fuel num den j0 -> num * 10 ^ i < den).
Proof.
  intros Hnum. revert j0. induction fuel as [|fuel IH]; intros j0 (j & Hj & Hden).
  - lia.
  - simpl leading_zeros. destruct (den <=? num * 10 ^ j0) eqn:E.
    + apply Z.leb_le in E. repeat split; [lia | assumption | intros; lia].
    + apply Z.leb_gt in E.
      assert (Hj' : j0 + 1 <= j < j0 + 1 + Z.of_nat fuel).
      { destruct (Z.eq_dec j j0) as [->|]; lia. }
      destruct (IH (j0 + 1) (ex_intro _ j (conj Hj' Hden))) as (H1 & H2 & H3).
      repeat split; [lia | assumption |].
      intros i Hi. destruct (Z.eq_dec i j0) as [->|]; [assumption | apply H3; lia].
Qed.

Lemma pow10_pos (k : Z) : 0 <= k -> 0 < 10 ^ k.
Proof. intros. apply Z.pow_pos_nonneg; lia. Qed.

Lemma pow10_le (a b : Z) : 0 <= a <= b -> 10 ^ a <= 10 ^ b.
Proof. intros. apply Z.pow_le_mono_r; lia. Qed.

(** For [10^-4 <= num/den < 1] the decimal exponent is one of 0, -1, -2, -3. *)
Lemma dec_exponent_fraction (num den : Z) :
  0 < num -> num < den -> den <= num * 10 ^ 4 ->
  let k := dec_exponent num den in
  -3 <= k <= 0 /\ den <= num * 10 ^ (1 - k) /\ num * 10 ^ (- k) < den.
Proof.
  intros Hnum Hlt Hge k. unfold k, dec_exponent.
  replace (den <=? num) with false by (symmetry; apply Z.leb_gt; lia).
  destruct (leading_zeros_spec 400 num den 1 Hnum) as (H1 & H2 & H3).
  { exists 4. split; [lia | assumption]. }
  set (j := leading_zeros 400 num den 1) in *.
  assert (Hj4 : j <= 4).
  { destruct (Z_le_gt_dec j 4) as [|Hgt]; [assumption|].
    specialize (H3 4 ltac:(lia)). lia. }
  split; [lia|]. split.
  - now replace (1 - (1 - j)) with j by lia.
  - replace (- (1 - j)) with (j - 1) by lia.
    destruct (Z.eq_dec j 1) as [->|Hne]; [simpl; lia|].
    apply H3. lia.
Qed.

Lemma neighbours_fraction (num den k n : Z) :
  0 < num -> 0 < den -> k <= 0 -> 1 <= n ->
  den <= num * 10 ^ (1 - k) -> num * 10 ^ (- k) < den ->
  exists c1 c2,
    neighbours num den k n = (c1, c2, k - n)
    /\ 10 ^ (n - 1) <= c1 <= 10 ^ n
    /\ 10 ^ (n - 1) <= c2 <= 10 ^ n
    /\ (c1 = 10 ^ n -> (2 * 10 ^ n - 1) * den <= 2 * (num * 10 ^ (n - k))).
Proof.
  intros Hnum Hden Hk Hn Hge Hlt. unfold neighbours.
  replace (0 <=? k - n) with false by (symmetry; apply Z.leb_gt; lia).
  replace (- (k - n)) with (n - k) by lia.
  set (sn := num * 10 ^ (n - k)).
  assert (Hp1 : 0 < 10 ^ (n - 1)) by (apply pow10_pos; lia).
  assert (Hpn : 10 ^ n = 10 * 10 ^ (n - 1)).
  { rewrite <- Z.pow_succ_r by lia. f_equal. lia. }
  assert (Hsn1 : sn = num * 10 ^ (1 - k) * 10 ^ (n - 1)).
  { unfold sn. rewrite <- Z.mul_assoc, <- Z.pow_add_r by lia. do 2 f_equal. lia. }
  assert (Hsn2 : sn = num * 10 ^ (- k) * 10 ^ n).
  { unfold sn. rewrite <- Z.mul_assoc, <- Z.pow_add_r by lia. do 2 f_equal. lia. }
  pose proof (Z.div_mod sn den ltac:(lia)) as Hdm.
  pose proof (Z.mod_pos_bound sn den Hden) as Hr.
  set (lo := sn / den) in *. set (r := sn mod den) in *.
  assert (Hlo1 : 10 ^ (n - 1) <= lo).
  { apply Z.div_le_lower_bound; [assumption|]. rewrite Hsn1. nia. }
  assert (Hlo2 : lo < 10 ^ n).
  { apply Z.div_lt_upper_bound; [assumption|]. rewrite Hsn2.
    assert (0 < 10 ^ n) by (apply pow10_pos; lia). nia. }
  destruct ((2 * r <? den) || ((2 * r =? den) && Z.even lo)) eqn:E.
  - exists lo, (lo + 1). split; [reflexivity|]. split; [lia|]. split; [lia|]. lia.
  - exists (lo + 1), lo. split; [reflexivity|]. split; [lia|]. split; [lia|].
    intros Hc. apply orb_false_iff in E as [E _]. apply Z.ltb_ge in E.
    assert (Hlo : lo = 10 ^ n - 1) by lia.
    rewrite Hdm, Hlo. nia.
Qed.

Lemma digits_fuel_len_exact (fuel : nat) (n k : Z) (acc : string) :
  1 <= k -> 10 ^ (k - 1) <= n < 10 ^ k -> n < 2 ^ Z.of_nat fuel ->
  len (PyInt.digits_fuel fuel n acc) = k + len acc.
Proof.
  revert n k acc. induction fuel as [|fuel IH]; intros n k acc Hk Hn Hf.
  - assert (0 < 10 ^ (k - 1)) by (apply pow10_pos; lia). simpl in Hf. lia.
  - simpl PyInt.digits_fuel.
    assert (Hp : 10 ^ k = 10 * 10 ^ (k - 1)).
    { rewrite <- Z.pow_succ_r by lia. f_equal. lia. }
    destruct (n <? 10) eqn:E.
    + apply Z.ltb_lt in E.
      assert (k = 1).
      { destruct (Z.eq_dec k 1); [assumption|].
        pose proof (pow10_le 1 (k - 1) ltac:(lia)). simpl in *. lia. }
      subst k. unfold len. simpl String.length. lia.
    + apply Z.ltb_ge in E.
      assert (Hk2 : 2 <= k).
      { destruct (Z.eq_dec k 1) as [->|]; [simpl in Hn; lia | lia]. }
      assert (Hp' : 10 ^ (k - 1) = 10 * 10 ^ (k - 1 - 1)).
      { rewrite <- Z.pow_succ_r by lia. f_equal. lia. }
      rewrite (IH (n / 10) (k - 1)).
      * unfold len. simpl String.length. lia.
      * lia.
      * split.
        -- apply Z.div_le_lower_bound; lia.
        -- apply Z.div_lt_upper_bound; lia.
      * rewrite Nat2Z.inj_succ, Z.pow_succ_r in Hf by lia.
        apply Z.div_lt_upper_bound; lia.
Qed.

Lemma digits_len_exact (n k : Z) :
  1 <= k -> 10 ^ (k - 1) <= n < 10 ^ k -> len (PyInt.digits n) = k.
Proof.
  intros Hk Hn. unfold PyInt.digits.
  assert (0 < 10 ^ (k - 1)) by (apply pow10_pos; lia).
  rewrite (digits_fuel_len_exact _ n k "" Hk Hn).
  - change (len "") with 0. lia.
  - rewrite Nat2Z.inj_succ, Z2Nat.id by apply Z.log2_nonneg.
    apply Z.log2_spec. lia.
Qed.

Lemma binade_self (a : Z) : 0 < a -> binade a a = -52.
Proof.
  intros Ha. unfold binade.
  replace (Z.log2 a - Z.log2 a - 52) with (-52) by lia.
  change (0 <=? -52) with false. cbv iota. change (- -52) with 52.
  rewrite (Z.mul_comm a), Z.div_mul by lia. reflexivity.
Qed.

Lemma round_pos_self (neg : bool) (a : Z) :
  0 < a -> round_pos neg a a = Finite neg (Z.to_pos (2 ^ 52)) (-52).
Proof.
  intros Ha. unfold round_pos. rewrite (binade_self a Ha). cbv zeta.
  change (0 <=? -52) with false. cbv iota. change (- -52) with 52.
  rewrite (Z.mul_comm a), Z.div_mul, Z.mod_mul by lia.
  replace (a <? 2 * 0) with false by (symmetry; apply Z.ltb_ge; lia).
  replace (a =? 2 * 0) with false by (symmetry; apply Z.eqb_neq; lia).
  reflexivity.
Qed.

Section Fraction.

Variables (x : pyfloat) (num den k : Z).
Hypothesis Hnum : 0 < num.
Hypothesis Hden : 0 < den.
Hypothesis Hk : k <= 0.
Hypothesis Hge : den <= num * 10 ^ (1 - k).
Hypothesis Hlt : num * 10 ^ (- k) < den.

(** What [shortest] returns for a fraction: a decimal of [n'] digits,
    or the power [10^n'], and the latter only if it reads back as [x]
    or was taken unchecked as the nearest of the last length. *)
Lemma shortest_fraction (fuel : nat) (n : Z) :
  1 <= n ->
  exists n' c,
    n <= n' <= n + Z.of_nat fuel
    /\ shortest fuel x num den k n = (c, k - n')
    /\ 10 ^ (n' - 1) <= c <= 10 ^ n'
    /\ (c = 10 ^ n' ->
        reads_back x c (k - n') = true
        \/ (n' = n + Z.of_nat fuel
            /\ (2 * 10 ^ n' - 1) * den <= 2 * (num * 10 ^ (n' - k)))).
Proof.
  revert n. induction fuel as [|fuel IH]; intros n Hn;
    destruct (neighbours_fraction num den k n Hnum Hden Hk Hn Hge Hlt)
      as (c1 & c2 & Hnb & Hc1 & Hc2 & Hhi).
  - exists n, c1. simpl shortest. rewrite Hnb.
    split; [simpl; lia|]. split; [reflexivity|]. split; [assumption|].
    intros Hc. right. split; [simpl; lia | now apply Hhi].
  - cbn [shortest]. rewrite Hnb.
    destruct (reads_back x c1 (k - n)) eqn:E1;
      [|destruct (reads_back x c2 (k - n)) eqn:E2].
    + exists n, c1. split; [lia|]. split; [reflexivity|]. split; [assumption|].
      intros _. now left.
    + exists n, c2. split; [lia|]. split; [reflexivity|]. split; [assumption|].
      intros _. now left.
    + destruct (IH (n + 1) ltac:(lia)) as (n' & c & Hn' & Hs & Hc & Hp).
      exists n', c. split; [lia|]. split; [assumption|]. split; [assumption|].
      intros Hcp. destruct (Hp Hcp) as [Hl|[Hr1 Hr2]]; [now left|].
      right. split; [lia | assumption].
Qed.

End Fraction.

(** A binary64 value [m * 2^e] with [10^-4 <= m * 2^e < 1] has its
    decimal point position among 0, -1, -2, -3. *)
Lemma shortest_digits_fraction (m : positive) (e : Z) :
  Z.pos m < 2 ^ 53 ->
  Z.pos m < 2 ^ (- e) ->
  2 ^ (- e) <= Z.pos m * 10 ^ 4 ->
  -4 < snd (shortest_digits m e) <= 0.
Proof.
  intros Hm Hlt1 Hge4.
  assert (He : e < 0).
  { destruct (Z_lt_ge_dec e 0) as [|Hge]; [assumption|]. exfalso.
    destruct (Z.eq_dec e 0) as [->|Hne]; [simpl in Hlt1; lia|].
    rewrite Z.pow_neg_r in Hlt1 by lia. lia. }
  unfold shortest_digits.
  replace (0 <=? e) with false by (symmetry; apply Z.leb_gt; lia).
  set (num := Z.pos m) in *. set (den := 2 ^ (- e)) in *.
  assert (Hnum : 0 < num) by (unfold num; lia).
  assert (Hden : 0 < den) by (unfold den; apply Z.pow_pos_nonneg; lia).
  destruct (dec_exponent_fraction num den Hnum Hlt1 Hge4) as (Hk & Hge & Hlt).
  set (k := dec_exponent num den) in *.
  destruct (shortest_fraction (Finite false m e) num den k Hnum Hden
              ltac:(lia) Hge Hlt 16 1 ltac:(lia))
    as (n' & c & Hn' & -> & Hc & Hp).
  cbn [snd].
  assert (Hpn : 10 ^ n' = 10 * 10 ^ (n' - 1)).
  { rewrite <- Z.pow_succ_r by lia. f_equal. lia. }
  destruct (Z.eq_dec c (10 ^ n')) as [Hc10|Hne].
  - rewrite (digits_len_exact c (n' + 1)).
    + assert (Hk0 : k <> 0); [|lia].
      intros Hk0. destruct (Hp Hc10) as [Hrb | [Hn17 Hnear]].
      * unfold reads_back, of_decimal in Hrb. subst c.
        assert (Hpos : 0 < 10 ^ n') by (apply pow10_pos; lia).
        replace (10 ^ n' =? 0) with false in Hrb by (symmetry; apply Z.eqb_neq; lia).
        replace (0 <=? k - n') with false in Hrb by (symmetry; apply Z.leb_gt; lia).
        replace (- (k - n')) with n' in Hrb by lia.
        rewrite round_pos_self in Hrb by assumption.
        cbn [eqb Bool.eqb andb] in Hrb.
        apply andb_prop in Hrb as [Hm52 He52].
        apply Pos.eqb_eq in Hm52. apply Z.eqb_eq in He52.
        subst e. unfold num in *. rewrite <- Hm52 in Hlt1.
        change (Z.pos (Z.to_pos (2 ^ 52))) with (2 ^ 52) in Hlt1.
        change (- -52) with 52 in Hlt1. lia.
      * assert (E17 : n' = 17) by (rewrite Hn17; reflexivity).
        clear Hn17. rewrite E17, Hk0 in Hnear. rewrite Hk0 in Hge.
        change (1 - 0) with 1 in Hge. change (17 - 0) with 17 in Hnear.
        change (10 ^ 1) with 10 in Hge.
        change (10 ^ 17) with 100000000000000000 in Hnear.
        change (2 ^ 53) with 9007199254740992 in Hm.
        lia.
    + lia.
    + rewrite Hc10. split; [replace (n' + 1 - 1) with n' by lia; lia|].
      replace (n' + 1) with (Z.succ n') by lia. rewrite Z.pow_succ_r by lia.
      assert (0 < 10 ^ n') by (apply pow10_pos; lia). lia.
  - rewrite (digits_len_exact c n'); lia.
Qed.

Lemma repr_negative_fraction (m : positive) (e : Z) :
  Z.pos m < 2 ^ 53 ->
  Z.pos m < 2 ^ (- e) ->
  2 ^ (- e) <= Z.pos m * 10 ^ 4 ->
  exists decimal_part, PyFloat.repr (Finite true m e) = "-0." ++ decimal_part.
Proof.
  intros Hm Hlt Hge. pose proof (shortest_digits_fraction m e Hm Hlt Hge) as H.
  unfold PyFloat.repr. destruct (shortest_digits m e) as [ds decpt]. cbn [snd] in H.
  unfold layout.
  replace ((-4 <? decpt) && (decpt <=? 16)) with true
    by (symmetry; apply andb_true_intro; split;
        [apply Z.ltb_lt | apply Z.leb_le]; lia).
  replace (decpt <=? 0) with true by (symmetry; apply Z.leb_le; lia).
  eexists. reflexivity.
Qed.

(** C9, as the code has it: for every numeric value that reads as a
    binary64 float x with -1 < x <= -0.0001 (for example -0.5), the
    float's text is ['-0.'] followed by fraction digits, its integer
    part ['-0'] is read back as the integer 0, and the formatted number
    is ['0.'] and the fraction digits, right-padded: the minus sign is
    dropped. *)
Theorem minus_sign_dropped_between_minus_one_and_minus_1e4 :
  forall (value : pyval) (x : pyfloat) (length : Z),
    is_empty_str value || is_None value = false ->
    py_float value = Ok x ->
    is_binary64 x = true ->
    strictly_between_minus_one_and_zero x = true ->
    at_most_minus_1e4 x = true ->
    exists decimal_part,
      PyFloat.repr x = "-0." ++ decimal_part
      /\ PyInt.of_str "-0" = Some 0
      /\ (len ("0." ++ decimal_part) <= length ->
          format_number value length = Ok (ljust ("0." ++ decimal_part) length)).
Proof.
  intros value x length Hne Hx Hwf Hbetween Hmost.
  destruct x as [|neg|neg|[|] m e]; try discriminate.
  cbn [strictly_between_minus_one_and_zero] in Hbetween.
  cbn [at_most_minus_1e4] in Hmost.
  apply Z.ltb_lt in Hbetween. apply Z.leb_le in Hmost.
  assert (Hm : Z.pos m < 2 ^ 53).
  { cbn [is_binary64] in Hwf. apply orb_prop in Hwf as [H|H].
    - apply andb_prop in H as [H _]. apply andb_prop in H as [H _].
      apply andb_prop in H as [_ H]. now apply Z.ltb_lt in H.
    - apply andb_prop in H as [H _]. apply Z.ltb_lt in H.
      change (2 ^ 53) with 9007199254740992. change (2 ^ 52) with 4503599627370496 in H.
      lia. }
  destruct (repr_negative_fraction m e Hm Hbetween Hmost) as (decimal_part & Hrepr).
  exists decimal_part. split; [exact Hrepr|]. split; [reflexivity|].
  intros Hfit. now apply (format_number_minus_zero_text value (Finite true m e)).
Qed.

Lemma minus_sign_dropped_between_minus_one_and_minus_1e4_witness :
  exists decimal_part,
    PyFloat.repr (Finite true 4503599627370496 (-53)) = "-0." ++ decimal_part
    /\ PyInt.of_str "-0" = Some 0
    /\ (len ("0." ++ decimal_part) <= 6 ->
        format_number (PStr "-0.5") 6 = Ok (ljust ("0." ++ decimal_part) 6)).
Proof.
  refine (minus_sign_dropped_between_minus_one_and_minus_1e4
            (PStr "-0.5") (Finite true 4503599627370496 (-53)) 6 eq_refl _ _ _ _);
    vm_compute; reflexivity.
Defined.

Example format_number_drops_minus_sign :
  format_number (PStr "-0.5") 6 = Ok "0.5   "
  /\ format_number (PFloat (Finite true 7378697629483821 (-66))) 8 = Ok "0.0001  "
  /\ format_number (PStr "-0.99") 5 = Ok "0.99 ".
Proof. repeat split; vm_compute; reflexivity. Qed.

(** ** The integer part of a float text *)

Lemma rev_append_rev_append (s a b : string) :
  rev_append (rev_append s a) b = rev_append a (s ++ b).
Proof.
  revert a. induction s as [|c s IH]; intros a; simpl; [reflexivity|].
  now rewrite IH.
Qed.

Lemma rev_involutive (s : string) : rev (rev s) = s.
Proof. unfold rev. rewrite rev_append_rev_append. simpl. apply append_nil_r. Qed.

Lemma lstrip_id (s : string) :
  forallb (fun c => negb (is_space c)) s = true -> lstrip s = s.
Proof.
  destruct s as [|c s]; simpl; [reflexivity|].
  intros H. apply andb_prop in H as [H _]. now destruct (is_space c).
Qed.

Lemma strip_id (s : string) :
  forallb (fun c => negb (is_space c)) s = true -> strip s = s.
Proof.
  intros H. unfold strip. rewrite (lstrip_id s H).
  rewrite lstrip_id by now rewrite rev_all. apply rev_involutive.
Qed.

Lemma is_digit_code (c : ascii) : is_digit c = true -> 48 <= code c <= 57.
Proof.
  unfold is_digit. intros H. apply andb_prop in H as [H1 H2].
  apply Z.leb_le in H1, H2. lia.
Qed.

Lemma is_digit_not_space (c : ascii) : is_digit c = true -> negb (is_space c) = true.
Proof.
  intros H. apply is_digit_code in H. unfold is_space.
  replace (code c <=? 13) with false by (symmetry; apply Z.leb_gt; lia).
  replace (code c =? 32) with false by (symmetry; apply Z.eqb_neq; lia).
  replace (code c =? 133) with false by (symmetry; apply Z.eqb_neq; lia).
  replace (code c =? 160) with false by (symmetry; apply Z.eqb_neq; lia).
  now rewrite andb_false_r.
Qed.

Lemma is_digit_not_char (c d : ascii) :
  is_digit c = true -> is_digit d = false -> Ascii.eqb c d = false.
Proof.
  intros Hc Hd. destruct (Ascii.eqb_spec c d) as [->|]; [congruence | reflexivity].
Qed.

Lemma forallb_impl (p q : ascii -> bool) (s : string) :
  (forall c, p c = true -> q c = true) -> forallb p s = true -> forallb q s = true.
Proof.
  intros Hpq. induction s as [|c s IH]; simpl; [reflexivity|].
  intros H. apply andb_prop in H as [H1 H2]. now rewrite (Hpq c H1), IH.
Qed.

Lemma underscores_ok_digits (prev : bool) (d : string) :
  forallb is_digit d = true -> underscores_ok prev d = true.
Proof.
  revert prev. induction d as [|c d IH]; intros prev; simpl; [reflexivity|].
  intros H. apply andb_prop in H as [Hc Hd].
  rewrite (is_digit_not_char c "_" Hc eq_refl). now apply IH.
Qed.

Lemma remove_underscores_digits (d : string) :
  forallb is_digit d = true -> remove_underscores d = d.
Proof.
  induction d as [|c d IH]; simpl; [reflexivity|].
  intros H. apply andb_prop in H as [Hc Hd].
  rewrite (is_digit_not_char c "_" Hc eq_refl). now rewrite IH.
Qed.

(** [int] reads every such text. *)
Lemma of_str_sign_digits (ip : string) :
  sign_digits ip -> exists n, PyInt.of_str ip = Some n.
Proof.
  intros (d & Hne & Hd & Hip).
  assert (Hns : forallb (fun c => negb (is_space c)) d = true)
    by (eapply forallb_impl; [apply is_digit_not_space | exact Hd]).
  assert (Hbody : forall neg,
             (if underscores_ok false d
              then match remove_underscores d with
                   | "" => None
                   | String _ _ =>
                       if forallb is_digit (remove_underscores d)
                       then Some (if neg : bool then - PyInt.digits_val 0 (remove_underscores d)
                                  else PyInt.digits_val 0 (remove_underscores d))
                       else None
                   end
              else None) <> None).
  { intros neg. rewrite underscores_ok_digits, remove_underscores_digits by assumption.
    destruct d as [|c d']; [contradiction|]. rewrite Hd. discriminate. }
  unfold PyInt.of_str. destruct Hip as [-> | ->].
  - rewrite (strip_id d Hns). destruct d as [|c d']; [contradiction|].
    simpl in Hd. apply andb_prop in Hd as [Hc Hd'].
    unfold split_sign. rewrite (is_digit_not_char c "-" Hc eq_refl),
      (is_digit_not_char c "+" Hc eq_refl).
    specialize (Hbody false).
    destruct (if underscores_ok false (String c d') then _ else _) as [n|];
      [now exists n | contradiction].
  - rewrite strip_id by (simpl; exact Hns).
    unfold split_sign. change (Ascii.eqb "-" "-") with true. cbv iota.
    specialize (Hbody true).
    destruct (if underscores_ok false d then _ else _) as [n|];
      [now exists n | contradiction].
Qed.

Lemma sign_digits_no_dots (ip : string) : sign_digits ip -> dots ip = O.
Proof.
  intros (d & _ & Hd & [-> | ->]); simpl; now apply digits_no_dots.
Qed.

Lemma nonempty_of_length (s : string) : (0 < String.length s)%nat -> s <> "".
Proof. destruct s; simpl; [lia | discriminate]. Qed.

Lemma layout_parts (ds : string) (decpt : Z) :
  forallb is_digit ds = true ->
  dots (layout ds decpt) = O
  \/ exists ip dp,
      layout ds decpt = ip ++ String "." dp
      /\ ip <> "" /\ forallb is_digit ip = true.
Proof.
  intros Hds. unfold layout.
  destruct ((-4 <? decpt) && (decpt <=? 16)).
  - right. destruct (decpt <=? 0) eqn:E0; [|destruct (len ds <=? decpt) eqn:En].
    + exists "0", (repeat_char "0" (Z.to_nat (- decpt)) ++ ds).
      split; [reflexivity|]. split; [discriminate | reflexivity].
    + apply Z.leb_gt in E0. apply Z.leb_le in En.
      exists (ds ++ repeat_char "0" (Z.to_nat (decpt - len ds))), "0".
      split; [now rewrite append_assoc|]. split.
      * apply nonempty_of_length. rewrite length_append, length_repeat_char.
        unfold len in *. lia.
      * now rewrite forallb_append, Hds, repeat_zero_digits.
    + apply Z.leb_gt in E0, En.
      exists (take (Z.to_nat decpt) ds), (drop (Z.to_nat decpt) ds).
      split; [reflexivity|]. split.
      * apply nonempty_of_length. rewrite length_take. unfold len in En. lia.
      * now apply take_all_p.
  - destruct ds as [|c r]; [now left|].
    simpl in Hds. apply andb_prop in Hds as [Hc Hr].
    destruct r as [|c' r'].
    + left. pose proof (exp_text_no_dots (decpt - 1)) as Ht.
      remember (exp_text (decpt - 1)) as t eqn:Et. clear Et.
      simpl. rewrite (is_digit_not_char c "." Hc eq_refl). exact Ht.
    + right. exists (String c ""), (String c' r' ++ "e" ++ exp_text (decpt - 1)).
      split; [reflexivity|]. split; [discriminate|]. simpl. now rewrite Hc.
Qed.

(** The text of a float either has no ['.'], or is an integer text, a
    ['.'] and the rest. *)
Lemma repr_parts (x : pyfloat) :
  dots (PyFloat.repr x) = O
  \/ exists ip dp, PyFloat.repr x = ip ++ String "." dp /\ sign_digits ip.
Proof.
  destruct x as [|neg|neg|neg m e].
  - now left.
  - left. now destruct neg.
  - right. destruct neg.
    + exists "-0", "0". split; [reflexivity|]. exists "0".
      split; [discriminate|]. split; [reflexivity | now right].
    + exists "0", "0". split; [reflexivity|]. exists "0".
      split; [discriminate|]. split; [reflexivity | now left].
  - unfold PyFloat.repr.
    pose proof (shortest_digits_all_digits m e) as Hds.
    destruct (shortest_digits m e) as [ds decpt]. cbn [fst] in Hds.
    destruct (layout_parts ds decpt Hds) as [H0 | (ip & dp & -> & Hne & Hip)].
    + left. destruct neg; [|exact H0]. simpl. exact H0.
    + right. destruct neg.
      * exists (String "-" ip), dp. split; [reflexivity|].
        exists ip. split; [assumption|]. split; [assumption | now right].
      * exists ip, dp. split; [reflexivity|].
        exists ip. split; [assumption|]. split; [assumption | now left].
Qed.

(** What [format_number] does with every value that [float] accepts:
    a float text without ['.'] is refused; otherwise the integer part
    is read by [int], grouped, and joined to the rest of the text, and
    the result is returned right-padded if it fits the length and
    refused if it does not. *)
Theorem format_number_of_accepted_value :
  forall (value : pyval) (x : pyfloat) (length : Z),
    is_empty_str value || is_None value = false ->
    py_float value = Ok x ->
    let refused : result string :=
      Raise (ValueError ("Value is not a number: " ++ PyRepr.str value)) in
    (dots (PyFloat.repr x) = O /\ format_number value length = refused)
    \/ (exists integer_part decimal_part n,
          PyFloat.repr x = integer_part ++ String "." decimal_part
          /\ dots integer_part = O /\ dots decimal_part = O
          /\ PyInt.of_str integer_part = Some n
          /\ format_number value length
             = if length <? len (PyInt.format_comma n ++ "." ++ decimal_part)
               then refused
               else Ok (ljust (PyInt.format_comma n ++ "." ++ decimal_part) length)).
Proof.
  intros value x length Hne Hx refused.
  destruct (repr_parts x) as [H0 | (ip & dp & Hrepr & Hip)].
  - left. split; [exact H0|]. now apply (format_number_without_dot value x).
  - right. destruct (of_str_sign_digits ip Hip) as (n & Hn).
    pose proof (sign_digits_no_dots ip Hip) as Hd.
    assert (Hdp : dots dp = O).
    { pose proof (repr_dots x) as H. rewrite Hrepr, dots_append in H. simpl in H. lia. }
    exists ip, dp, n. repeat (split; [assumption|]).
    destruct (length <? len (PyInt.format_comma n ++ "." ++ dp)) eqn:E.
    + apply Z.ltb_lt in E.
      destruct (format_number_body_ValueError value length) as (msg & Hbody).
      { right. exists x, ip, dp, n. split; [assumption|]. split.
        - rewrite Hrepr. now apply split_at_dot.
        - split; assumption. }
      now apply (format_number_ValueError value length msg).
    + apply Z.ltb_ge in E. now apply (format_number_of_text value x ip dp n).
Qed.

Lemma format_number_of_accepted_value_witness :
  (dots (PyFloat.repr (Finite false 5000000000000000 1)) = O
   /\ format_number (PStr "1e16") 30
      = Raise (ValueError ("Value is not a number: " ++ PyRepr.str (PStr "1e16"))))
  \/ (exists integer_part decimal_part n,
        PyFloat.repr (Finite false 5000000000000000 1)
        = integer_part ++ String "." decimal_part
        /\ dots integer_part = O /\ dots decimal_part = O
        /\ PyInt.of_str integer_part = Some n
        /\ format_number (PStr "1e16") 30
           = if 30 <? len (PyInt.format_comma n ++ "." ++ decimal_part)
             then Raise (ValueError ("Value is not a number: " ++ PyRepr.str (PStr "1e16")))
             else Ok (ljust (PyInt.format_comma n ++ "." ++ decimal_part) 30)).
Proof.
  refine (format_number_of_accepted_value
            (PStr "1e16") (Finite false 5000000000000000 1) 30 eq_refl _).
  vm_compute; reflexivity.
Defined.

Example format_number_examples :
  format_number (PInt 42) 5 = Ok "42.0 "
  /\ format_number (PStr "123456789.99") 20 = Ok "123,456,789.99      "
  /\ format_number (PStr "-1234567.5") 12 = Ok "-1,234,567.5"
  /\ format_number (PBool true) 4 = Ok "1.0 "
  /\ format_number (PStr " 1_000 ") 8 = Ok "1,000.0 "
  /\ format_number (PStr "1.5e16") 8 = Ok "1.5e+16 "
  /\ format_number (PStr "nan") 8
     = Raise (ValueError "Value is not a number: nan").
Proof. repeat split; vm_compute; reflexivity. Qed.

(** ** [sorted] is the stable sort *)

Lemma filter_position_cons (p : Z) (x : field_spec) (r : list field_spec) :
  filter (has_position p) (x :: r)
  = if position x =? p then x :: filter (has_position p) r
    else filter (has_position p) r.
Proof. reflexivity. Qed.

Lemma filter_position_head (x : field_spec) (r l : list field_spec) :
  StronglySorted by_position l ->
  filter (has_position (position x)) (x :: r) = filter (has_position (position x)) l ->
  exists y l', l = y :: l' /\ position y <= position x.
Proof.
  intros Hl E. rewrite filter_position_cons, Z.eqb_refl in E.
  assert (Hin : In x (filter (has_position (position x)) l)) by (rewrite <- E; now left).
  apply filter_In in Hin as [Hin _].
  destruct l as [|y l']; [contradiction|]. exists y, l'. split; [reflexivity|].
  inversion Hl as [|? ? _ Hy]; subst. destruct Hin as [<-|Hin]; [lia|].
  rewrite Forall_forall in Hy. now apply Hy.
Qed.

Lemma stable_sort_unique (l1 l2 : list field_spec) :
  StronglySorted by_position l1 ->
  StronglySorted by_position l2 ->
  (forall p, filter (has_position p) l1 = filter (has_position p) l2) ->
  l1 = l2.
Proof.
  intros H1. revert l2. induction H1 as [|x r1 Hr1 IH Hx]; intros l2 H2 Hf.
  - destruct l2 as [|y r2]; [reflexivity|].
    specialize (Hf (position y)). rewrite filter_position_cons, Z.eqb_refl in Hf.
    discriminate.
  - destruct (filter_position_head x r1 l2 H2 (Hf (position x)))
      as (y & r2 & -> & Hle1).
    assert (H1 : StronglySorted by_position (x :: r1)) by now constructor.
    destruct (filter_position_head y r2 (x :: r1) H1 (eq_sym (Hf (position y))))
      as (x' & r1' & [= <- <-] & Hle2).
    assert (Hxy : position y = position x) by lia.
    assert (Hhead : x = y /\ forall p, filter (has_position p) r1
                                         = filter (has_position p) r2).
    { split.
      - specialize (Hf (position x)). rewrite !filter_position_cons in Hf.
        rewrite Hxy, Z.eqb_refl in Hf. now injection Hf.
      - intros p. specialize (Hf p). rewrite !filter_position_cons in Hf.
        rewrite Hxy in Hf. destruct (position x =? p); [now injection Hf | exact Hf]. }
    destruct Hhead as [<- Hrest]. f_equal.
    inversion H2; subst. now apply IH.
Qed.

(** [sorted] returns the rows in ascending position order, rows of
    equal position in their original order; it is the only list that
    does, so it is what Python's stable [sorted] returns. *)
Theorem sorted_is_the_stable_sort :
  forall metadata : list field_spec,
    Permutation (sorted metadata) metadata
    /\ StronglySorted by_position (sorted metadata)
    /\ (forall p, filter (has_position p) (sorted metadata)
                  = filter (has_position p) metadata)
    /\ (forall l,
          StronglySorted by_position l ->
          (forall p, filter (has_position p) l = filter (has_position p) metadata) ->
          l = sorted metadata).
Proof.
  intros metadata. split; [apply sorted_perm|]. split; [apply sorted_sorted|].
  split; [intros p; apply sorted_stable|].
  intros l Hl Hf. apply stable_sort_unique; [assumption | apply sorted_sorted |].
  intros p. now rewrite Hf, sorted_stable.
Qed.

(** ** The builtins on sample values *)

Example float_of_str_examples :
  List.map (fun s => option_map PyFloat.repr (PyFloat.of_str s))
           ["1e16"; "0.1"; "-0.5"; "-1.5e-05"; "1e-5"; "0.0001"; "123456789.99"; "42";
            " 1 "; "1_000.5"; "1_.5"; ".5"; "5."; "."; "1e"; "nan"; "-Infinity"; "1e400";
            "1,000"; "abc"; ""; "5e-324"; "1.7976931348623157e308"]
  = [Some "1e+16"; Some "0.1"; Some "-0.5"; Some "-1.5e-05"; Some "1e-05";
     Some "0.0001"; Some "123456789.99"; Some "42.0"; Some "1.0"; Some "1000.5";
     None; Some "0.5"; Some "5.0"; None; None; Some "nan"; Some "-inf"; Some "inf";
     None; None; None; Some "5e-324"; Some "1.7976931348623157e+308"].
Proof. vm_compute. reflexivity. Qed.

Example float_of_int_examples :
  List.map (fun n => option_map PyFloat.repr (PyFloat.of_int n))
           [0; -3; 10 ^ 16; 2 ^ 53 + 1; 2 ^ 53 + 3; 2 ^ 1024 - 2 ^ 970 - 1;
            2 ^ 1024 - 2 ^ 970; 10 ^ 400]
  = [Some "0.0"; Some "-3.0"; Some "1e+16"; Some "9007199254740992.0";
     Some "9007199254740996.0"; Some "1.7976931348623157e+308"; None; None].
Proof. vm_compute. reflexivity. Qed.

Example int_examples :
  PyInt.of_str "-0" = Some 0 /\ PyInt.of_str " 7 " = Some 7
  /\ PyInt.of_str "1_0" = Some 10 /\ PyInt.of_str "_1" = None
  /\ PyInt.of_str "" = None /\ PyInt.of_str "1.0" = None
  /\ PyInt.format_comma 1000 = "1,000"
  /\ PyInt.format_comma (-123456789) = "-123,456,789"
  /\ PyInt.format_comma 999 = "999"
  /\ PyInt.format_06 13 = "000013" /\ PyInt.format_06 1234567 = "1234567".
Proof. repeat split. Qed.

Example str_examples :
  PyRepr.str (PList [PInt 1; PStr "a"; PNone; PBool true; PDict [("k", PList [])]])
  = "[1, 'a', None, True, {'k': []}]"
  /\ PyRepr.repr (PStr "a'b") = String PyRepr.dquote ("a'b" ++ String PyRepr.dquote "")
  /\ PyRepr.str (PStr "a'b") = "a'b"
  /\ PyRepr.str (PDict [("a", PInt 1); ("b", PStr "x")]) = "{'a': 1, 'b': 'x'}".
Proof. repeat split. Qed.

(** ** A negative declared length *)

(** With a negative declared length nothing is blank-filled to a
    width: a String field is the text of the value without its last
    [-length] characters (nothing when the text is that short); a
    Number field is the empty text for an empty or null value and is
    refused for every other value. *)
Theorem negative_length_fields :
  forall (value : pyval) (field_type : string) (length : Z),
    length < 0 ->
    (field_type <> "Number" ->
     format_field value field_type length
     = Ok (take (Z.to_nat (len (PyRepr.str value) + length)) (PyRepr.str value)))
    /\ (is_empty_str value || is_None value = true ->
        format_field value "Number" length = Ok "")
    /\ (is_empty_str value || is_None value = false ->
        forall s, format_field value "Number" length <> Ok s).
Proof.
  intros value type length Hl. split; [|split].
  - intros Hty. rewrite format_field_not_Number by assumption.
    unfold slice_to. replace (0 <=? length) with false by (symmetry; apply Z.leb_gt; lia).
    f_equal. rewrite ljust_prefix.
    unfold spaces. replace (Z.to_nat (length - _)) with O.
    + apply append_nil_r.
    + pose proof (len_nonneg (take (Z.to_nat (len (PyRepr.str value) + length))
                                   (PyRepr.str value))). lia.
  - intros Hb. unfold format_field. simpl String.eqb.
    rewrite format_number_blank by assumption. unfold spaces.
    now replace (Z.to_nat length) with O by lia.
  - intros Hne s H. unfold format_field in H. simpl String.eqb in H.
    apply format_number_ok in H; [|assumption].
    apply format_number_body_ok in H.
    destruct H as (x & a & b & n & _ & _ & _ & Hfit & _).
    rewrite !len_append in Hfit. pose proof (len_nonneg (PyInt.format_comma n)).
    pose proof (len_nonneg b). change (len ".") with 1 in Hfit. lia.
Qed.

Lemma negative_length_fields_witness :
  format_field (PStr "ABCDEFGH") "String" (-3) = Ok "ABCDE"
  /\ format_field (PStr "AB") "String" (-3) = Ok "".
Proof.
  split.
  - exact (proj1 (negative_length_fields (PStr "ABCDEFGH") "String" (-3) ltac:(lia))
             ltac:(discriminate)).
  - exact (proj1 (negative_length_fields (PStr "AB") "String" (-3) ltac:(lia))
             ltac:(discriminate)).
Defined.

(** ** The record builder over a list in two parts *)

Lemma process_items_app (a b : list pyval) (metadata : list field_spec)
    (log : list log_record) :
  process_items (a ++ b) metadata log
  = match process_items a metadata log with
    | (Ok lines_a, log_a) =>
        match process_items b metadata log_a with
        | (Ok lines_b, log_b) => (Ok (lines_a ++ lines_b)%list, log_b)
        | (Raise e, log_b) => (Raise e, log_b)
        end
    | (Raise e, log_a) => (Raise e, log_a)
    end.
Proof.
  revert log. induction a as [|item a IH]; intros log.
  - simpl. unfold ret. destruct (process_items b metadata log) as [[l|e] l']; reflexivity.
  - assert (Hskip : forall items, is_dict item = false ->
              process_items (item :: items) metadata log
              = process_items items metadata (log ++ [skip_warning item])%list).
    { intros items. destruct item; simpl; intros H; try reflexivity; discriminate. }
    destruct (is_dict item) eqn:Ed.
    + destruct item as [| | | | | |d]; try discriminate.
      simpl app. cbn [process_items]. unfold bind, ret.
      destruct (format_fields d (sorted metadata) log) as [[parts|e] log1]; [|reflexivity].
      rewrite IH.
      destruct (process_items a metadata log1) as [[la|e] log2]; [|reflexivity].
      destruct (process_items b metadata log2) as [[lb|e] log3]; reflexivity.
    + simpl app. rewrite !Hskip by reflexivity. apply IH.
Qed.

(** Processing a list is processing its first part and then, with the
    log as the first part left it, the rest: the lines are those of
    the first part followed by those of the rest, and when the first
    part raises, the rest is not looked at. *)
Theorem process_json_of_two_parts :
  forall (a b : list pyval) (metadata : list field_spec) (log : list log_record),
    process_json (PList (a ++ b)) metadata log
    = match process_json (PList a) metadata log with
      | (Ok lines_a, log_a) =>
          match process_json (PList b) metadata log_a with
          | (Ok lines_b, log_b) => (Ok (lines_a ++ lines_b)%list, log_b)
          | (Raise e, log_b) => (Raise e, log_b)
          end
      | (Raise e, log_a) => (Raise e, log_a)
      end.
Proof. intros. unfold process_json. apply process_items_app. Qed.

(** ** What a line depends on *)

Lemma process_items_skip (item : pyval) (items : list pyval)
    (metadata : list field_spec) (log : list log_record) :
  is_dict item = false ->
  process_items (item :: items) metadata log
  = process_items items metadata (log ++ [skip_warning item])%list.
Proof. destruct item; simpl; intros H; try reflexivity; discriminate. Qed.

Lemma process_items_dict (d : list (string * pyval)) (items : list pyval)
    (metadata : list field_spec) (log : list log_record) :
  process_items (PDict d :: items) metadata log
  = match format_fields d (sorted metadata) log with
    | (Ok parts, log1) =>
        match process_items items metadata log1 with
        | (Ok lines, log2) => (Ok (join parts :: lines), log2)
        | (Raise e, log2) => (Raise e, log2)
        end
    | (Raise e, log1) => (Raise e, log1)
    end.
Proof.
  cbn [process_items]. unfold bind, ret.
  destruct (format_fields d (sorted metadata) log) as [[parts|e] log1]; [|reflexivity].
  destruct (process_items items metadata log1) as [[lines|e] log2]; reflexivity.
Qed.

Lemma process_items_sorted_ext (items : list pyval) (metadata metadata' : list field_spec)
    (log : list log_record) :
  sorted metadata = sorted metadata' ->
  process_items items metadata log = process_items items metadata' log.
Proof.
  intros Hs. revert log. induction items as [|item r IH]; intros log; [reflexivity|].
  destruct (is_dict item) eqn:Ed.
  - destruct item as [| | | | | |d]; try discriminate.
    rewrite !process_items_dict, Hs.
    destruct (format_fields d (sorted metadata') log) as [[parts|e] log1]; [|reflexivity].
    now rewrite IH.
  - rewrite !process_items_skip by assumption. apply IH.
Qed.

Lemma filter_position_perm (p : Z) (l l' : list field_spec) :
  Permutation l l' ->
  Permutation (filter (has_position p) l) (filter (has_position p) l').
Proof.
  induction 1 as [|x l l' _ IH|x y l|l l' l'' _ IH1 _ IH2]; simpl.
  - constructor.
  - destruct (has_position p x); [now constructor | assumption].
  - destruct (has_position p x), (has_position p y);
      try reflexivity. apply perm_swap.
  - now transitivity (filter (has_position p) l').
Qed.

Lemma filter_position_nodup (p : Z) (l : list field_spec) :
  NoDup (List.map position l) ->
  (List.length (filter (has_position p) l) <= 1)%nat.
Proof.
  induction l as [|x r IH]; simpl; intros H; [lia|].
  inversion H as [|? ? Hnotin Hr]; subst. specialize (IH Hr).
  unfold has_position at 1. destruct (Z.eqb_spec (position x) p) as [E|]; [|exact IH].
  assert (Hnil : filter (has_position p) r = []).
  { destruct (filter (has_position p) r) as [|y t] eqn:Ef; [reflexivity|].
    exfalso. apply Hnotin.
    assert (Hy : In y (filter (has_position p) r)) by (rewrite Ef; now left).
    apply filter_In in Hy as [Hy Hp]. unfold has_position in Hp.
    apply Z.eqb_eq in Hp. rewrite E, <- Hp. now apply in_map. }
  rewrite Hnil. simpl. lia.
Qed.

Lemma sorted_of_permutation (metadata metadata' : list field_spec) :
  Permutation metadata metadata' ->
  NoDup (List.map position metadata) ->
  sorted metadata = sorted metadata'.
Proof.
  intros Hp Hnd. apply stable_sort_unique; try apply sorted_sorted.
  intros p. rewrite !sorted_stable.
  pose proof (filter_position_perm p _ _ Hp) as Hf.
  pose proof (filter_position_nodup p metadata Hnd) as Hlen.
  destruct (filter (has_position p) metadata) as [|x [|y t]]; simpl in Hlen; try lia.
  - now apply Permutation_nil in Hf.
  - now apply Permutation_length_1_inv in Hf.
Qed.

(** When the rows of the schema have distinct positions, the order in
    which the schema file lists them does not matter: the lines and
    the log are the same for every rearrangement of the rows. *)
Theorem row_order_is_irrelevant_for_distinct_positions :
  forall (json_data : pyval) (metadata metadata' : list field_spec)
         (log : list log_record),
    Permutation metadata metadata' ->
    NoDup (List.map position metadata) ->
    process_json json_data metadata log = process_json json_data metadata' log.
Proof.
  intros json_data metadata metadata' log Hp Hnd. unfold process_json.
  apply process_items_sorted_ext. now apply sorted_of_permutation.
Qed.

Lemma row_order_is_irrelevant_for_distinct_positions_witness :
  process_json (PDict [("id", PInt 42); ("name", PStr "bob")])
               [(2, "name", "String", 4); (1, "id", "Number", 5)] []
  = process_json (PDict [("id", PInt 42); ("name", PStr "bob")])
                 [(1, "id", "Number", 5); (2, "name", "String", 4)] [].
Proof.
  apply row_order_is_irrelevant_for_distinct_positions.
  - apply perm_swap.
  - repeat constructor; simpl; intuition discriminate.
Defined.

Lemma format_item_field_ext (d d' : list (string * pyval)) (f : field_spec)
    (log : list log_record) :
  field_value d f = field_value d' f ->
  format_item_field d f log = format_item_field d' f log.
Proof.
  destruct f as [[[p name] type] length]. unfold field_value, field_name.
  unfold format_item_field. now intros ->.
Qed.

Lemma format_fields_ext (d d' : list (string * pyval)) (fs : list field_spec)
    (log : list log_record) :
  (forall f, In f fs -> field_value d f = field_value d' f) ->
  format_fields d fs log = format_fields d' fs log.
Proof.
  revert log. induction fs as [|f r IH]; intros log H; [reflexivity|].
  rewrite !format_fields_cons.
  rewrite (format_item_field_ext d d' f log) by (apply H; now left).
  destruct (format_item_field d' f log) as [[s|e] log1]; [|reflexivity].
  rewrite IH by (intros; apply H; now right). reflexivity.
Qed.

Lemma dict_get_permutation (d d' : list (string * pyval)) (key : string)
    (default : pyval) :
  Permutation d d' -> NoDup (List.map fst d) ->
  dict_get d key default = dict_get d' key default.
Proof.
  induction 1 as [|[k v] l l' Hp IH|[k1 v1] [k2 v2] l|l l' l'' Hp1 IH1 Hp2 IH2];
    intros Hnd.
  - reflexivity.
  - simpl. inversion Hnd; subst. destruct (String.eqb k key); [reflexivity | now apply IH].
  - simpl. destruct (String.eqb_spec k1 key) as [E1|], (String.eqb_spec k2 key) as [E2|];
      try reflexivity.
    exfalso. inversion Hnd as [|? ? Hnotin _]; subst. apply Hnotin. simpl. left. congruence.
  - rewrite IH1 by assumption. apply IH2.
    eapply Permutation_NoDup; [|exact Hnd]. now apply Permutation_map.
Qed.

Lemma process_json_dict_ext (d d' : list (string * pyval)) (metadata : list field_spec)
    (log : list log_record) :
  (forall f, In f metadata -> field_value d f = field_value d' f) ->
  process_json (PDict d) metadata log = process_json (PDict d') metadata log.
Proof.
  intros Hv. unfold process_json. rewrite !process_items_dict.
  rewrite (format_fields_ext d d'); [reflexivity|].
  intros f Hf. apply Hv. eapply Permutation_in; [apply sorted_perm | exact Hf].
Qed.

(** The line of an object depends only on the values of the keys the
    schema names: an object with the same values under those keys
    gives the same line and the same log records.  So a key the schema
    does not name is ignored, and the order of the keys in the object
    does not matter. *)
Theorem line_depends_on_named_keys_only :
  forall (d : list (string * pyval)) (metadata : list field_spec)
         (log : list log_record),
    (forall d',
        (forall f, In f metadata ->
                   dict_get d (field_name f) (PStr "")
                   = dict_get d' (field_name f) (PStr "")) ->
        process_json (PDict d) metadata log = process_json (PDict d') metadata log)
    /\ (forall key value,
          (forall f, In f metadata -> field_name f <> key) ->
          process_json (PDict ((key, value) :: d)) metadata log
          = process_json (PDict d) metadata log)
    /\ (forall d',
          NoDup (List.map fst d) -> Permutation d d' ->
          process_json (PDict d) metadata log = process_json (PDict d') metadata log).
Proof.
  intros d metadata log. split; [|split].
  - intros d' H. now apply process_json_dict_ext.
  - intros key value Hk. apply process_json_dict_ext. intros f Hf.
    unfold field_value. simpl.
    destruct (String.eqb_spec key (field_name f)) as [E|]; [|reflexivity].
    exfalso. apply (Hk f Hf). now symmetry.
  - intros d' Hnd Hp. apply process_json_dict_ext. intros f _.
    now apply dict_get_permutation.
Qed.

Example unnamed_key_is_ignored :
  process_json (PDict [("age", PInt 7); ("id", PInt 42); ("name", PStr "bob")])
               [(1, "id", "Number", 5); (2, "name", "String", 4)] []
  = (Ok ["42.0 bob "], []).
Proof. vm_compute. reflexivity. Qed.

(** ** Reading the primary file back *)

Lemma drop_append_length (a b : string) : drop (String.length a) (a ++ b) = b.
Proof. induction a as [|c a IH]; simpl; [now destruct b | exact IH]. Qed.

Lemma take_append_length (a b : string) : take (String.length a) (a ++ b) = a.
Proof. induction a as [|c a IH]; simpl; [now destruct b | now rewrite IH]. Qed.

Lemma drop_drop (n m : nat) (s : string) : drop (n + m) s = drop m (drop n s).
Proof.
  revert s. induction n as [|n IH]; intros s; [reflexivity|].
  destruct s as [|c s]; simpl; [now destruct m | apply IH].
Qed.

Lemma row_of_rows (width : Z) (rows : list string) (n : nat) (row : string)
    (rest : string) :
  Forall (fun r => len r = width) rows ->
  nth_error rows n = Some row ->
  row_of width n (join rows ++ rest) = row.
Proof.
  intros Hrows. revert n. unfold row_of, join.
  induction Hrows as [|r rows Hr _ IH]; intros n Hn; [now destruct n|].
  assert (Hw : Z.to_nat width = String.length r)
    by (cbv beta in Hr; unfold len in Hr; lia).
  destruct n as [|n]; simpl in Hn.
  - injection Hn as <-. simpl. rewrite Hw, append_assoc. apply take_append_length.
  - cbn [fold_right].
    change (S n * Z.to_nat width)%nat with (Z.to_nat width + n * Z.to_nat width)%nat.
    rewrite drop_drop, append_assoc.
    replace (drop (Z.to_nat width) (r ++ fold_right append "" rows ++ rest))
      with (fold_right append "" rows ++ rest)
      by (rewrite Hw; symmetry; apply drop_append_length).
    now apply IH.
Qed.

Lemma len_join_same (width : Z) (rows : list string) :
  Forall (fun r => len r = width) rows ->
  len (join rows) = width * Z.of_nat (List.length rows).
Proof.
  unfold join. induction 1 as [|r rows Hr _ IH];
    [cbn [fold_right List.length]; change (len "") with 0; lia|].
  cbv beta in Hr. cbn [fold_right List.length].
  rewrite len_append, IH, Hr, Nat2Z.inj_succ. lia.
Qed.

Lemma len_format_06 (n : Z) : 6 <= len (PyInt.format_06 n).
Proof.
  unfold PyInt.format_06.
  destruct (n <? 0); unfold len; cbn [String.length];
    rewrite length_append, length_repeat_char; lia.
Qed.

(** A reader of the primary file finds the row width in its first six
    characters (when the width is below a million), and then rows of
    that width: the header line first, then each line of the record
    builder, right-padded, in order; the file holds nothing else.  The
    width is the length of the longest line, or the length of the base
    name of the source plus 6 when that is more. *)
Theorem primary_file_reads_back_in_rows :
  forall (config : list (string * string)) (metadata : list field_spec)
         (json_data : pyval) (log log' : list log_record) (files : list file),
    main config metadata json_data log = (Ok files, log') ->
    exists source_path source_name lines log1 path content rest,
      config_item config "sourcePath" = Ok source_path
      /\ config_item config "sourceName" = Ok source_name
      /\ process_json json_data metadata log = (Ok lines, log1)
      /\ files = (path, content) :: rest
      /\ let name := basename (path_join source_path source_name) in
         let width := Z.max (max_or_0 (List.map len lines)) (len name + 6) in
         let header := ljust (PyInt.format_06 width ++ name) width in
         (forall line, In line lines -> len line <= width)
         /\ (width < 10 ^ 6 ->
             PyInt.digits_val 0 (take 6 content) = width
             /\ len content = width * (1 + Z.of_nat (List.length lines))
             /\ row_of width 0 content = header
             /\ take 6 header = PyInt.format_06 width
             /\ forall n line,
                 nth_error lines n = Some line ->
                 row_of width (S n) content = ljust line width).
Proof.
  intros config metadata json_data log log' files Hrun.
  destruct (main_returns _ _ _ _ _ _ Hrun)
    as (source_path & source_name & result_path & lines & log1
        & H1 & H2 & H3 & H4 & H5).
  cbv zeta in H5.
  exists source_path, source_name, lines, log1. eexists _, _, _.
  split; [exact H1|]. split; [exact H2|]. split; [exact H4|]. split; [exact H5|].
  cbv zeta.
  set (name := basename (path_join source_path source_name)) in *.
  set (width := Z.max (max_or_0 (List.map len lines)) (len name + 6)) in *.
  set (header := ljust (PyInt.format_06 width ++ name) width) in *.
  set (padded := List.map (fun line => ljust line width) lines) in *.
  assert (Hle : forall line, In line lines -> len line <= width).
  { intros line Hl. destruct (max_or_0_spec (List.map len lines)) as (Hge & _).
    specialize (Hge (len line) (in_map len _ _ Hl)). unfold width. lia. }
  split; [exact Hle|]. intros Hsmall.
  pose proof (len_nonneg name) as Hname.
  destruct (format_06_six_digits width ltac:(unfold width in *; lia))
    as (Hsix & _ & Hval).
  assert (Hheader : len header = width).
  { unfold header. rewrite len_ljust, len_append, Hsix. unfold width. lia. }
  assert (Hpadded : Forall (fun r => len r = width) padded).
  { unfold padded. rewrite Forall_map, Forall_forall. intros line Hl.
    rewrite len_ljust. specialize (Hle line Hl). lia. }
  assert (Hrows : Forall (fun r => len r = width) (header :: padded))
    by now constructor.
  assert (Hcontent : header ++ join padded = join (header :: padded) ++ "").
  { unfold join. simpl. now rewrite append_nil_r. }
  assert (Hsix' : String.length (PyInt.format_06 width) = 6%nat)
    by (unfold len in Hsix; lia).
  assert (Htake6 : take 6 (header ++ join padded) = PyInt.format_06 width).
  { unfold header. rewrite ljust_prefix, !append_assoc, <- Hsix'.
    apply take_append_length. }
  split; [now rewrite Htake6|]. split.
  { rewrite len_append, Hheader, (len_join_same width padded Hpadded).
    unfold padded. rewrite length_map. lia. }
  split.
  { rewrite Hcontent. now apply (row_of_rows width (header :: padded) 0). }
  split.
  { unfold header. rewrite ljust_prefix, append_assoc, <- Hsix'.
    apply take_append_length. }
  intros n line Hn. rewrite Hcontent.
  apply (row_of_rows width (header :: padded) (S n)); [assumption|].
  simpl. unfold padded. now rewrite nth_error_map, Hn.
Qed.

Lemma primary_file_reads_back_in_rows_witness :
  let content := "000013in.json42.0 bob                  " in
  PyInt.digits_val 0 (take 6 content) = 13
  /\ len content = 13 * 3
  /\ row_of 13 0 content = "000013in.json"
  /\ row_of 13 1 content = "42.0 bob     "
  /\ row_of 13 2 content = "             ".
Proof.
  assert (Hrun :
    main [("logPath", "/log"); ("logFileName", "run.log"); ("sourcePath", "/data");
          ("sourceSheet", "schema.csv"); ("sourceName", "in.json");
          ("resultPath4IFF", "/out")]
         [(2, "name", "String", 4); (1, "id", "Number", 5)]
         (PList [PDict [("id", PInt 42); ("name", PStr "bob")]; PDict []])
         [(INFO, "begin")]
    = (Ok [("/out/output.iff", "000013in.json42.0 bob                  ")],
       [(INFO, "begin"); (INFO, "Generated IFF file: /out/output.iff")]))
    by (vm_compute; reflexivity).
  assert (Hlines :
    process_json (PList [PDict [("id", PInt 42); ("name", PStr "bob")]; PDict []])
                 [(2, "name", "String", 4); (1, "id", "Number", 5)]
                 [(INFO, "begin")]
    = (Ok ["42.0 bob "; "         "], [(INFO, "begin")]))
    by (vm_compute; reflexivity).
  destruct (primary_file_reads_back_in_rows _ _ _ _ _ _ Hrun)
    as (source_path & source_name & lines & log1 & path & content & rest
        & Hpath & Hname & Hl & Hfiles & H).
  injection Hpath as <-. injection Hname as <-.
  rewrite Hlines in Hl. injection Hl as <- <-.
  injection Hfiles as <- <- <-.
  cbv zeta in H. destruct H as [_ H].
  destruct (H ltac:(vm_compute; reflexivity)) as (Hval & Hlen & Hhead & _ & Hrows).
  cbv zeta.
  split; [exact Hval|]. split; [exact Hlen|]. split; [exact Hhead|].
  split; [exact (Hrows 0%nat _ eq_refl) | exact (Hrows 1%nat _ eq_refl)].
Defined.

Example primary_file_rows :
  let content := "000013in.json42.0 bob                  " in
  row_of 13 0 content = "000013in.json"
  /\ row_of 13 1 content = "42.0 bob     "
  /\ row_of 13 2 content = "             ".
Proof. repeat split. Qed.

(** ** A run without records *)

Lemma process_items_no_dicts (items : list pyval) (metadata : list field_spec)
    (log : list log_record) :
  dicts_of items = [] ->
  process_items items metadata log
  = (Ok [], (log ++ List.map skip_warning items)%list).
Proof.
  revert log. induction items as [|item r IH]; intros log H.
  - simpl. unfold ret. now rewrite app_nil_r.
  - destruct (is_dict item) eqn:Ed.
    + destruct item; discriminate.
    + rewrite process_items_skip by assumption.
      rewrite IH by (destruct item; try discriminate; exact H).
      simpl. now rewrite <- app_assoc.
Qed.

(** When the JSON document holds no object (an empty list, a list of
    other values, a value that is no object), every file the run
    writes holds the header alone: the base name's length plus 6 in
    the format ['06'], followed by the base name, without padding; one
    warning is logged per element. *)
Theorem run_without_objects_writes_the_header_only :
  forall (config : list (string * string)) (metadata : list field_spec)
         (json_data : pyval) (log log' : list log_record) (files : list file),
    main config metadata json_data log = (Ok files, log') ->
    dicts_of (match json_data with PList l => l | _ => [json_data] end) = [] ->
    exists source_path source_name,
      config_item config "sourcePath" = Ok source_path
      /\ config_item config "sourceName" = Ok source_name
      /\ files <> []
      /\ Forall (fun f : file =>
                   let name := basename (path_join source_path source_name) in
                   snd f = PyInt.format_06 (len name + 6) ++ name) files.
Proof.
  intros config metadata json_data log log' files Hrun Hnone.
  destruct (main_returns _ _ _ _ _ _ Hrun)
    as (source_path & source_name & result_path & lines & log1
        & H1 & H2 & H3 & H4 & H5).
  cbv zeta in H5. exists source_path, source_name.
  split; [exact H1|]. split; [exact H2|].
  unfold process_json in H4. rewrite process_items_no_dicts in H4 by assumption.
  injection H4 as <- _.
  set (name := basename (path_join source_path source_name)) in *.
  assert (Hw : Z.max (max_or_0 (List.map len [])) (len name + 6) = len name + 6).
  { simpl max_or_0. pose proof (len_nonneg name). lia. }
  rewrite Hw in H5.
  assert (Hheader : ljust (PyInt.format_06 (len name + 6) ++ name) (len name + 6)
                    = PyInt.format_06 (len name + 6) ++ name).
  { unfold ljust. rewrite len_append.
    pose proof (len_format_06 (len name + 6)) as H6.
    replace (len name + 6 <=? len (PyInt.format_06 (len name + 6)) + len name)
      with true by (symmetry; apply Z.leb_le; lia).
    reflexivity. }
  rewrite Hheader in H5. simpl List.map in H5. simpl join in H5.
  rewrite append_nil_r in H5. subst files. split; [discriminate|].
  destruct (String.eqb (config_get config "resultBackupPath4CSV" "") "");
    repeat constructor.
Qed.

Lemma run_without_objects_writes_the_header_only_witness :
  exists source_path, config_item [("logPath", "/log"); ("logFileName", "run.log");
                                   ("sourcePath", "/data"); ("sourceSheet", "schema.csv");
                                   ("sourceName", "in.json"); ("resultPath4IFF", "/out");
                                   ("resultBackupPath4CSV", "/bak")] "sourcePath"
                      = Ok source_path.
Proof.
  assert (Hrun :
    main [("logPath", "/log"); ("logFileName", "run.log"); ("sourcePath", "/data");
          ("sourceSheet", "schema.csv"); ("sourceName", "in.json");
          ("resultPath4IFF", "/out"); ("resultBackupPath4CSV", "/bak")]
         [(1, "id", "Number", 5)] (PList [PInt 3]) []
    = (Ok [("/out/output.iff", "000013in.json"); ("/bak/output.iff", "000013in.json")],
       [(WARNING, "Skipping item because it's not a dictionary: 3");
        (INFO, "Generated IFF file: /out/output.iff");
        (INFO, "Backed up IFF file to: /bak/output.iff")]))
    by (vm_compute; reflexivity).
  destruct (run_without_objects_writes_the_header_only _ _ _ _ _ _ Hrun eq_refl)
    as (sp & sn & Hsp & _).
  exact (ex_intro _ sp Hsp).
Defined.

(** ** How a run ends *)




(** ** The schema reader *)

Lemma py_int_limited_ValueError (s : string) (e : exn) :
  py_int_limited s = Raise e -> exists msg, e = ValueError msg.
Proof.
  unfold py_int_limited, py_int. destruct (split_sign (PyStr.strip s)) as [neg body].
  destruct (run_ok true (digit_run body) && _).
  - intros H. injection H as <-. eexists. reflexivity.
  - destruct (PyInt.of_str s); [discriminate|].
    intros H. injection H as <-. eexists. reflexivity.
Qed.

Lemma digit_run_digits (d : string) : forallb is_digit d = true -> digit_run d = d.
Proof.
  induction d as [|c d IH]; simpl; [reflexivity|].
  intros H. apply andb_prop in H as [Hc Hd]. now rewrite Hc, IH.
Qed.

Lemma digits_nonempty (n : Z) : PyInt.digits n <> "".
Proof.
  unfold PyInt.digits. cbn [PyInt.digits_fuel].
  destruct (n <? 10); [discriminate|].
  rewrite digits_fuel_acc. destruct (PyInt.digits_fuel _ _ ""); discriminate.
Qed.

Lemma of_str_digits (n : Z) : 0 <= n -> PyInt.of_str (PyInt.digits n) = Some n.
Proof.
  intros Hn. pose proof (digits_all_digits n) as Hd.
  pose proof (digits_nonempty n) as Hne.
  pose proof (digits_val_digits n Hn) as Hv.
  assert (Hns : forallb (fun c => negb (is_space c)) (PyInt.digits n) = true)
    by (eapply forallb_impl; [apply is_digit_not_space | exact Hd]).
  unfold PyInt.of_str. rewrite (strip_id _ Hns).
  destruct (PyInt.digits n) as [|c d] eqn:E; [contradiction|].
  pose proof Hd as Hd'. simpl in Hd'. apply andb_prop in Hd' as [Hc _].
  unfold split_sign. rewrite (is_digit_not_char c "-" Hc eq_refl),
    (is_digit_not_char c "+" Hc eq_refl).
  rewrite underscores_ok_digits, remove_underscores_digits by assumption.
  rewrite Hd, Hv. reflexivity.
Qed.

Lemma of_str_minus_digits (n : Z) :
  0 <= n -> PyInt.of_str (String "-" (PyInt.digits n)) = Some (- n).
Proof.
  intros Hn. pose proof (digits_all_digits n) as Hd.
  pose proof (digits_nonempty n) as Hne.
  pose proof (digits_val_digits n Hn) as Hv.
  assert (Hns : forallb (fun c => negb (is_space c)) (PyInt.digits n) = true)
    by (eapply forallb_impl; [apply is_digit_not_space | exact Hd]).
  unfold PyInt.of_str. rewrite strip_id by (simpl; exact Hns).
  unfold split_sign. change (Ascii.eqb "-" "-") with true. cbv iota.
  rewrite underscores_ok_digits, remove_underscores_digits by assumption.
  destruct (PyInt.digits n) as [|c d] eqn:E; [contradiction|].
  rewrite Hd, Hv. reflexivity.
Qed.

(** [int(str(n)) == n] *)
Lemma of_str_str (n : Z) : PyInt.of_str (PyInt.str n) = Some n.
Proof.
  unfold PyInt.str. destruct (n <? 0) eqn:E.
  - apply Z.ltb_lt in E. rewrite of_str_minus_digits by lia. f_equal. lia.
  - apply Z.ltb_ge in E. now apply of_str_digits.
Qed.

Lemma py_int_limited_str (n : Z) :
  Z.abs n < 10 ^ int_max_str_digits -> py_int_limited (PyInt.str n) = Ok n.
Proof.
  intros Hn.
  assert (Hbody : exists neg, split_sign (PyStr.strip (PyInt.str n))
                              = (neg, PyInt.digits (Z.abs n))).
  { unfold PyInt.str. destruct (n <? 0) eqn:E.
    - apply Z.ltb_lt in E. exists true.
      pose proof (digits_all_digits (- n)) as Hd.
      rewrite strip_id.
      + unfold split_sign. change (Ascii.eqb "-" "-") with true. cbv iota.
        now replace (Z.abs n) with (- n) by lia.
      + simpl. eapply forallb_impl; [apply is_digit_not_space | exact Hd].
    - apply Z.ltb_ge in E. exists false.
      pose proof (digits_all_digits n) as Hd. pose proof (digits_nonempty n) as Hne.
      rewrite strip_id
        by (eapply forallb_impl; [apply is_digit_not_space | exact Hd]).
      replace (Z.abs n) with n by lia.
      destruct (PyInt.digits n) as [|c d] eqn:Ed; [contradiction|].
      simpl in Hd. apply andb_prop in Hd as [Hc _].
      unfold split_sign. now rewrite (is_digit_not_char c "-" Hc eq_refl),
        (is_digit_not_char c "+" Hc eq_refl). }
  destruct Hbody as (neg & Hbody).
  unfold py_int_limited. rewrite Hbody.
  pose proof (digits_all_digits (Z.abs n)) as Hd.
  rewrite (digit_run_digits _ Hd), (remove_underscores_digits _ Hd).
  pose proof (digits_len (Z.abs n) int_max_str_digits ltac:(unfold int_max_str_digits; lia)
                ltac:(lia)) as Hlen.
  replace (int_max_str_digits <? len (PyInt.digits (Z.abs n))) with false
    by (symmetry; apply Z.ltb_ge; exact Hlen).
  rewrite andb_false_r. unfold py_int. now rewrite of_str_str.
Qed.

Lemma read_metadata_rows_cons (row : list string) (rows : list (list string)) :
  read_metadata_rows (row :: rows)
  = match row with
    | p :: n :: t :: l :: _ =>
        match py_int_limited p with
        | Ok p' =>
            match py_int_limited l with
            | Ok l' =>
                match read_metadata_rows rows with
                | Ok metadata => Ok ((p', n, t, l') :: metadata)
                | Raise e => Raise e
                end
            | Raise e => Raise e
            end
        | Raise e => Raise e
        end
    | _ => Raise (ValueError ("not enough values to unpack (expected 4, got "
                              ++ PyInt.str (Z.of_nat (List.length row)) ++ ")"))
    end.
Proof.
  cbn [read_metadata_rows]. unfold unpack4.
  destruct row as [|p [|n [|t [|l more]]]]; try reflexivity.
Qed.

(** The schema reader gives one field per row, in the order of the
    rows: the first four columns of the row, the first and the fourth
    read by [int], the second and the third as they are (not stripped),
    a fifth and further columns ignored.  It raises only [ValueError],
    and only when some row is refused: a row of fewer than four columns
    (a blank line gives a row of none), or one whose first or fourth
    column is no integer literal (a header row). *)
Theorem schema_rows_are_read_in_order :
  forall rows : list (list string),
    match read_metadata_rows rows with
    | Ok metadata => Forall2 reads_as rows metadata
    | Raise e => (exists msg, e = ValueError msg) /\ Exists refused rows
    end.
Proof.
  induction rows as [|row rows IH]; [constructor|].
  rewrite read_metadata_rows_cons.
  destruct row as [|p [|n [|t [|l more]]]];
    try (split; [eexists; reflexivity | left; left; simpl; lia]).
  destruct (py_int_limited p) as [p'|e] eqn:Ep.
  2:{ split; [now apply (py_int_limited_ValueError p)|].
      left. right. left. exists e. exact Ep. }
  destruct (py_int_limited l) as [l'|e] eqn:El.
  2:{ split; [now apply (py_int_limited_ValueError l)|].
      left. right. right. exists e. exact El. }
  destruct (read_metadata_rows rows) as [metadata|e].
  - constructor; [|exact IH]. exists p, l, more. repeat split; assumption.
  - destruct IH as [Hm Hex]. split; [exact Hm|]. now right.
Qed.

(** A schema written out one row per field, the numbers as [str]
    gives them, is read back as it was, whatever the names and the
    types are. *)
Theorem schema_round_trip :
  forall metadata : list field_spec,
    Forall (fun f => Z.abs (position f) < 10 ^ int_max_str_digits
                     /\ Z.abs (field_length f) < 10 ^ int_max_str_digits) metadata ->
    read_metadata_rows (List.map schema_row metadata) = Ok metadata.
Proof.
  induction 1 as [|f metadata [Hp Hl] _ IH]; [reflexivity|].
  cbn [List.map]. rewrite read_metadata_rows_cons. unfold schema_row at 1.
  rewrite (py_int_limited_str _ Hp), (py_int_limited_str _ Hl), IH.
  now destruct f as [[[p n] t] l].
Qed.

Lemma schema_round_trip_witness :
  read_metadata_rows [["2"; "name"; "String"; "10"]; ["1"; "id"; "Number"; "-5"]]
  = Ok [(2, "name", "String", 10); (1, "id", "Number", -5)].
Proof.
  apply (schema_round_trip [(2, "name", "String", 10); (1, "id", "Number", -5)]).
  repeat constructor.
Defined.

(** ** The configuration reader *)

Section Stripping.

Lemma rev_append_spec (s acc : string) : rev_append s acc = rev s ++ acc.
Proof.
  unfold rev. revert acc. induction s as [|c s IH]; intros acc; simpl; [reflexivity|].
  rewrite (IH (String c acc)), (IH (String c "")), append_assoc. reflexivity.
Qed.

Lemma rev_cons (c : ascii) (s : string) : rev (String c s) = rev s ++ String c "".
Proof. unfold rev at 1. simpl. apply rev_append_spec. Qed.

Lemma rev_app (a b : string) : rev (a ++ b) = rev b ++ rev a.
Proof.
  induction a as [|c a IH]; simpl.
  - change (rev "") with "". now rewrite append_nil_r.
  - now rewrite !rev_cons, IH, append_assoc.
Qed.

Lemma lstrip_head_ok (s : string) : head_ok s = true -> PyText.lstrip s = s.
Proof. destruct s as [|c s]; simpl; [reflexivity|]. now destruct (PyText.isspace c). Qed.

Lemma head_ok_lstrip (s : string) : head_ok (PyText.lstrip s) = true.
Proof.
  induction s as [|c s IH]; simpl; [reflexivity|].
  destruct (PyText.isspace c) eqn:E; [exact IH | simpl; now rewrite E].
Qed.

Lemma head_ok_of_lstrip (s : string) : PyText.lstrip s = s -> head_ok s = true.
Proof. intros H. rewrite <- H. apply head_ok_lstrip. Qed.

Lemma head_ok_append (a b : string) :
  head_ok a = true -> head_ok b = true -> head_ok (a ++ b) = true.
Proof. destruct a; simpl; auto. Qed.

Lemma head_ok_append_l (a b : string) :
  a <> "" -> head_ok a = true -> head_ok (a ++ b) = true.
Proof. destruct a; simpl; [contradiction | auto]. Qed.

Lemma lstrip_spaces (a b : string) :
  forallb PyText.isspace a = true -> PyText.lstrip (a ++ b) = PyText.lstrip b.
Proof.
  induction a as [|c a IH]; simpl; [reflexivity|].
  intros H. apply andb_prop in H as [-> Ha]. now apply IH.
Qed.

Lemma lstrip_split (s : string) :
  exists a, s = a ++ PyText.lstrip s /\ forallb PyText.isspace a = true.
Proof.
  induction s as [|c s (a & Ha & Hs)]; simpl.
  - now exists "".
  - destruct (PyText.isspace c) eqn:E.
    + exists (String c a). simpl. rewrite E, Hs. split; [now rewrite <- Ha | reflexivity].
    + now exists "".
Qed.

Lemma lstrip_empty (s : string) :
  PyText.lstrip s = "" <-> forallb PyText.isspace s = true.
Proof.
  induction s as [|c s IH]; simpl; [tauto|].
  destruct (PyText.isspace c); simpl; [exact IH | split; discriminate].
Qed.

(** The last character kept, the end of the text is not stripped. *)
Lemma lstrip_snoc (a : string) (c : ascii) :
  PyText.isspace c = false ->
  exists u, PyText.lstrip (a ++ String c "") = u ++ String c "".
Proof.
  intros Hc. induction a as [|d a (u & Hu)]; simpl.
  - rewrite Hc. now exists "".
  - destruct (PyText.isspace d); [now exists u | now exists (String d a)].
Qed.

Lemma head_ok_rstrip (t : string) :
  head_ok t = true -> head_ok (rev (PyText.lstrip (rev t))) = true.
Proof.
  destruct t as [|c t]; [reflexivity|]. simpl. intros Hc.
  apply negb_true_iff in Hc. rewrite rev_cons.
  destruct (lstrip_snoc (rev t) c Hc) as (u & ->).
  rewrite rev_app. simpl. change (rev (String c "")) with (String c "").
  simpl. now rewrite Hc.
Qed.

(** What [strip] gives has no white space at either end. *)
Lemma strip_head_ok (s : string) : head_ok (PyText.strip s) = true.
Proof. unfold PyText.strip. apply head_ok_rstrip, head_ok_lstrip. Qed.

Lemma strip_last_ok (s : string) : head_ok (rev (PyText.strip s)) = true.
Proof. unfold PyText.strip. rewrite rev_involutive. apply head_ok_lstrip. Qed.

Lemma strip_of_ends (s : string) :
  head_ok s = true -> head_ok (rev s) = true -> PyText.strip s = s.
Proof.
  intros H1 H2. unfold PyText.strip.
  rewrite (lstrip_head_ok s H1), (lstrip_head_ok _ H2). apply rev_involutive.
Qed.

(** [strip] takes white space off the two ends and nothing else. *)
Lemma strip_split (s : string) :
  exists a b, s = a ++ PyText.strip s ++ b
              /\ forallb PyText.isspace a = true /\ forallb PyText.isspace b = true.
Proof.
  destruct (lstrip_split s) as (a & Ha & Hsa).
  destruct (lstrip_split (rev (PyText.lstrip s))) as (b & Hb & Hsb).
  exists a, (rev b). unfold PyText.strip. split; [|split].
  - rewrite <- rev_app, <- Hb, rev_involutive. exact Ha.
  - exact Hsa.
  - now rewrite rev_all.
Qed.

Lemma strip_empty (s : string) : PyText.strip s = "" <-> blank s = true.
Proof.
  unfold blank, PyText.strip. split.
  - intros H. apply (f_equal rev) in H. rewrite rev_involutive in H.
    change (rev "") with "" in H. apply lstrip_empty in H. rewrite rev_all in H.
    apply lstrip_empty.
    pose proof (head_ok_lstrip s) as Hh.
    destruct (PyText.lstrip s) as [|c r]; [reflexivity|].
    simpl in H, Hh. apply andb_prop in H as [Hc _]. now rewrite Hc in Hh.
  - intros H. apply lstrip_empty in H. now rewrite H.
Qed.

Lemma contains_append (c : ascii) (a b : string) :
  PyRepr.contains c (a ++ b) = PyRepr.contains c a || PyRepr.contains c b.
Proof.
  induction a as [|d a IH]; cbn [PyRepr.contains append]; [reflexivity|].
  now rewrite IH, orb_assoc.
Qed.

Lemma contains_spaces (a : string) :
  forallb PyText.isspace a = true -> PyRepr.contains "=" a = false.
Proof.
  induction a as [|d a IH]; cbn [PyRepr.contains forallb]; [reflexivity|].
  intros H. apply andb_prop in H as [Hd Ha]. rewrite (IH Ha), orb_false_r.
  destruct (Ascii.eqb_spec "="%char d) as [<-|]; [discriminate | reflexivity].
Qed.

Lemma contains_strip (s : string) :
  PyRepr.contains "=" (PyText.strip s) = PyRepr.contains "=" s.
Proof.
  destruct (strip_split s) as (a & b & Hs & Ha & Hb).
  rewrite Hs at 2. rewrite !contains_append, (contains_spaces a Ha), (contains_spaces b Hb).
  now rewrite orb_false_r.
Qed.

End Stripping.

Section Splitting.

Lemma split_once_absent (s : string) :
  PyRepr.contains "=" s = false -> PyText.split_once "=" s = [s].
Proof.
  induction s as [|c s IH]; cbn [PyRepr.contains PyText.split_once]; [reflexivity|].
  intros H. apply orb_false_elim in H as [Hc Hs].
  rewrite Ascii.eqb_sym, Hc, (IH Hs). reflexivity.
Qed.

Lemma split_once_at (a b : string) :
  PyRepr.contains "=" a = false -> PyText.split_once "=" (a ++ "=" ++ b) = [a; b].
Proof.
  induction a as [|c a IH]; cbn [PyRepr.contains PyText.split_once append];
    [reflexivity|].
  intros H. apply orb_false_elim in H as [Hc Ha].
  rewrite Ascii.eqb_sym, Hc. cbn [append] in IH. now rewrite (IH Ha).
Qed.

Lemma contains_split (s : string) :
  PyRepr.contains "=" s = true ->
  exists a b, s = a ++ "=" ++ b /\ PyRepr.contains "=" a = false.
Proof.
  induction s as [|c s IH]; cbn [PyRepr.contains]; [discriminate|].
  destruct (Ascii.eqb_spec "="%char c) as [<-|Hne]; cbn [orb].
  - intros _. now exists "", s.
  - intros H. destruct (IH H) as (a & b & -> & Ha). exists (String c a), b.
    split; [reflexivity|]. cbn [PyRepr.contains]. rewrite Ha.
    destruct (Ascii.eqb_spec "="%char c); [contradiction | reflexivity].
Qed.

End Splitting.

Lemma config_line_skipped (line : string) :
  PyText.startswith_hash line = true \/ blank line = true -> config_line line = Ok None.
Proof.
  intros [H|H]; unfold config_line.
  - now rewrite H.
  - apply strip_empty in H. rewrite H. simpl. now rewrite orb_true_r.
Qed.

Lemma config_line_kept (line : string) :
  PyText.startswith_hash line = false -> blank line = false ->
  config_line line
  = (parts <~ unpack2 (PyText.split_once "=" (PyText.strip line)) ;;
     let '(key, value) := parts in
     Ok (Some (PyText.strip key, PyText.strip value))).
Proof.
  intros H1 H2. unfold config_line. rewrite H1.
  destruct (String.eqb_spec (PyText.strip line) "") as [E|E]; [|reflexivity].
  apply strip_empty in E. congruence.
Qed.

Lemma config_line_assigns (line a b : string) :
  PyText.startswith_hash line = false ->
  PyText.strip line = a ++ "=" ++ b -> PyRepr.contains "=" a = false ->
  config_line line = Ok (Some (PyText.strip a, PyText.strip b)).
Proof.
  intros H1 Hs Ha. rewrite config_line_kept.
  - rewrite Hs, (split_once_at a b Ha). reflexivity.
  - exact H1.
  - destruct (blank line) eqn:E; [|reflexivity].
    apply strip_empty in E. rewrite E in Hs. destruct a; discriminate.
Qed.

Lemma config_line_unreadable (line : string) :
  unreadable line = true -> config_line line = Raise not_enough.
Proof.
  unfold unreadable. intros H. apply andb_prop in H as [H H3]. apply andb_prop in H as [H1 H2].
  apply negb_true_iff in H1, H2, H3.
  rewrite config_line_kept by assumption.
  rewrite split_once_absent by now rewrite contains_strip. reflexivity.
Qed.

(** What the configuration reader makes of one line.  A line that
    starts with ['#'] or holds white space only is skipped.  Any other
    line is stripped and cut at its first ['=']: the stripped text
    before it is the key, the stripped text after it the value; a line
    without ['='] raises [ValueError].  A comment that is indented is
    no comment: it is an assignment when it has a ['='], an error when
    not. *)
Theorem configuration_line :
  forall line : string,
    if PyText.startswith_hash line || blank line then config_line line = Ok None
    else if PyRepr.contains "=" line then
      exists a b,
        PyText.strip line = a ++ "=" ++ b
        /\ PyRepr.contains "=" a = false
        /\ config_line line = Ok (Some (PyText.strip a, PyText.strip b))
    else config_line line = Raise not_enough.
Proof.
  intros line.
  destruct (PyText.startswith_hash line) eqn:H1;
    [apply config_line_skipped; now left|].
  destruct (blank line) eqn:H2; [apply config_line_skipped; now right|].
  cbn [orb]. destruct (PyRepr.contains "=" line) eqn:H3.
  - rewrite <- contains_strip in H3. destruct (contains_split _ H3) as (a & b & Hs & Ha).
    exists a, b. split; [exact Hs|]. split; [exact Ha|].
    now apply config_line_assigns.
  - apply config_line_unreadable. unfold unreadable. now rewrite H1, H2, H3.
Qed.

Example indented_comment_lines :
  config_line "# mode = fast" = Ok None
  /\ config_line "  # mode = fast" = Ok (Some ("# mode", "fast"))
  /\ config_line "  # fast mode" = Raise not_enough
  /\ config_line "a = b = c" = Ok (Some ("a", "b = c"))
  /\ config_line "=" = Ok (Some ("", "")).
Proof. repeat split. Qed.

Section Lookup.

Lemma config_item_set (config : list (string * string)) (k v key : string) :
  config_item (config_set config k v) key
  = if String.eqb k key then Ok v else config_item config key.
Proof.
  induction config as [|[k' v'] r IH]; cbn [config_set config_item].
  - reflexivity.
  - destruct (String.eqb_spec k' k) as [->|Hne]; cbn [config_item].
    + now destruct (String.eqb k key).
    + rewrite IH. destruct (String.eqb_spec k' key) as [->|]; [|reflexivity].
      destruct (String.eqb_spec k key) as [->|]; [contradiction | reflexivity].
Qed.

Lemma config_item_app (a b : list (string * string)) (key : string) :
  config_item (a ++ b) key
  = match config_item a key with
    | Ok v => Ok v
    | Raise _ => config_item b key
    end.
Proof.
  induction a as [|[k v] a IH]; cbn [config_item app]; [reflexivity|].
  now destruct (String.eqb k key).
Qed.

Lemma config_set_keys (config : list (string * string)) (k v : string) :
  List.map fst (config_set config k v)
  = if existsb (String.eqb k) (List.map fst config)
    then List.map fst config else (List.map fst config ++ [k])%list.
Proof.
  induction config as [|[k' v'] r IH]; cbn [config_set List.map fst existsb app].
  - reflexivity.
  - rewrite (String.eqb_sym k k').
    destruct (String.eqb k' k); cbn [List.map fst orb]; [reflexivity|].
    rewrite IH. now destruct (existsb _ _).
Qed.

Lemma existsb_eqb_false (k : string) (keys : list string) :
  existsb (String.eqb k) keys = false -> ~ In k keys.
Proof.
  intros H Hin. assert (existsb (String.eqb k) keys = true); [|congruence].
  apply existsb_exists. exists k. split; [exact Hin | apply String.eqb_refl].
Qed.

Lemma nodup_snoc (k : string) (keys : list string) :
  NoDup keys -> ~ In k keys -> NoDup (keys ++ [k])%list.
Proof.
  induction 1 as [|x l Hx Hl IH]; cbn [app]; intros Hk.
  - constructor; [intros [] | constructor].
  - constructor.
    + rewrite in_app_iff. intros [H|[H|[]]]; [now apply Hx|].
      apply Hk. now left.
    + apply IH. intros H. apply Hk. now right.
Qed.

Lemma config_set_nodup (config : list (string * string)) (k v : string) :
  NoDup (List.map fst config) -> NoDup (List.map fst (config_set config k v)).
Proof.
  intros H. rewrite config_set_keys.
  destruct (existsb (String.eqb k) (List.map fst config)) eqn:E; [exact H|].
  apply existsb_eqb_false in E. now apply nodup_snoc.
Qed.

Lemma config_set_new (config : list (string * string)) (k v : string) :
  ~ In k (List.map fst config) -> config_set config k v = (config ++ [(k, v)])%list.
Proof.
  induction config as [|[k' v'] r IH]; cbn [config_set List.map fst app In]; [reflexivity|].
  intros H. destruct (String.eqb_spec k' k) as [->|Hne]; [tauto|].
  rewrite IH by tauto. reflexivity.
Qed.

Lemma read_config_lines_cons (line : string) (lines : list string)
    (config : list (string * string)) :
  read_config_lines (line :: lines) config
  = match config_line line with
    | Ok None => read_config_lines lines config
    | Ok (Some (key, value)) => read_config_lines lines (config_set config key value)
    | Raise e => Raise e
    end.
Proof.
  cbn [read_config_lines]. destruct (config_line line) as [[[k v]|]|e]; reflexivity.
Qed.

Lemma assignments_cons (line : string) (lines : list string) :
  assignments (line :: lines)
  = (match config_line line with
     | Ok (Some entry) => [entry]
     | _ => []
     end ++ assignments lines)%list.
Proof. reflexivity. Qed.

Lemma config_line_raises (line : string) (e : exn) :
  config_line line = Raise e -> e = not_enough /\ unreadable line = true.
Proof.
  intros H. unfold unreadable.
  destruct (PyText.startswith_hash line) eqn:H1;
    [rewrite config_line_skipped in H by (now left); discriminate|].
  destruct (blank line) eqn:H2;
    [rewrite config_line_skipped in H by (now right); discriminate|].
  destruct (PyRepr.contains "=" line) eqn:H3.
  - rewrite <- contains_strip in H3. destruct (contains_split _ H3) as (a & b & Hs & Ha).
    rewrite (config_line_assigns line a b H1 Hs Ha) in H. discriminate.
  - rewrite config_line_unreadable in H by (unfold unreadable; now rewrite H1, H2, H3).
    injection H as <-. now split.
Qed.

Lemma read_config_lines_spec (lines : list string) (config : list (string * string)) :
  NoDup (List.map fst config) ->
  match read_config_lines lines config with
  | Ok config' =>
      NoDup (List.map fst config')
      /\ (forall key, config_item config' key
                      = config_item (List.rev (assignments lines) ++ config) key)
      /\ existsb unreadable lines = false
  | Raise e => e = not_enough /\ existsb unreadable lines = true
  end.
Proof.
  revert config. induction lines as [|line lines IH]; intros config Hnd.
  - cbn. now repeat split.
  - rewrite read_config_lines_cons, assignments_cons. cbn [existsb].
    destruct (config_line line) as [[[k v]|]|e] eqn:El.
    + assert (Hu : unreadable line = false).
      { destruct (unreadable line) eqn:E; [|reflexivity].
        rewrite (config_line_unreadable _ E) in El. discriminate. }
      rewrite Hu. cbn [orb]. specialize (IH _ (config_set_nodup config k v Hnd)).
      destruct (read_config_lines lines (config_set config k v)) as [config'|e].
      * destruct IH as (H1 & H2 & H3). split; [exact H1|]. split; [|exact H3].
        intros key. rewrite H2. cbn [app List.rev]. rewrite <- app_assoc.
        rewrite !config_item_app, config_item_set. cbn [config_item].
        destruct (config_item (List.rev (assignments lines)) key); [reflexivity|].
        now destruct (String.eqb k key).
      * exact IH.
    + assert (Hu : unreadable line = false).
      { destruct (unreadable line) eqn:E; [|reflexivity].
        rewrite (config_line_unreadable _ E) in El. discriminate. }
      rewrite Hu. cbn [orb app]. apply IH, Hnd.
    + destruct (config_line_raises _ _ El) as [-> ->]. now split.
Qed.

End Lookup.

(** What the configuration reader makes of the lines of a file.  It
    raises, and then the [ValueError] of the unpacking, exactly when
    some line is neither skipped nor has a ['=']; lines before it have
    no effect then.  Otherwise every key is in the configuration once,
    and looking a key up gives the value of the last line that assigns
    it: a later assignment replaces an earlier one. *)
Theorem last_assignment_wins :
  forall lines : list string,
    match read_config_lines lines [] with
    | Ok config =>
        existsb unreadable lines = false
        /\ NoDup (List.map fst config)
        /\ forall key, config_item config key
                       = config_item (List.rev (assignments lines)) key
    | Raise e => existsb unreadable lines = true /\ e = not_enough
    end.
Proof.
  intros lines. pose proof (read_config_lines_spec lines [] (NoDup_nil _)) as H.
  destruct (read_config_lines lines []) as [config|e].
  - destruct H as (H1 & H2 & H3). split; [exact H3|]. split; [exact H1|].
    intros key. rewrite H2. now rewrite app_nil_r.
  - destruct H as [H1 H2]. now split.
Qed.

Section RoundTrip.

Lemma lines_of_line (body rest : string) :
  one_line body = true ->
  PyText.lines_of (body ++ String PyText.newline rest)
  = (body ++ String PyText.newline "") :: PyText.lines_of rest.
Proof.
  unfold one_line. induction body as [|c body IH]; intros H.
  - reflexivity.
  - cbn [forallb] in H. apply andb_prop in H as [Hc Hb].
    apply negb_true_iff, orb_false_elim in Hc as [Hn Hr].
    cbn [append PyText.lines_of]. rewrite Hn, Hr, (IH Hb). reflexivity.
Qed.

Lemma one_line_append (a b : string) :
  one_line (a ++ b) = one_line a && one_line b.
Proof. apply forallb_append. Qed.

Lemma strip_fixed_ends (s : string) :
  PyText.strip s = s -> head_ok s = true /\ head_ok (rev s) = true.
Proof.
  intros H. split; rewrite <- H; [apply strip_head_ok | apply strip_last_ok].
Qed.

Lemma strip_entry_line (k v : string) :
  PyText.strip k = k -> PyText.strip v = v ->
  PyText.strip (k ++ "=" ++ v ++ String PyText.newline "") = k ++ "=" ++ v.
Proof.
  intros Hk Hv.
  destruct (strip_fixed_ends k Hk) as [Hk1 _].
  destruct (strip_fixed_ends v Hv) as [_ Hv2].
  assert (H1 : head_ok (k ++ "=" ++ v ++ String PyText.newline "") = true)
    by (apply head_ok_append; [exact Hk1 | reflexivity]).
  assert (H2 : head_ok (rev v ++ "=" ++ rev k) = true)
    by (apply head_ok_append; [exact Hv2 | reflexivity]).
  assert (Hrev : rev (k ++ "=" ++ v ++ String PyText.newline "")
                 = String PyText.newline (rev v ++ "=" ++ rev k)).
  { rewrite !rev_app. change (rev (String PyText.newline "")) with (String PyText.newline "").
    change (rev "=") with "=". rewrite <- !append_assoc. reflexivity. }
  unfold PyText.strip. rewrite (lstrip_head_ok _ H1), Hrev.
  cbn [PyText.lstrip]. change (PyText.isspace PyText.newline) with true. cbv iota.
  rewrite (lstrip_head_ok _ H2), !rev_app, !rev_involutive.
  change (rev "=") with "=". now rewrite <- !append_assoc.
Qed.

Lemma config_line_entry (k v : string) :
  writable (k, v) -> config_line (config_file_line (k, v)) = Ok (Some (k, v)).
Proof.
  intros (Hk & Hv & _ & _ & He & Hh). cbn [fst snd] in *.
  unfold config_file_line. cbn [fst snd].
  rewrite (config_line_assigns _ k v).
  - now rewrite Hk, Hv.
  - destruct k as [|c k]; [reflexivity | exact Hh].
  - now apply strip_entry_line.
  - exact He.
Qed.

Lemma lines_of_config_file (config : list (string * string)) :
  Forall writable config ->
  PyText.lines_of (config_file config) = List.map config_file_line config.
Proof.
  induction 1 as [|[k v] config (_ & _ & Hk & Hv & _) _ IH]; [reflexivity|].
  cbn [fst snd] in *. unfold config_file. cbn [List.map join fold_right].
  unfold config_file_line at 1. cbn [fst snd].
  replace ((k ++ "=" ++ v ++ String PyText.newline "") ++ fold_right append "" (List.map config_file_line config))
    with ((k ++ "=" ++ v) ++ String PyText.newline (config_file config)).
  - rewrite lines_of_line.
    + rewrite IH. f_equal. unfold config_file_line. cbn [fst snd].
      now rewrite !append_assoc.
    + rewrite !one_line_append, Hk, Hv. reflexivity.
  - unfold config_file, join. now rewrite !append_assoc.
Qed.

Lemma read_config_lines_entries (config acc : list (string * string)) :
  Forall writable config -> NoDup (List.map fst (acc ++ config)) ->
  read_config_lines (List.map config_file_line config) acc = Ok (acc ++ config)%list.
Proof.
  intros Hw. revert acc. induction Hw as [|[k v] config Hkv _ IH]; intros acc Hnd.
  - cbn. now rewrite app_nil_r.
  - cbn [List.map]. rewrite read_config_lines_cons, (config_line_entry k v Hkv).
    assert (Hnew : ~ In k (List.map fst acc)).
    { rewrite map_app in Hnd. cbn [List.map fst] in Hnd.
      apply NoDup_remove_2 in Hnd. intros H. apply Hnd, in_app_iff. now left. }
    rewrite (config_set_new acc k v Hnew), IH.
    + now rewrite <- app_assoc.
    + now rewrite <- app_assoc.
Qed.

End RoundTrip.

(** A configuration written out one [key=value] line per entry is read
    back as it was, in the order of the entries and without a log
    record, when the keys are distinct and every key and value is
    without white space at its ends and without a line break, and no
    key has a ['='] or starts with ['#'].  Values may be empty and may
    have ['='] and ['#'] in them. *)
Theorem configuration_round_trip :
  forall (config : list (string * string)) (log : list log_record),
    Forall writable config ->
    NoDup (List.map fst config) ->
    read_config (Opened (config_file config)) log = (Returned config, log).
Proof.
  intros config log Hw Hnd. unfold read_config.
  rewrite (lines_of_config_file config Hw).
  now rewrite (read_config_lines_entries config [] Hw Hnd).
Qed.

Lemma configuration_round_trip_witness :
  read_config (Opened (config_file [("logPath", "/var/log"); ("sourceName", "in.json");
                                    ("note", "a=b #c"); ("resultBackupPath4CSV", "")]))
              [(INFO, "begin")]
  = (Returned [("logPath", "/var/log"); ("sourceName", "in.json");
               ("note", "a=b #c"); ("resultBackupPath4CSV", "")],
     [(INFO, "begin")]).
Proof.
  apply configuration_round_trip.
  - repeat constructor.
  - repeat (constructor; [cbn; intuition discriminate|]). constructor.
Defined.

(** ** Integers and binary64 *)

Section IntegerRounding.

Variable a : Z.
Hypothesis Ha : 0 < a.

Let L := Z.log2 a.

Lemma log2_bounds : 2 ^ L <= a < 2 ^ (L + 1).
Proof. unfold L. pose proof (Z.log2_spec a Ha). now replace (L + 1) with (Z.succ L) by lia. Qed.

Lemma L_nonneg : 0 <= L.
Proof. apply Z.log2_nonneg. Qed.

Lemma binade_int : binade a 1 = L - 52.
Proof.
  pose proof log2_bounds as [Hlo Hhi]. pose proof L_nonneg as HL.
  unfold binade. change (Z.log2 1) with 0. fold L. rewrite Z.sub_0_r.
  assert (H52 : 0 < 2 ^ 52) by lia.
  destruct (0 <=? L - 52) eqn:E.
  - apply Z.leb_le in E. rewrite Z.mul_1_l.
    assert (Hp : 0 < 2 ^ (L - 52)) by (apply Z.pow_pos_nonneg; lia).
    assert (Hs : 2 ^ L = 2 ^ (L - 52) * 2 ^ 52)
      by (rewrite <- Z.pow_add_r by lia; f_equal; lia).
    assert (Hq : 2 ^ 52 <= a / 2 ^ (L - 52))
      by (apply Z.div_le_lower_bound; lia).
    replace (a / 2 ^ (L - 52) <? 2 ^ 52) with false by (symmetry; apply Z.ltb_ge; lia).
    lia.
  - apply Z.leb_gt in E. rewrite Z.div_1_r.
    assert (Hp : 0 < 2 ^ (- (L - 52))) by (apply Z.pow_pos_nonneg; lia).
    assert (Hs : 2 ^ L * 2 ^ (- (L - 52)) = 2 ^ 52)
      by (rewrite <- Z.pow_add_r by lia; f_equal; lia).
    assert (Hq : 2 ^ 52 <= a * 2 ^ (- (L - 52))) by nia.
    replace (a * 2 ^ (- (L - 52)) <? 2 ^ 52) with false by (symmetry; apply Z.ltb_ge; lia).
    lia.
Qed.

(** Below [2^53] an integer is a binary64 value as it is. *)
Lemma round_pos_exact (neg : bool) :
  a < 2 ^ 53 ->
  round_pos neg a 1 = Finite neg (Z.to_pos (a * 2 ^ (52 - L))) (L - 52).
Proof.
  intros Hlt. pose proof log2_bounds as [Hlo Hhi]. pose proof L_nonneg as HL.
  assert (HL52 : L <= 52).
  { destruct (Z_le_gt_dec L 52) as [|Hgt]; [assumption|]. exfalso.
    assert (2 ^ 53 <= 2 ^ L) by (apply Z.pow_le_mono_r; lia). lia. }
  unfold round_pos. rewrite binade_int. cbv zeta.
  assert (Hp : 0 < 2 ^ (52 - L)) by (apply Z.pow_pos_nonneg; lia).
  assert (Hs : 2 ^ L * 2 ^ (52 - L) = 2 ^ 52)
    by (rewrite <- Z.pow_add_r by lia; f_equal; lia).
  assert (Hs' : 2 ^ (L + 1) * 2 ^ (52 - L) = 2 ^ 53)
    by (rewrite <- Z.pow_add_r by lia; f_equal; lia).
  destruct (0 <=? L - 52) eqn:E.
  - apply Z.leb_le in E. assert (L = 52) by lia.
    replace (L - 52) with 0 by lia. replace (52 - L) with 0 by lia.
    change (2 ^ 0) with 1. rewrite !Z.mul_1_r, Z.div_1_r, Z.mod_1_r.
    change (1 <? 2 * 0) with false. change (1 =? 2 * 0) with false. cbn [orb andb].
    replace (a =? 2 ^ 53) with false by (symmetry; apply Z.eqb_neq; lia).
    replace (a =? 0) with false by (symmetry; apply Z.eqb_neq; lia).
    change (971 <? 0) with false. reflexivity.
  - apply Z.leb_gt in E. replace (- (L - 52)) with (52 - L) by lia.
    rewrite Z.div_1_r, Z.mod_1_r.
    change (1 <? 2 * 0) with false. change (1 =? 2 * 0) with false. cbn [orb andb].
    replace (a * 2 ^ (52 - L) =? 2 ^ 53) with false by (symmetry; apply Z.eqb_neq; nia).
    replace (a * 2 ^ (52 - L) =? 0) with false by (symmetry; apply Z.eqb_neq; nia).
    replace (971 <? L - 52) with false by (symmetry; apply Z.ltb_ge; lia).
    reflexivity.
Qed.

(** From [2^53] on the exponent is positive, or the value an infinity. *)
Lemma round_pos_large (neg : bool) :
  2 ^ 53 <= a ->
  round_pos neg a 1 = Inf neg
  \/ exists m e, round_pos neg a 1 = Finite neg m e /\ 1 <= e.
Proof.
  intros Hge. pose proof log2_bounds as [Hlo Hhi]. pose proof L_nonneg as HL.
  assert (HL53 : 53 <= L).
  { destruct (Z_le_gt_dec 53 L) as [|Hgt]; [assumption|]. exfalso.
    assert (2 ^ (L + 1) <= 2 ^ 53) by (apply Z.pow_le_mono_r; lia). lia. }
  unfold round_pos. rewrite binade_int. cbv zeta.
  replace (0 <=? L - 52) with true by (symmetry; apply Z.leb_le; lia).
  rewrite Z.mul_1_l.
  assert (Hp : 0 < 2 ^ (L - 52)) by (apply Z.pow_pos_nonneg; lia).
  assert (Hs : 2 ^ L = 2 ^ (L - 52) * 2 ^ 52)
    by (rewrite <- Z.pow_add_r by lia; f_equal; lia).
  assert (Hq : 2 ^ 52 <= a / 2 ^ (L - 52)) by (apply Z.div_le_lower_bound; lia).
  set (q := a / 2 ^ (L - 52)) in *. set (r := a mod 2 ^ (L - 52)).
  set (q' := if _ : bool then q + 1 else q).
  assert (Hq' : 2 ^ 52 <= q') by (unfold q'; destruct (_ || _); lia).
  destruct (q' =? 2 ^ 53).
  - change (2 ^ 52 =? 0) with false. cbv iota.
    destruct (971 <? L - 52 + 1); [now left|]. right. eexists _, _. split; [reflexivity | lia].
  - replace (q' =? 0) with false by (symmetry; apply Z.eqb_neq; lia).
    destruct (971 <? L - 52); [now left|]. right. eexists _, _. split; [reflexivity | lia].
Qed.

Lemma round_pos_overflow (neg : bool) :
  (exists b, round_pos neg a 1 = Inf b) <-> 2 ^ 1024 - 2 ^ 970 <= a.
Proof.
  pose proof log2_bounds as [Hlo Hhi]. pose proof L_nonneg as HL.
  destruct (Z_lt_ge_dec a (2 ^ 53)) as [Hlt|Hge].
  - rewrite (round_pos_exact neg Hlt). split.
    + intros (b & H). discriminate.
    + intros H. exfalso.
      assert (2 ^ 53 < 2 ^ 1024 - 2 ^ 970) by (vm_compute; reflexivity). lia.
  - assert (HL53 : 53 <= L).
    { destruct (Z_le_gt_dec 53 L) as [|Hgt]; [assumption|]. exfalso.
      assert (2 ^ (L + 1) <= 2 ^ 53) by (apply Z.pow_le_mono_r; lia). lia. }
    unfold round_pos. rewrite binade_int. cbv zeta.
    replace (0 <=? L - 52) with true by (symmetry; apply Z.leb_le; lia).
    rewrite Z.mul_1_l.
    set (d := 2 ^ (L - 52)).
    assert (Hp : 0 < d) by (apply Z.pow_pos_nonneg; lia).
    assert (Hs : 2 ^ L = d * 2 ^ 52)
      by (unfold d; rewrite <- Z.pow_add_r by lia; f_equal; lia).
    assert (Hs' : 2 ^ (L + 1) = d * 2 ^ 53)
      by (unfold d; rewrite <- Z.pow_add_r by lia; f_equal; lia).
    pose proof (Z.div_mod a d ltac:(lia)) as Hdm.
    pose proof (Z.mod_pos_bound a d Hp) as Hr.
    assert (Hq : 2 ^ 52 <= a / d) by (apply Z.div_le_lower_bound; lia).
    assert (Hq2 : a / d < 2 ^ 53) by (apply Z.div_lt_upper_bound; lia).
    set (q := a / d) in *. set (r := a mod d) in *.
    set (up := (d <? 2 * r) || ((d =? 2 * r) && Z.odd q)).
    assert (Hup : up = true <-> d < 2 * r \/ (d = 2 * r /\ Z.odd q = true)).
    { unfold up. rewrite orb_true_iff, andb_true_iff, Z.ltb_lt, Z.eqb_eq. tauto. }
    set (q' := if up then q + 1 else q).
    assert (Hq' : 2 ^ 52 <= q' <= 2 ^ 53) by (unfold q'; destruct up; lia).
    assert (H1024 : 2 ^ 1024 = 2 ^ 54 * 2 ^ 970) by (vm_compute; reflexivity).
    assert (H971 : 2 ^ 971 = 2 * 2 ^ 970) by (vm_compute; reflexivity).
    assert (P970 : 0 < 2 ^ 970) by (vm_compute; reflexivity).
    set (P := 2 ^ 970) in *.
    assert (Hmono : forall x y, 0 <= x -> x <= y -> 2 ^ x <= 2 ^ y)
      by (intros; apply Z.pow_le_mono_r; lia).
    assert (Hinf : (exists b, (let '(m, e') := if q' =? 2 ^ 53 then (2 ^ 52, L - 52 + 1)
                                             else (q', L - 52) in
                              if m =? 0 then Zero neg
                              else if 971 <? e' then Inf neg else Finite neg (Z.to_pos m) e')
                             = Inf b)
                   <-> (971 < L - 52 \/ (L - 52 = 971 /\ q' = 2 ^ 53))).
    { destruct (Z.eqb_spec q' (2 ^ 53)) as [E|E].
      - change (2 ^ 52 =? 0) with false. cbv iota.
        destruct (Z.ltb_spec 971 (L - 52 + 1)).
        + split; [intros _; lia | intros _; now exists neg].
        + split; [intros (b & Hb); discriminate | intros; lia].
      - replace (q' =? 0) with false by (symmetry; apply Z.eqb_neq; lia).
        destruct (Z.ltb_spec 971 (L - 52)).
        + split; [intros _; lia | intros _; now exists neg].
        + split; [intros (b & Hb); discriminate | intros; lia]. }
    fold q r up q'. rewrite Hinf. clear Hinf. split.
    + intros [Hbig | [He Hq53]].
      * assert (2 ^ 1024 <= 2 ^ L) by (apply Hmono; lia). lia.
      * assert (Hd : d = 2 * P) by (unfold d; rewrite He; exact H971).
        assert (Hu : up = true) by (unfold q' in Hq53; destruct up; [reflexivity | lia]).
        assert (q = 2 ^ 53 - 1) by (unfold q' in Hq53; rewrite Hu in Hq53; lia).
        apply Hup in Hu. nia.
    + intros Hbig.
      destruct (Z_lt_ge_dec 971 (L - 52)) as [|Hle]; [now left|]. right.
      assert (HL971 : L - 52 = 971).
      { destruct (Z.eq_dec (L - 52) 971) as [|Hne]; [assumption|]. exfalso.
        assert (2 ^ (L + 1) <= 2 ^ 1023) by (apply Hmono; lia).
        assert (2 ^ 1023 < 2 ^ 1024 - P) by (unfold P; vm_compute; reflexivity). lia. }
      split; [exact HL971|].
      assert (Hd : d = 2 * P) by (unfold d; rewrite HL971; exact H971).
      assert (Hq53 : q = 2 ^ 53 - 1) by nia.
      assert (Hu : up = true).
      { apply Hup. destruct (Z_lt_ge_dec d (2 * r)) as [|Hge']; [now left|]. right.
        split; [nia|]. rewrite Hq53. reflexivity. }
      unfold q'. rewrite Hu. lia.
Qed.

End IntegerRounding.

Lemma of_int_overflow (n : Z) :
  PyFloat.of_int n = None <-> 2 ^ 1024 - 2 ^ 970 <= Z.abs n.
Proof.
  unfold PyFloat.of_int. destruct (Z.eqb_spec n 0) as [->|Hne].
  - split; [discriminate|]. intros H. exfalso. revert H. vm_compute. intros H. now apply H.
  - assert (Ha : 0 < Z.abs n) by lia.
    rewrite <- (round_pos_overflow (Z.abs n) Ha (n <? 0)).
    destruct (round_pos (n <? 0) (Z.abs n) 1) as [|b|b|b m e].
    + split; [discriminate | intros (b & H); discriminate].
    + split; [intros _; now exists b | reflexivity].
    + split; [discriminate | intros (b' & H); discriminate].
    + split; [discriminate | intros (b' & H); discriminate].
Qed.

(** ** What stops the record builder *)

Lemma py_float_unconvertible (v : pyval) (e : exn) :
  is_empty_str v || is_None v = false ->
  py_float v = Raise e -> (forall msg, e <> ValueError msg) ->
  unconvertible v = true
  /\ ((exists msg, e = TypeError msg)
      \/ e = OverflowError "int too large to convert to float").
Proof.
  destruct v as [| b | n | x | s | l | d]; cbn [py_float unconvertible];
    intros Hv H Hne; try discriminate.
  - destruct (PyFloat.of_int n) eqn:E; [discriminate|]. injection H as <-.
    split; [|now right]. apply Z.leb_le. now apply of_int_overflow.
  - destruct (PyFloat.of_str s); [discriminate|]. injection H as <-.
    exfalso. eapply Hne. reflexivity.
  - injection H as <-. split; [reflexivity | left; eexists; reflexivity].
  - injection H as <-. split; [reflexivity | left; eexists; reflexivity].
Qed.

Lemma unconvertible_raises (v : pyval) :
  unconvertible v = true ->
  exists e, py_float v = Raise e /\ forall msg, e <> ValueError msg.
Proof.
  destruct v as [| b | n | x | s | l | d]; cbn [py_float unconvertible];
    intros H; try discriminate.
  - apply Z.leb_le, of_int_overflow in H. rewrite H.
    eexists. split; [reflexivity | discriminate].
  - eexists. split; [reflexivity | discriminate].
  - eexists. split; [reflexivity | discriminate].
Qed.

Lemma format_field_unconvertible (v : pyval) (length : Z) :
  unconvertible v = true ->
  exists e, format_field v "Number" length = Raise e /\ forall msg, e <> ValueError msg.
Proof.
  intros H. destruct (unconvertible_raises v H) as (e & He & Hne). exists e.
  split; [|exact Hne]. unfold format_field. cbn [String.eqb Ascii.eqb Bool.eqb].
  unfold format_number.
  replace (is_empty_str v || is_None v) with false
    by (destruct v as [| | | | [|] | |]; try reflexivity; discriminate).
  unfold format_number_body, rbind. rewrite He.
  destruct e; try reflexivity. exfalso. eapply Hne. reflexivity.
Qed.

Lemma format_field_stops (v : pyval) (type : string) (length : Z) (e : exn) :
  format_field v type length = Raise e -> (forall msg, e <> ValueError msg) ->
  type = "Number" /\ unconvertible v = true /\ py_float v = Raise e
  /\ ((exists msg, e = TypeError msg)
      \/ e = OverflowError "int too large to convert to float").
Proof.
  intros H Hne. apply format_field_raise in H as [-> H]. split; [reflexivity|].
  destruct (is_empty_str v || is_None v) eqn:Ev.
  - rewrite format_number_blank in H by assumption. discriminate.
  - assert (Hbody : format_number_body v length = Raise e).
    { unfold format_number in H. rewrite Ev in H.
      destruct (format_number_body v length) as [s|[m|m|m|k]]; try exact H.
      injection H as <-. exfalso. eapply Hne. reflexivity. }
    pose proof (format_number_body_raise v length e Hbody Hne) as Hf.
    destruct (py_float_unconvertible v e Ev Hf Hne) as [Hu He].
    now repeat split.
Qed.

(** The record builder stops with an exception exactly when, in some
    object of the document, the value of some Number field is a list,
    an object, or an integer of magnitude [2^1024 - 2^970] or more;
    the exception is the [TypeError] or the [OverflowError] of
    [float], and never a [ValueError] or a [KeyError].  In every other
    case it returns its lines. *)
Theorem record_builder_stops_on_unconvertible_numbers_only :
  forall (json_data : pyval) (metadata : list field_spec) (log : list log_record),
    let items := match json_data with PList l => l | _ => [json_data] end in
    match process_json json_data metadata log with
    | (Ok _, _) =>
        forall d f, In d (dicts_of items) -> In f metadata -> field_type f = "Number" ->
                    unconvertible (field_value d f) = false
    | (Raise e, _) =>
        (exists d f, In (PDict d) items /\ In f metadata /\ field_type f = "Number"
                     /\ unconvertible (field_value d f) = true
                     /\ py_float (field_value d f) = Raise e)
        /\ ((exists msg, e = TypeError msg)
            \/ e = OverflowError "int too large to convert to float")
    end.
Proof.
  intros json_data metadata log items. unfold process_json. fold items.
  destruct (process_items_result items metadata log)
    as [(lines & added & -> & Hlines & _) | (e & log' & d & f & -> & Hne & Hd & Hf & He)].
  - intros d f Hd Hf Hty.
    destruct (unconvertible (field_value d f)) eqn:Eu; [exfalso | reflexivity].
    destruct (format_field_unconvertible _ (field_length f) Eu) as (e & He & Hne).
    assert (Hline : exists line, is_line_of metadata d line).
    { clear - Hlines Hd. induction Hlines as [|d' line ds ls H _ IH]; [destruct Hd|].
      destruct Hd as [->|Hd]; [now exists line | now apply IH]. }
    destruct Hline as (line & parts & Hparts & _).
    assert (Hin : In f (sorted metadata))
      by (apply (Permutation_in f (Permutation_sym (sorted_perm metadata))), Hf).
    assert (Hpart : exists part, contribution d part f).
    { clear - Hparts Hin. induction Hparts as [|part f' ps fs H _ IH]; [destruct Hin|].
      destruct Hin as [->|Hin]; [now exists part | now apply IH]. }
    destruct Hpart as (part & [Hok | (msg & Hv & _)]); rewrite Hty, He in *.
    + discriminate.
    + injection Hv as ->. now apply (Hne msg).
  - destruct (format_field_stops _ _ _ _ He Hne) as (Hty & Hu & Hpf & Hkind).
    split; [|exact Hkind]. exists d, f. now repeat split.
Qed.

Example record_builder_stops :
  process_json (PList [PDict [("id", PList [])]]) [(1, "id", "Number", 5)] []
  = (Raise (TypeError "float() argument must be a string or a real number, not 'list'"), [])
  /\ process_json (PDict [("id", PInt (2 ^ 1024))]) [(1, "id", "Number", 5)] []
     = (Raise (OverflowError "int too large to convert to float"), [])
  /\ process_json (PDict [("id", PInt (2 ^ 1024 - 2 ^ 970 - 1))]) [(1, "id", "Number", 5)] []
     = (Ok ["     "],
        [(ERROR, "Error formatting field: Value is not a number: " ++
                 PyInt.str (2 ^ 1024 - 2 ^ 970 - 1))]).
Proof. repeat split; vm_compute; reflexivity. Qed.

(** ** The name in the header *)

Lemma contains_app (c : ascii) (a b : string) :
  PyRepr.contains c (a ++ b) = PyRepr.contains c a || PyRepr.contains c b.
Proof.
  induction a as [|d a IH]; cbn [PyRepr.contains append]; [reflexivity|].
  now rewrite IH, orb_assoc.
Qed.

Lemma basename_append (a b : string) :
  PyRepr.contains "/" b = true -> basename (a ++ b) = basename b.
Proof.
  intros Hb. induction a as [|c a IH]; [reflexivity|].
  cbn [append basename]. cbn [PyRepr.contains]. rewrite contains_app, Hb.
  rewrite orb_true_r, orb_true_r. exact IH.
Qed.

Lemma basename_after_slash (a b : string) : basename (a ++ "/" ++ b) = basename b.
Proof.
  rewrite basename_append.
  - reflexivity.
  - reflexivity.
Qed.

Lemma ends_with_slash_split (a : string) :
  ends_with_slash a = true -> exists a', a = a' ++ "/".
Proof.
  induction a as [|c a IH]; [discriminate|]. cbn [ends_with_slash].
  destruct a as [|c' a'].
  - intros H. apply Ascii.eqb_eq in H as ->. now exists "".
  - intros H. destruct (IH H) as (p & Hp). exists (String c p). cbn [append]. now rewrite <- Hp.
Qed.

(** [basename(join(a, b)) == basename(b)] *)
Lemma basename_path_join (a b : string) : basename (path_join a b) = basename b.
Proof.
  unfold path_join.
  assert (H : basename (if String.eqb a "" || ends_with_slash a
                        then a ++ b else a ++ "/" ++ b) = basename b).
  { destruct (String.eqb_spec a "") as [->|Hne]; [reflexivity|]. cbn [orb].
    destruct (ends_with_slash a) eqn:E.
    - destruct (ends_with_slash_split a E) as (a' & ->).
      rewrite append_assoc. apply basename_after_slash.
    - apply basename_after_slash. }
  destruct b as [|c b]; [exact H|].
  destruct c as [[] [] [] [] [] [] [] []]; try exact H. reflexivity.
Qed.

(** The name in the header of every file a run writes is the base
    name of [config['sourceName']], what follows its last ['/']: the
    directory [config['sourcePath']] and a directory part of the name
    leave no trace in the contents, and a name that ends with ['/']
    gives a header without a name. *)
Theorem header_names_the_base_name_of_sourceName :
  forall (config : list (string * string)) (metadata : list field_spec)
         (json_data : pyval) (log log' : list log_record) (files : list file),
    main config metadata json_data log = (Ok files, log') ->
    exists source_name lines log1,
      config_item config "sourceName" = Ok source_name
      /\ process_json json_data metadata log = (Ok lines, log1)
      /\ let name := basename source_name in
         let width := Z.max (max_or_0 (List.map len lines)) (len name + 6) in
         Forall (fun f : file =>
                   exists records,
                     snd f = ljust (PyInt.format_06 width ++ name) width ++ records)
                files.
Proof.
  intros config metadata json_data log log' files Hrun.
  destruct (main_returns _ _ _ _ _ _ Hrun)
    as (source_path & source_name & result_path & lines & log1
        & H1 & H2 & H3 & H4 & H5).
  exists source_name, lines, log1. split; [exact H2|]. split; [exact H4|].
  cbv zeta in H5 |- *. rewrite basename_path_join in H5. subst files.
  constructor; [eexists; reflexivity|].
  destruct (String.eqb _ ""); constructor; [eexists; reflexivity | constructor].
Qed.

Lemma header_names_the_base_name_of_sourceName_witness :
  exists source_name,
    config_item [("logPath", "/log"); ("logFileName", "run.log"); ("sourcePath", "/data/in");
                 ("sourceSheet", "schema.csv"); ("sourceName", "2024/05/in.json");
                 ("resultPath4IFF", "/out")] "sourceName" = Ok source_name.
Proof.
  assert (Hrun :
    main [("logPath", "/log"); ("logFileName", "run.log"); ("sourcePath", "/data/in");
          ("sourceSheet", "schema.csv"); ("sourceName", "2024/05/in.json");
          ("resultPath4IFF", "/out")]
         [(1, "id", "Number", 5)] (PList [PDict [("id", PInt 3)]]) []
    = (Ok [("/out/output.iff", "000013in.json3.0          ")],
       [(INFO, "Generated IFF file: /out/output.iff")]))
    by (vm_compute; reflexivity).
  destruct (header_names_the_base_name_of_sourceName _ _ _ _ _ _ Hrun)
    as (source_name & _ & _ & Hname & _).
  exact (ex_intro _ source_name Hname).
Defined.

(** ** Whole numbers in a Number field *)

Lemma decimal_length (n : nat) (a : Z) :
  0 < a -> a < 10 ^ Z.of_nat n ->
  exists k, 1 <= k /\ 10 ^ (k - 1) <= a < 10 ^ k.
Proof.
  induction n as [|n IH]; intros Ha Hlt.
  - simpl in Hlt. lia.
  - destruct (Z_lt_ge_dec a (10 ^ Z.of_nat n)) as [H|H]; [now apply IH|].
    exists (Z.of_nat (S n)). split; [lia|].
    replace (Z.of_nat (S n) - 1) with (Z.of_nat n) by lia. lia.
Qed.

Lemma digits_len_spec (a : Z) :
  0 < a ->
  1 <= len (PyInt.digits a)
  /\ 10 ^ (len (PyInt.digits a) - 1) <= a < 10 ^ len (PyInt.digits a).
Proof.
  intros Ha.
  destruct (decimal_length (Z.to_nat a) a Ha) as (k & Hk & Hb).
  { rewrite Z2Nat.id by lia. apply Z.pow_gt_lin_r; lia. }
  rewrite (digits_len_exact a k Hk Hb). split; [exact Hk | exact Hb].
Qed.

Lemma digits_val_append_zeros (s : string) (t : nat) (acc : Z) :
  PyInt.digits_val acc (s ++ repeat_char "0" t)
  = PyInt.digits_val acc s * 10 ^ Z.of_nat t.
Proof.
  rewrite digits_val_append. generalize (PyInt.digits_val acc s). clear.
  induction t as [|t IH]; intros v.
  - simpl. lia.
  - cbn [repeat_char PyInt.digits_val]. rewrite IH. change (digit_val "0") with 0.
    rewrite Nat2Z.inj_succ, Z.pow_succ_r by lia. lia.
Qed.

Lemma strip_zeros_rev_spec (s : string) :
  exists j, s = repeat_char "0" j ++ strip_zeros_rev s.
Proof.
  induction s as [|c s (j & Hj)].
  - now exists O.
  - destruct (Ascii.eqb_spec c "0") as [->|Hne].
    + exists (S j). cbn [strip_zeros_rev repeat_char append]. now rewrite <- Hj.
    + exists O. cbn [repeat_char append].
      destruct c as [[] [] [] [] [] [] [] []]; try reflexivity. now elim Hne.
Qed.

Lemma rev_repeat_char (c : ascii) (n : nat) : rev (repeat_char c n) = repeat_char c n.
Proof.
  induction n as [|n IH]; [reflexivity|].
  cbn [repeat_char]. rewrite rev_cons, IH. clear.
  induction n as [|n IH]; [reflexivity|]. cbn [repeat_char append]. now rewrite IH.
Qed.

(** Trailing zeros taken off and put back. *)
Lemma strip_trailing_zeros (ds : string) :
  exists j, ds = rev (strip_zeros_rev (rev ds)) ++ repeat_char "0" j.
Proof.
  destruct (strip_zeros_rev_spec (rev ds)) as (j & Hj). exists j.
  rewrite <- (rev_involutive ds) at 1. rewrite Hj at 1.
  now rewrite rev_app, rev_repeat_char.
Qed.

Section WholeNumber.

Variable a : Z.
Hypothesis Ha : 0 < a.
Hypothesis Ha53 : a < 2 ^ 53.

Let L := Z.log2 a.
Let m : positive := Z.to_pos (a * 2 ^ (52 - L)).
Let e : Z := L - 52.
Let x : pyfloat := Finite false m e.
Let num : Z := if 0 <=? e then Z.pos m * 2 ^ e else Z.pos m.
Let den : Z := if 0 <=? e then 1 else 2 ^ (- e).
Let D : Z := len (PyInt.digits a).

Lemma whole_L : 0 <= L <= 52.
Proof.
  pose proof (log2_bounds a Ha) as [Hlo Hhi]. fold L in Hlo, Hhi.
  split; [apply Z.log2_nonneg|].
  destruct (Z_le_gt_dec L 52) as [|Hgt]; [assumption|]. exfalso.
  assert (2 ^ 53 <= 2 ^ L) by (apply Z.pow_le_mono_r; lia). lia.
Qed.

Lemma whole_m : Z.pos m = a * 2 ^ (52 - L).
Proof.
  pose proof whole_L. unfold m. rewrite Z2Pos.id; [reflexivity|].
  assert (0 < 2 ^ (52 - L)) by (apply Z.pow_pos_nonneg; lia). nia.
Qed.

Lemma whole_value : 0 < den /\ num = a * den.
Proof.
  pose proof whole_L. unfold num, den, e. rewrite whole_m.
  destruct (0 <=? L - 52) eqn:E.
  - apply Z.leb_le in E. replace (L - 52) with 0 by lia. replace (52 - L) with 0 by lia.
    change (2 ^ 0) with 1. lia.
  - replace (- (L - 52)) with (52 - L) by lia.
    split; [apply Z.pow_pos_nonneg; lia | reflexivity].
Qed.

Lemma whole_round (neg : bool) : round_pos neg a 1 = Finite neg m e.
Proof. apply (round_pos_exact a Ha neg Ha53). Qed.

Lemma whole_D : 1 <= D <= 16 /\ 10 ^ (D - 1) <= a < 10 ^ D.
Proof.
  destruct (digits_len_spec a Ha) as (H1 & H2 & H3). fold D in H1, H2, H3.
  split; [|split; assumption]. split; [assumption|].
  destruct (Z_le_gt_dec D 16) as [|Hgt]; [assumption|]. exfalso.
  assert (10 ^ 16 <= 10 ^ (D - 1)) by (apply pow10_le; lia).
  assert (2 ^ 53 < 10 ^ 16) by reflexivity. lia.
Qed.

Lemma whole_dec_exponent : dec_exponent num den = D.
Proof.
  destruct whole_value as [Hden Hnum]. unfold dec_exponent.
  replace (den <=? num) with true by (symmetry; apply Z.leb_le; nia).
  rewrite Hnum, Z.div_mul by lia. reflexivity.
Qed.

Lemma whole_neighbours (n : Z) :
  1 <= n <= D ->
  let q := D - n in
  let lo := a / 10 ^ q in
  (neighbours num den D n = (lo, lo + 1, q) \/ neighbours num den D n = (lo + 1, lo, q))
  /\ (a mod 10 ^ q = 0 -> neighbours num den D n = (lo, lo + 1, q)).
Proof.
  intros Hn q lo. destruct whole_value as [Hden Hnum].
  assert (Hq : 0 <= q) by (unfold q; lia).
  assert (Hp : 0 < 10 ^ q) by (apply pow10_pos; lia).
  unfold neighbours. fold q.
  replace (0 <=? q) with true by (symmetry; apply Z.leb_le; lia).
  rewrite Hnum, (Z.mul_comm a den).
  rewrite Z.div_mul_cancel_l, Zmult_mod_distr_l by lia. fold lo.
  split.
  - destruct (_ || _); [now left | now right].
  - intros ->. rewrite Z.mul_0_r.
    replace (2 * 0 <? den * 10 ^ q) with true by (symmetry; apply Z.ltb_lt; nia).
    reflexivity.
Qed.

Lemma whole_reads_back (c q : Z) :
  0 <= c -> 0 <= q -> (reads_back x c q = true <-> c * 10 ^ q = a).
Proof.
  intros Hc Hq. pose proof whole_L as HL.
  assert (Hp : 0 < 10 ^ q) by (apply pow10_pos; lia).
  unfold reads_back, of_decimal.
  replace (0 <=? q) with true by (symmetry; apply Z.leb_le; lia).
  destruct (Z.eqb_spec c 0) as [->|Hc0].
  - split; [discriminate | lia].
  - assert (HN : 0 < c * 10 ^ q) by nia.
    destruct (Z_lt_ge_dec (c * 10 ^ q) (2 ^ 53)) as [Hlt|Hge].
    + rewrite (round_pos_exact _ HN false Hlt). unfold x. cbn [eqb Bool.eqb andb]. split.
      * intros H. apply andb_prop in H as [Hm He].
        apply Pos.eqb_eq in Hm. apply Z.eqb_eq in He.
        assert (HL' : Z.log2 (c * 10 ^ q) = L) by (unfold e in He; lia).
        rewrite HL' in Hm. unfold m in Hm.
        assert (Hpow : 0 < 2 ^ (52 - L)) by (apply Z.pow_pos_nonneg; lia).
        apply Z2Pos.inj in Hm; nia.
      * intros ->. unfold m, e, L. now rewrite Pos.eqb_refl, Z.eqb_refl.
    + split.
      * intros H. exfalso.
        destruct (round_pos_large _ HN false ltac:(lia)) as [E | (m' & e' & E & He')];
          rewrite E in H; [discriminate|].
        unfold x in H. cbn [eqb] in H. apply andb_prop in H as [_ He].
        apply Z.eqb_eq in He. unfold e in He. lia.
      * intros H. lia.
Qed.

Lemma whole_shortest (fuel : nat) (n : Z) :
  1 <= n <= D -> D - n < Z.of_nat fuel ->
  exists c q, shortest fuel x num den D n = (c, q) /\ 0 <= q /\ 0 < c /\ c * 10 ^ q = a.
Proof.
  revert n. induction fuel as [|fuel IH]; intros n Hn Hf; [lia|].
  destruct (whole_neighbours n Hn) as [Hnb Hzero]. cbv zeta in Hnb, Hzero.
  set (q := D - n) in *. set (lo := a / 10 ^ q) in *.
  assert (Hq : 0 <= q) by (unfold q; lia).
  assert (Hp : 0 < 10 ^ q) by (apply pow10_pos; lia).
  assert (Hlo : 0 <= lo) by (apply Z.div_pos; lia).
  assert (Hstep : forall c1 c2,
             neighbours num den D n = (c1, c2, q) -> 0 <= c1 -> 0 <= c2 ->
             (n = D -> c1 = a) ->
             exists c q', shortest (S fuel) x num den D n = (c, q')
                          /\ 0 <= q' /\ 0 < c /\ c * 10 ^ q' = a).
  { intros c1 c2 Hnb' H1 H2 HD. cbn [shortest]. rewrite Hnb'.
    destruct (reads_back x c1 q) eqn:R1.
    - apply (whole_reads_back c1 q H1 Hq) in R1. exists c1, q.
      repeat split; try assumption; nia.
    - destruct (reads_back x c2 q) eqn:R2.
      + apply (whole_reads_back c2 q H2 Hq) in R2. exists c2, q.
        repeat split; try assumption; nia.
      + destruct (Z.eq_dec n D) as [E|E].
        * exfalso. specialize (HD E).
          assert (Hq0 : q = 0) by (unfold q; lia).
          assert (reads_back x c1 q = true)
            by (apply (whole_reads_back c1 q H1 Hq); rewrite HD, Hq0; simpl; lia).
          congruence.
        * apply IH; lia. }
  assert (HD : n = D -> a mod 10 ^ q = 0 /\ lo = a).
  { intros E. assert (Hq0 : q = 0) by (unfold q; lia). unfold lo. rewrite Hq0.
    change (10 ^ 0) with 1. now rewrite Z.mod_1_r, Z.div_1_r. }
  destruct Hnb as [Hnb | Hnb].
  - apply (Hstep lo (lo + 1) Hnb); [lia | lia | intros E; now destruct (HD E)].
  - apply (Hstep (lo + 1) lo Hnb); [lia | lia |].
    intros E. destruct (HD E) as [Hz _]. rewrite (Hzero Hz) in Hnb.
    injection Hnb as Hnb _. lia.
Qed.

(** The text of a whole number: its digits, then [".0"]. *)
Lemma whole_repr (neg : bool) :
  exists ip,
    PyFloat.repr (Finite neg m e) = (if neg then String "-" ip else ip) ++ ".0"
    /\ ip <> "" /\ forallb is_digit ip = true /\ PyInt.digits_val 0 ip = a.
Proof.
  destruct whole_D as [HD Hbounds].
  destruct (whole_shortest 16 1 ltac:(lia) ltac:(simpl; lia)) as (c & q & Hs & Hq & Hc & Hcq).
  assert (Hrepr : PyFloat.repr (Finite neg m e)
                  = let ds := PyInt.digits c in
                    let body := layout (rev (strip_zeros_rev (rev ds))) (q + len ds) in
                    if neg then String "-" body else body).
  { unfold PyFloat.repr, shortest_digits. fold num den. rewrite whole_dec_exponent.
    fold x. rewrite Hs. reflexivity. }
  rewrite Hrepr. cbv zeta. clear Hrepr.
  set (ds := PyInt.digits c).
  destruct (strip_trailing_zeros ds) as (j & Hj).
  set (s' := rev (strip_zeros_rev (rev ds))) in *.
  assert (Hds : forallb is_digit ds = true) by apply digits_all_digits.
  assert (Hs' : forallb is_digit s' = true).
  { rewrite Hj, forallb_append in Hds. now apply andb_prop in Hds as [H _]. }
  assert (Hlen : len ds = len s' + Z.of_nat j).
  { rewrite Hj at 1. rewrite len_append. unfold len at 2. now rewrite length_repeat_char. }
  assert (Hp : 0 < 10 ^ q) by (apply pow10_pos; lia).
  assert (Hq15 : q <= 15).
  { destruct (Z_le_gt_dec q 15) as [|Hgt]; [assumption|]. exfalso.
    assert (10 ^ 16 <= 10 ^ q) by (apply pow10_le; lia).
    assert (10 ^ D <= 10 ^ 16) by (apply pow10_le; lia). nia. }
  assert (Hc16 : c < 10 ^ (16 - q)).
  { assert (H16 : 10 ^ 16 = 10 ^ (16 - q) * 10 ^ q)
      by (rewrite <- Z.pow_add_r by lia; f_equal; lia).
    assert (10 ^ D <= 10 ^ 16) by (apply pow10_le; lia). nia. }
  assert (Hlds : 1 <= len ds <= 16 - q).
  { split; [apply (digits_len_spec c Hc) | apply digits_len; lia]. }
  assert (Hs'len : 0 <= len s') by apply len_nonneg.
  set (decpt := q + len ds) in *.
  assert (Hlayout : layout s' decpt
                    = s' ++ repeat_char "0" (Z.to_nat (decpt - len s')) ++ ".0").
  { unfold layout.
    replace ((-4 <? decpt) && (decpt <=? 16)) with true
      by (symmetry; apply andb_true_intro; split;
          [apply Z.ltb_lt | apply Z.leb_le]; unfold decpt; lia).
    replace (decpt <=? 0) with false by (symmetry; apply Z.leb_gt; unfold decpt; lia).
    replace (len s' <=? decpt) with true by (symmetry; apply Z.leb_le; unfold decpt; lia).
    reflexivity. }
  rewrite Hlayout.
  set (t := Z.to_nat (decpt - len s')).
  exists (s' ++ repeat_char "0" t).
  assert (Hval : PyInt.digits_val 0 (s' ++ repeat_char "0" t) = a).
  { rewrite digits_val_append_zeros.
    assert (Hc' : PyInt.digits_val 0 ds = c) by (apply digits_val_digits; lia).
    rewrite Hj, digits_val_append_zeros in Hc'.
    assert (Ht : Z.of_nat t = Z.of_nat j + q) by (unfold t, decpt; lia).
    rewrite Ht, Z.pow_add_r by lia. rewrite <- Hcq, <- Hc'. ring. }
  split; [|split; [|split]].
  - destruct neg; cbn [append]; now rewrite append_assoc.
  - intros E. rewrite E in Hval. simpl in Hval. lia.
  - rewrite forallb_append, Hs', repeat_zero_digits. reflexivity.
  - exact Hval.
Qed.

End WholeNumber.

Lemma of_str_digit_string (d : string) :
  d <> "" -> forallb is_digit d = true ->
  PyInt.of_str d = Some (PyInt.digits_val 0 d)
  /\ PyInt.of_str (String "-" d) = Some (- PyInt.digits_val 0 d).
Proof.
  intros Hne Hd.
  assert (Hns : forallb (fun c => negb (is_space c)) d = true)
    by (eapply forallb_impl; [apply is_digit_not_space | exact Hd]).
  unfold PyInt.of_str. split.
  - rewrite (strip_id _ Hns).
    destruct d as [|c d'] eqn:E; [contradiction|]. rewrite <- E in *.
    assert (Hc : is_digit c = true)
      by (rewrite E in Hd; simpl in Hd; now apply andb_prop in Hd as [Hc _]).
    assert (Hsign : split_sign d = (false, d)).
    { rewrite E. unfold split_sign.
      now rewrite (is_digit_not_char c "-" Hc eq_refl), (is_digit_not_char c "+" Hc eq_refl). }
    rewrite Hsign, underscores_ok_digits, remove_underscores_digits by assumption.
    rewrite Hd. rewrite E at 1. reflexivity.
  - rewrite strip_id by (simpl; exact Hns).
    unfold split_sign. change (Ascii.eqb "-" "-") with true. cbv iota.
    rewrite underscores_ok_digits, remove_underscores_digits by assumption.
    rewrite Hd. destruct d; [contradiction | reflexivity].
Qed.

(** A float text with one ['.'], and what [format_number] makes of
    it. *)
Lemma format_number_of_repr (value : pyval) (x : pyfloat)
    (integer_part decimal_part : string) (n length : Z) :
  is_empty_str value || is_None value = false ->
  py_float value = Ok x ->
  PyFloat.repr x = integer_part ++ String "." decimal_part ->
  dots integer_part = O -> dots decimal_part = O ->
  PyInt.of_str integer_part = Some n ->
  format_number value length
  = if length <? len (PyInt.format_comma n ++ "." ++ decimal_part)
    then Raise (ValueError ("Value is not a number: " ++ PyRepr.str value))
    else Ok (ljust (PyInt.format_comma n ++ "." ++ decimal_part) length).
Proof.
  intros Hne Hx Hrepr Hip Hdp Hn.
  destruct (length <? len (PyInt.format_comma n ++ "." ++ decimal_part)) eqn:E.
  - apply Z.ltb_lt in E.
    destruct (format_number_body_ValueError value length) as (msg & Hbody).
    { right. exists x, integer_part, decimal_part, n. split; [assumption|]. split.
      - rewrite Hrepr. now apply split_at_dot.
      - split; assumption. }
    now apply (format_number_ValueError value length msg).
  - apply Z.ltb_ge in E.
    now apply (format_number_of_text value x integer_part decimal_part n).
Qed.

(** An integer of magnitude below [2^53] in a Number field is written
    with all its digits, grouped in threes by commas, a minus sign in
    front when it is negative, and [".0"] behind, padded with spaces
    to the length; when that text is longer than the length the value
    is refused. *)
Theorem whole_numbers_are_formatted_exactly :
  forall n length : Z,
    Z.abs n < 2 ^ 53 ->
    format_number (PInt n) length
    = if length <? len (PyInt.format_comma n ++ ".0")
      then Raise (ValueError ("Value is not a number: " ++ PyInt.str n))
      else Ok (ljust (PyInt.format_comma n ++ ".0") length).
Proof.
  intros n length Hn.
  destruct (Z.eq_dec n 0) as [->|Hn0].
  - apply (format_number_of_repr (PInt 0) (Zero false) "0" "0" 0 length); reflexivity.
  - assert (Ha : 0 < Z.abs n) by lia.
    pose proof (whole_round (Z.abs n) Ha Hn (n <? 0)) as Hround. cbv zeta in Hround.
    destruct (whole_repr (Z.abs n) Ha Hn (n <? 0)) as (ip & Hrepr & Hne & Hd & Hval).
    cbv zeta in Hrepr.
    destruct (of_str_digit_string ip Hne Hd) as [Hpos Hneg].
    assert (Hfloat : py_float (PInt n) = Ok (Finite (n <? 0) (Z.to_pos (Z.abs n * 2 ^ (52 - Z.log2 (Z.abs n)))) (Z.log2 (Z.abs n) - 52))).
    { cbn [py_float]. unfold PyFloat.of_int.
      replace (n =? 0) with false by (symmetry; apply Z.eqb_neq; lia).
      now rewrite Hround. }
    eapply (format_number_of_repr (PInt n) _ (if n <? 0 then String "-" ip else ip) "0" n length).
    + reflexivity.
    + exact Hfloat.
    + rewrite Hrepr. reflexivity.
    + destruct (n <? 0); cbn [dots]; [change (Ascii.eqb "-" ".") with false|];
        now apply digits_no_dots.
    + reflexivity.
    + destruct (n <? 0) eqn:E.
      * rewrite Hneg, Hval. f_equal. apply Z.ltb_lt in E. lia.
      * rewrite Hpos, Hval. f_equal. apply Z.ltb_ge in E. lia.
Qed.

Lemma whole_numbers_are_formatted_exactly_witness :
  format_number (PInt (-1234567)) 15 = Ok "-1,234,567.0   "
  /\ format_number (PInt 9007199254740991) 20
     = Raise (ValueError "Value is not a number: 9007199254740991").
Proof.
  split.
  - exact (whole_numbers_are_formatted_exactly (-1234567) 15 ltac:(reflexivity)).
  - exact (whole_numbers_are_formatted_exactly 9007199254740991 20 ltac:(reflexivity)).
Defined.

(** ** Records as wide as the header *)

Lemma lines_have_schema_width (items : list pyval) (metadata : list field_spec)
    (log log' : list log_record) (lines : list string) :
  Forall (fun f => 0 <= field_length f) metadata ->
  process_items items metadata log = (Ok lines, log') ->
  forall line, In line lines -> len line = sum_lengths metadata.
Proof.
  intros Hlen Hrun.
  destruct (process_items_result items metadata log)
    as [(lines' & added & Hrun' & Hlines & _) | (e & l & d & f & Hrun' & _)];
    rewrite Hrun' in Hrun; [|discriminate].
  injection Hrun as <- _.
  assert (Hs : Forall (fun f => 0 <= field_length f) (sorted metadata)).
  { rewrite Forall_forall in *. intros f Hf. apply Hlen.
    apply (Permutation_in f (sorted_perm metadata) Hf). }
  intros line Hin.
  assert (Hex : exists d, is_line_of metadata d line).
  { clear - Hlines Hin. induction Hlines as [|d l ds ls H _ IH]; [destruct Hin|].
    destruct Hin as [->|Hin]; [now exists d | now apply IH]. }
  destruct Hex as (d & parts & Hparts & ->).
  destruct (contributions_len d parts (sorted metadata) Hs Hparts) as [_ ->].
  apply sum_lengths_perm, sorted_perm.
Qed.

(** With declared lengths that are not negative every record has the
    width of the schema, the sum of the declared lengths.  When that
    width is at least the length of the header's name plus 6, no
    record is padded, and the backup file, when there is one, has the
    content of the primary file: the header, then the records, each
    of the width of the schema. *)
Theorem primary_and_backup_agree_on_wide_records :
  forall (config : list (string * string)) (metadata : list field_spec)
         (json_data : pyval) (log log' : list log_record) (files : list file),
    Forall (fun f => 0 <= field_length f) metadata ->
    main config metadata json_data log = (Ok files, log') ->
    exists source_name lines log1,
      config_item config "sourceName" = Ok source_name
      /\ process_json json_data metadata log = (Ok lines, log1)
      /\ (forall line, In line lines -> len line = sum_lengths metadata)
      /\ (len (basename source_name) + 6 <= sum_lengths metadata ->
          exists header,
            Forall (fun f : file => snd f = header ++ join lines) files).
Proof.
  intros config metadata json_data log log' files Hlen Hrun.
  destruct (main_returns _ _ _ _ _ _ Hrun)
    as (source_path & source_name & result_path & lines & log1
        & H1 & H2 & H3 & H4 & H5).
  exists source_name, lines, log1. split; [exact H2|]. split; [exact H4|].
  assert (Hw : forall line, In line lines -> len line = sum_lengths metadata)
    by (unfold process_json in H4; exact (lines_have_schema_width _ _ _ _ _ Hlen H4)).
  split; [exact Hw|]. intros Hwide.
  cbv zeta in H5. rewrite basename_path_join in H5.
  set (name := basename source_name) in *.
  set (width := Z.max (max_or_0 (List.map len lines)) (len name + 6)) in *.
  exists (ljust (PyInt.format_06 width ++ name) width).
  assert (Hsame : List.map (fun line => ljust line width) lines = lines).
  { apply ljust_same_length. intros line Hin. rewrite (Hw line Hin).
    destruct (max_or_0_spec (List.map len lines)) as (_ & _ & Hmax).
    assert (Hne : List.map len lines <> [])
      by (destruct lines; [destruct Hin | discriminate]).
    apply Hmax, in_map_iff in Hne as (l1 & Hl1 & Hin1).
    rewrite (Hw l1 Hin1) in Hl1. unfold width. lia. }
  rewrite Hsame in H5. subst files.
  constructor; [reflexivity|].
  destruct (String.eqb _ ""); constructor; [reflexivity | constructor].
Qed.

Lemma primary_and_backup_agree_on_wide_records_witness :
  exists header lines,
    Forall (fun f : file => snd f = header ++ join lines)
           [("/out/output.iff", "000014a.json  42.0  bob           alexandr");
            ("/bak/output.iff", "000014a.json  42.0  bob           alexandr")].
Proof.
  assert (Hrun :
    main [("logPath", "/log"); ("logFileName", "run.log"); ("sourcePath", "/data");
          ("sourceSheet", "schema.csv"); ("sourceName", "a.json");
          ("resultPath4IFF", "/out"); ("resultBackupPath4CSV", "/bak")]
         [(2, "name", "String", 8); (1, "id", "Number", 6)]
         (PList [PDict [("id", PInt 42); ("name", PStr "bob")]; PInt 7;
                 PDict [("name", PStr "alexandra")]]) []
    = (Ok [("/out/output.iff", "000014a.json  42.0  bob           alexandr");
           ("/bak/output.iff", "000014a.json  42.0  bob           alexandr")],
       [(WARNING, "Skipping item because it's not a dictionary: 7");
        (INFO, "Generated IFF file: /out/output.iff");
        (INFO, "Backed up IFF file to: /bak/output.iff")]))
    by (vm_compute; reflexivity).
  assert (Hlen : Forall (fun f => 0 <= field_length f)
                        [(2, "name", "String", 8); (1, "id", "Number", 6)])
    by (repeat constructor; discriminate).
  destruct (primary_and_backup_agree_on_wide_records _ _ _ _ _ _ Hlen Hrun)
    as (source_name & lines & _ & Hname & _ & _ & Hwide).
  injection Hname as <-.
  destruct (Hwide ltac:(vm_compute; discriminate)) as (header & Hfiles).
  exact (ex_intro _ header (ex_intro _ lines Hfiles)).
Defined.

(** ** Whole numbers given as text *)

Lemma span_digits_all (d : string) :
  forallb is_digit d = true -> span_digits d = (d, "").
Proof.
  induction d as [|c d IH]; [reflexivity|]. cbn [forallb span_digits].
  intros H. apply andb_prop in H as [Hc Hd]. now rewrite Hc, (IH Hd).
Qed.

Lemma lower_digit (c : ascii) : is_digit c = true -> lower c = c.
Proof.
  intros H. apply is_digit_code in H. unfold lower.
  replace (65 <=? code c) with false by (symmetry; apply Z.leb_gt; lia). reflexivity.
Qed.

Lemma parse_plain_digits (neg : bool) (d : string) :
  d <> "" -> forallb is_digit d = true ->
  parse_plain (if neg then String "-" d else d)
  = Some (of_decimal neg (PyInt.digits_val 0 d) 0).
Proof.
  intros Hne Hd. destruct d as [|c d'] eqn:E; [contradiction|]. rewrite <- E in *.
  assert (Hc : is_digit c = true)
    by (rewrite E in Hd; cbn [forallb] in Hd; now apply andb_prop in Hd as [Hc _]).
  assert (Hsign : split_sign (if neg then String "-" d else d) = (neg, d)).
  { destruct neg; [reflexivity|]. rewrite E. unfold split_sign.
    now rewrite (is_digit_not_char c "-" Hc eq_refl), (is_digit_not_char c "+" Hc eq_refl). }
  unfold parse_plain. rewrite Hsign.
  assert (Hword : forall w, (String.eqb (map lower d) (String "i" w) = false)
                            /\ (String.eqb (map lower d) (String "n" w) = false)).
  { intros w. rewrite E. cbn [map String.eqb]. rewrite (lower_digit c Hc).
    now rewrite (is_digit_not_char c "i" Hc eq_refl), (is_digit_not_char c "n" Hc eq_refl). }
  rewrite (proj1 (Hword "nf")), (proj1 (Hword "nfinity")), (proj2 (Hword "an")).
  cbn [orb]. rewrite (span_digits_all d Hd). cbn [span_digits].
  rewrite append_nil_r. cbn [parse_exponent]. change (len "") with 0.
  rewrite E. reflexivity.
Qed.

Lemma float_of_digit_string (neg : bool) (d : string) :
  d <> "" -> forallb is_digit d = true ->
  PyFloat.of_str (if neg then String "-" d else d)
  = Some (of_decimal neg (PyInt.digits_val 0 d) 0).
Proof.
  intros Hne Hd.
  assert (Hns : forallb (fun c => negb (is_space c)) d = true)
    by (eapply forallb_impl; [apply is_digit_not_space | exact Hd]).
  unfold PyFloat.of_str.
  rewrite strip_id by (destruct neg; [cbn [forallb]; rewrite Hns; reflexivity | exact Hns]).
  assert (Hu : underscores_ok false (if neg then String "-" d else d) = true).
  { destruct neg; [|now apply underscores_ok_digits].
    cbn [underscores_ok]. change (Ascii.eqb "-" "_") with false. cbv iota.
    now apply underscores_ok_digits. }
  assert (Hr : remove_underscores (if neg then String "-" d else d)
               = if neg then String "-" d else d).
  { destruct neg; [|now apply remove_underscores_digits].
    cbn [remove_underscores]. change (Ascii.eqb "-" "_") with false. cbv iota.
    now rewrite remove_underscores_digits. }
  rewrite Hu, Hr. now apply parse_plain_digits.
Qed.

(** A text of decimal digits, with or without a minus sign in front,
    that stands for a whole number of magnitude below [2^53] is
    formatted in a Number field as that number is: leading zeros and
    the sign of a zero are dropped, the digits are grouped, [".0"] is
    added. *)
Theorem digit_text_is_formatted_as_its_number :
  forall (s : string) (n length : Z),
    sign_digits s ->
    PyInt.of_str s = Some n ->
    Z.abs n < 2 ^ 53 ->
    format_number (PStr s) length
    = if length <? len (PyInt.format_comma n ++ ".0")
      then Raise (ValueError ("Value is not a number: " ++ s))
      else Ok (ljust (PyInt.format_comma n ++ ".0") length).
Proof.
  intros s n length (d & Hne & Hd & Hs) Hn Hlt.
  destruct (of_str_digit_string d Hne Hd) as [Hpos Hneg].
  set (a := PyInt.digits_val 0 d) in *.
  assert (Hform : exists neg : bool,
             s = (if neg then String "-" d else d) /\ n = if neg then - a else a).
  { destruct Hs as [-> | ->].
    - exists false. split; [reflexivity | congruence].
    - exists true. split; [reflexivity | congruence]. }
  destruct Hform as (neg & -> & ->).
  assert (Hnonempty : is_empty_str (PStr (if neg then String "-" d else d))
                      || is_None (PStr (if neg then String "-" d else d)) = false)
    by (destruct neg; [reflexivity | destruct d; [contradiction | reflexivity]]).
  assert (Hfloat : py_float (PStr (if neg then String "-" d else d))
                   = Ok (of_decimal neg a 0)).
  { cbn [py_float]. now rewrite (float_of_digit_string neg d Hne Hd). }
  assert (Ha0 : 0 <= a).
  { destruct (Z_le_gt_dec 0 a) as [|Hgt]; [assumption|]. exfalso.
    assert (Hdv : forall t acc, 0 <= acc -> forallb is_digit t = true ->
                                0 <= PyInt.digits_val acc t).
    { induction t as [|c t IH]; intros acc Hacc Ht; [exact Hacc|].
      cbn [PyInt.digits_val forallb] in *. apply andb_prop in Ht as [Hc Ht].
      apply IH; [|exact Ht]. apply is_digit_code in Hc. unfold digit_val. lia. }
    pose proof (Hdv d 0 ltac:(lia) Hd). unfold a in Hgt. lia. }
  destruct (Z.eq_dec a 0) as [Hz|Hnz].
  - rewrite Hz in *. change (of_decimal neg 0 0) with (Zero neg) in Hfloat.
    replace (if neg then - 0 else 0) with 0 by now destruct neg.
    eapply (format_number_of_repr (PStr (if neg then String "-" d else d)) _
              (if neg then "-0" else "0") "0" 0 length).
    + exact Hnonempty.
    + exact Hfloat.
    + now destruct neg.
    + now destruct neg.
    + reflexivity.
    + now destruct neg.
  - assert (Ha : 0 < a) by lia.
    assert (Ha53 : a < 2 ^ 53) by (destruct neg; lia).
    pose proof (whole_round a Ha Ha53 neg) as Hround. cbv zeta in Hround.
    destruct (whole_repr a Ha Ha53 neg) as (ip & Hrepr & Hne' & Hd' & Hval).
    cbv zeta in Hrepr.
    destruct (of_str_digit_string ip Hne' Hd') as [Hpos' Hneg'].
    assert (Hx : of_decimal neg a 0
                 = Finite neg (Z.to_pos (a * 2 ^ (52 - Z.log2 a))) (Z.log2 a - 52)).
    { unfold of_decimal. replace (a =? 0) with false by (symmetry; apply Z.eqb_neq; lia).
      change (0 <=? 0) with true. cbv iota. change (10 ^ 0) with 1.
      rewrite Z.mul_1_r. exact Hround. }
    rewrite Hx in Hfloat.
    eapply (format_number_of_repr (PStr (if neg then String "-" d else d)) _
              (if neg then String "-" ip else ip) "0" (if neg then - a else a) length).
    + exact Hnonempty.
    + exact Hfloat.
    + rewrite Hrepr. reflexivity.
    + destruct neg; cbn [dots]; [change (Ascii.eqb "-" ".") with false|];
        now apply digits_no_dots.
    + reflexivity.
    + destruct neg; [rewrite Hneg' | rewrite Hpos']; now rewrite Hval.
Qed.

Lemma digit_text_is_formatted_as_its_number_witness :
  format_number (PStr "-0012345") 12 = Ok "-12,345.0   "
  /\ format_number (PStr "-0") 5 = Ok "0.0  ".
Proof.
  split.
  - apply (digit_text_is_formatted_as_its_number "-0012345" (-12345) 12).
    + exists "0012345". split; [discriminate|]. split; [reflexivity | now right].
    + reflexivity.
    + reflexivity.
  - apply (digit_text_is_formatted_as_its_number "-0" 0 5).
    + exists "0". split; [discriminate|]. split; [reflexivity | now right].
    + reflexivity.
    + reflexivity.
Defined.
